(** * project-hub: the tenant-scoped authorization core

    A shallow embedding of the Express/Prisma backend
    ([backend/src/middleware], [backend/src/utils/permissions.ts] and the
    route handlers under [backend/src/routes]) together with the properties
    of the specification that concern it.

    - Database tables are lists of rows in storage order; a Prisma
      [findFirst]/[findUnique] is [find], [findMany] is [filter], [create]
      appends a row and [update]/[delete] act on the rows with the given id.
    - A handler is a computation in a state-and-exception monad over the
      database: writes made before an exception stay in the store (the
      handlers open no transaction), and the exception reaches the
      [errorHandler] middleware through [next(error)].
    - Strings are sequences of ASCII characters; [toUpperCase] and
      [toLowerCase] act on the letters a-z / A-Z and leave every other
      character alone.
    - [new Date()] is a handler argument [now] (milliseconds), generated ids
      and tokens are handler arguments too, and the outcome of the external
      mail transport and of the notification write, the time zone of the
      server and [path.extname] are given by an [Env].
    - [zod]'s format tests and the message of its error are given by a
      [Zod]; a list that the source orders by [createdAt] descending is the
      reverse of the storage order. *)

From Stdlib Require Import String Ascii List ZArith Bool Lia Arith.
Import ListNotations.
Local Open Scope string_scope.

Set Implicit Arguments.

(** ** Strings *)

Module Str.

Definition isLower (c : ascii) : bool :=
  let n := nat_of_ascii c in (97 <=? n)%nat && (n <=? 122)%nat.

Definition isUpper (c : ascii) : bool :=
  let n := nat_of_ascii c in (65 <=? n)%nat && (n <=? 90)%nat.

Definition isDigit (c : ascii) : bool :=
  let n := nat_of_ascii c in (48 <=? n)%nat && (n <=? 57)%nat.

Definition upperChar (c : ascii) : ascii :=
  if isLower c then ascii_of_nat (nat_of_ascii c - 32) else c.

Definition lowerChar (c : ascii) : ascii :=
  if isUpper c then ascii_of_nat (nat_of_ascii c + 32) else c.

(** [String.prototype.toUpperCase] *)
Fixpoint toUpperCase (s : string) : string :=
  match s with
  | EmptyString => EmptyString
  | String c r => String (upperChar c) (toUpperCase r)
  end.

(** [String.prototype.toLowerCase] *)
Fixpoint toLowerCase (s : string) : string :=
  match s with
  | EmptyString => EmptyString
  | String c r => String (lowerChar c) (toLowerCase r)
  end.

(** [String.prototype.includes] *)
Definition includes (s pat : string) : bool :=
  match index 0 pat s with Some _ => true | None => false end.

(** [String.prototype.charAt]: the empty string out of range. *)
Definition charAt (s : string) (i : nat) : string :=
  match get i s with Some c => String c EmptyString | None => EmptyString end.

Fixpoint allChars (P : ascii -> bool) (s : string) : bool :=
  match s with
  | EmptyString => true
  | String c r => P c && allChars P r
  end.

(** Two strings that differ at most in the case of their letters. *)
Definition equalsIgnoreCase (a b : string) : bool :=
  String.eqb (toLowerCase a) (toLowerCase b).

(** White space among the ASCII characters: tab, line feed, vertical tab,
    form feed, carriage return and space. *)
Definition isSpace (c : ascii) : bool :=
  let n := nat_of_ascii c in ((9 <=? n) && (n <=? 13) || (n =? 32))%nat.

Fixpoint trimStart (s : string) : string :=
  match s with
  | String c r => if isSpace c then trimStart r else s
  | EmptyString => EmptyString
  end.

(** The string without its trailing white space. *)
Fixpoint trimEnd (s : string) : string :=
  match s with
  | EmptyString => EmptyString
  | String c r =>
      match trimEnd r with
      | EmptyString => if isSpace c then EmptyString else String c EmptyString
      | r' => String c r'
      end
  end.

(** [String.prototype.trim] *)
Definition trim (s : string) : string := trimEnd (trimStart s).

End Str.

(** ** Data model *)

Inductive ProjectRole := OWNER | ADMIN | MEMBER | VIEWER.

Inductive InvitationStatus := INV_PENDING | INV_ACCEPTED | INV_DECLINED | INV_EXPIRED.

Inductive JoinRequestStatus := JR_PENDING | JR_ACCEPTED | JR_DECLINED.

Definition ProjectRole_eqb (a b : ProjectRole) : bool :=
  match a, b with
  | OWNER, OWNER | ADMIN, ADMIN | MEMBER, MEMBER | VIEWER, VIEWER => true
  | _, _ => false
  end.

Definition InvitationStatus_eqb (a b : InvitationStatus) : bool :=
  match a, b with
  | INV_PENDING, INV_PENDING | INV_ACCEPTED, INV_ACCEPTED
  | INV_DECLINED, INV_DECLINED | INV_EXPIRED, INV_EXPIRED => true
  | _, _ => false
  end.

Definition JoinRequestStatus_eqb (a b : JoinRequestStatus) : bool :=
  match a, b with
  | JR_PENDING, JR_PENDING | JR_ACCEPTED, JR_ACCEPTED | JR_DECLINED, JR_DECLINED => true
  | _, _ => false
  end.

Record Profile := mkProfile
  { pr_id : string; pr_name : string; pr_email : string }.

Record User := mkUser
  { u_id : string; u_email : string; u_tenantId : string;
    u_profile : option Profile }.

Record Project := mkProject
  { p_id : string; p_tenantId : string; p_name : string;
    p_description : option string; p_status : string; p_color : string;
    p_code : option string; p_createdBy : string }.

Record ProjectMember := mkMember
  { m_tenantId : string; m_projectId : string; m_userId : string;
    m_role : ProjectRole }.

Record Invitation := mkInvitation
  { i_id : string; i_tenantId : string; i_projectId : string;
    i_email : string; i_role : ProjectRole; i_status : InvitationStatus;
    i_invitedBy : string; i_token : string; i_expiresAt : Z }.

Record JoinRequest := mkJoinRequest
  { j_id : string; j_tenantId : string; j_projectId : string;
    j_userId : string; j_message : option string;
    j_status : JoinRequestStatus }.

Record Notification := mkNotification
  { n_tenantId : string; n_userId : string; n_type : string;
    n_title : string; n_message : string; n_projectId : string;
    n_joinRequestId : option string; n_read : bool }.

Record ActivityLog := mkActivity
  { a_tenantId : string; a_projectId : string; a_userId : string;
    a_action : string; a_entityType : string; a_entityId : string }.

Record Task := mkTask
  { t_id : string; t_tenantId : string; t_projectId : string;
    t_title : string }.

Record TaskComment := mkComment
  { c_id : string; c_tenantId : string; c_taskId : string;
    c_userId : string; c_content : string }.

Record TaskAttachment := mkAttachment
  { at_id : string; at_tenantId : string; at_taskId : string;
    at_userId : string; at_fileName : string }.

(** The persistent store. *)
Record Db := mkDb
  { users : list User;
    projects : list Project;
    members : list ProjectMember;
    invitations : list Invitation;
    joinRequests : list JoinRequest;
    notifications : list Notification;
    activityLogs : list ActivityLog;
    tasks : list Task;
    comments : list TaskComment;
    attachments : list TaskAttachment }.

(** [req.user], set by the [authenticate] middleware. *)
Record Principal := mkPrincipal
  { userId : string; tenantId : string; email : string }.

(** A thrown error: its [name], its Prisma [code] if any, its [message]. *)
Record Exn := mkExn
  { e_name : string; e_code : option string; e_message : string }.

(** What the collaborators outside the store do for one request: whether the
    mail transport accepts the message and whether the notification write
    goes through (or the exception each raises), and whether [NODE_ENV] is
    [production]; the time zone of the server, as the offset [localTZA t
    isUTC] (milliseconds) of ECMA-262 between local time and UTC at the UTC
    instant or the local time [t]; and [path.extname] of the platform. *)
Record Env := mkEnv
  { mailFailure : option Exn;
    notificationFailure : option Exn;
    production : bool;
    localTZA : Z -> bool -> Z;
    extname : string -> string }.

Definition msPerDay : Z := 24 * 60 * 60 * 1000.

(** [d.setDate(d.getDate() + days)] on the instant [t]: the local time of [t]
    moved by whole days, read back as a local time. *)
Definition addLocalDays (env : Env) (t days : Z) : Z :=
  let local := (t + localTZA env t true + days * msPerDay)%Z in
  (local - localTZA env local false)%Z.

(** ** Responses and the handler monad *)

(** [res.status(s).json(body)] and [res.status(s).json({ error })]. *)
Inductive Response (A : Type) : Type :=
| Json (status : Z) (body : A)
| Fail (status : Z) (error : string).

Arguments Json {A} status body.
Arguments Fail {A} status error.

Definition statusOf {A} (r : Response A) : Z :=
  match r with Json s _ => s | Fail s _ => s end.

Definition isSuccess {A} (r : Response A) : bool :=
  match r with Json _ _ => true | Fail _ _ => false end.

(** The error kinds of the specification, read off a response. *)
Inductive Outcome :=
| Success | NotFound | TenantMismatch | Forbidden | Conflict | Gone
| BadRequest | InternalError.

Definition outcome {A} (r : Response A) : Outcome :=
  match r with
  | Json _ _ => Success
  | Fail s msg =>
      if (s =? 404)%Z then NotFound
      else if (s =? 403)%Z then
        if Str.includes msg "Tenant mismatch" then TenantMismatch else Forbidden
      else if (s =? 409)%Z then Conflict
      else if (s =? 410)%Z then Gone
      else if (s =? 400)%Z then BadRequest
      else InternalError
  end.

(** A computation over the store that may throw; the store it leaves behind
    is kept in both cases. *)
Definition M (A : Type) : Type := Db -> (Exn + A) * Db.

Definition ret {A} (a : A) : M A := fun db => (inr a, db).

Definition bind {A B} (c : M A) (k : A -> M B) : M B :=
  fun db =>
    match c db with
    | (inl e, db') => (inl e, db')
    | (inr a, db') => k a db'
    end.

Definition throw {A} (e : Exn) : M A := fun db => (inl e, db).

Definition get : M Db := fun db => (inr db, db).

Definition modify (f : Db -> Db) : M unit := fun db => (inr tt, f db).

(** [try { c } catch (e) { h e }] *)
Definition tryCatch {A} (c : M A) (h : Exn -> M A) : M A :=
  fun db =>
    match c db with
    | (inl e, db') => h e db'
    | (inr a, db') => (inr a, db')
    end.

Declare Scope handler_scope.
Delimit Scope handler_scope with handler.
Notation "x <- c ;; k" := (bind c (fun x => k))
  (at level 61, c at next level, right associativity) : handler_scope.
Notation "c ;;; k" := (bind c (fun _ => k))
  (at level 61, right associativity) : handler_scope.
Local Open Scope handler_scope.

(** [new Error(message)] *)
Definition Error (message : string) : Exn := mkExn "Error" None message.

Definition opt_eqb (a : option string) (b : string) : bool :=
  match a with Some x => String.eqb x b | None => false end.

(** [middleware/errorHandler.ts] *)
Definition errorHandler {A} (env : Env) (err : Exn) : Response A :=
  let known := String.eqb (e_name err) "PrismaClientKnownRequestError" in
  if known && opt_eqb (e_code err) "P2002" then Fail 409 "Duplicate entry"
  else if known && opt_eqb (e_code err) "P2025" then Fail 404 "Record not found"
  else if known && opt_eqb (e_code err) "P2021" then
    Fail 500 "Database table does not exist. Please run: npx prisma db push"
  else if String.eqb (e_name err) "PrismaClientValidationError" then
    Fail 400 (if production env then "Invalid data provided" else e_message err)
  else if Str.includes (e_message err) "doesn't exist"
          || Str.includes (e_message err) "Unknown table" then
    Fail 500 "Database tables not found. Please run database migration: npx prisma db push"
  else if Str.includes (e_message err) "Unauthorized"
          || Str.includes (e_message err) "Tenant mismatch" then
    Fail 403 (e_message err)
  else
    Fail 500 (if production env then "Internal server error" else e_message err).

(** A route: the handler body inside [try { ... } catch (error) { next(error) }],
    with [errorHandler] as the next error middleware. *)
Definition route {A} (env : Env) (body : M (Response A)) (db : Db)
  : Response A * Db :=
  match body db with
  | (inr r, db') => (r, db')
  | (inl e, db') => (errorHandler env e, db')
  end.

(** ** Request schemas: [zod]

    The tests behind [z.string().email()] and [z.string().uuid()], and the
    message of the [ZodError] that [parse] throws, from the paths of the
    fields it refuses. *)

Record Zod := mkZod
  { z_email : string -> bool;
    z_uuid : string -> bool;
    z_message : list string -> string }.

Definition ZodError (z : Zod) (paths : list string) : Exn :=
  mkExn "ZodError" None (z_message z paths).

Definition issue (ok : bool) (path : string) : list string :=
  if ok then [] else [path].

(** [schema.parse(req.body)]: [paths] are the fields refused. *)
Definition parse (z : Zod) (paths : list string) : M unit :=
  match paths with
  | [] => ret tt
  | _ => throw (ZodError z paths)
  end.

(** An optional field: absent, or accepted by [check]. *)
Definition optional (check : string -> bool) (field : option string) : bool :=
  match field with Some v => check v | None => true end.

(** ** Tenant guard: [middleware/tenant.ts] *)

Definition TenantMismatchError : Exn := Error "Unauthorized: Tenant mismatch".

Definition ensureTenantAccess (userTenantId resourceTenantId : string) : M unit :=
  if negb (String.eqb userTenantId resourceTenantId)
  then throw TenantMismatchError
  else ret tt.

(** ** Membership and roles: [utils/permissions.ts] *)

Record AccessResult := mkAccess
  { hasAccess : bool; role : option ProjectRole }.

Definition findProjectById (db : Db) (id : string) : option Project :=
  find (fun p => String.eqb (p_id p) id) (projects db).

Definition findMembership (db : Db) (projectId userId tenantId : string)
  : option ProjectMember :=
  find (fun m => String.eqb (m_projectId m) projectId
                 && String.eqb (m_userId m) userId
                 && String.eqb (m_tenantId m) tenantId) (members db).

Definition checkProjectAccess (userId projectId tenantId : string)
  : M AccessResult :=
  db <- get ;;
  match findMembership db projectId userId tenantId with
  | None =>
      match findProjectById db projectId with
      | None => ret (mkAccess false None)
      | Some project =>
          ensureTenantAccess tenantId (p_tenantId project) ;;;
          if String.eqb (p_createdBy project) userId
          then ret (mkAccess true (Some OWNER))
          else ret (mkAccess false None)
      end
  | Some membership => ret (mkAccess true (Some (m_role membership)))
  end.

Definition canWrite (role : option ProjectRole) : bool :=
  match role with
  | Some OWNER | Some ADMIN | Some MEMBER => true
  | _ => false
  end.

Definition canAdmin (role : option ProjectRole) : bool :=
  match role with
  | Some OWNER | Some ADMIN => true
  | _ => false
  end.

(** ** Store primitives *)

Definition setProjects (db : Db) (v : list Project) : Db :=
  mkDb (users db) v (members db) (invitations db) (joinRequests db)
       (notifications db) (activityLogs db) (tasks db) (comments db)
       (attachments db).

Definition setMembers (db : Db) (v : list ProjectMember) : Db :=
  mkDb (users db) (projects db) v (invitations db) (joinRequests db)
       (notifications db) (activityLogs db) (tasks db) (comments db)
       (attachments db).

Definition setInvitations (db : Db) (v : list Invitation) : Db :=
  mkDb (users db) (projects db) (members db) v (joinRequests db)
       (notifications db) (activityLogs db) (tasks db) (comments db)
       (attachments db).

Definition setJoinRequests (db : Db) (v : list JoinRequest) : Db :=
  mkDb (users db) (projects db) (members db) (invitations db) v
       (notifications db) (activityLogs db) (tasks db) (comments db)
       (attachments db).

Definition setNotifications (db : Db) (v : list Notification) : Db :=
  mkDb (users db) (projects db) (members db) (invitations db)
       (joinRequests db) v (activityLogs db) (tasks db) (comments db)
       (attachments db).

Definition setActivityLogs (db : Db) (v : list ActivityLog) : Db :=
  mkDb (users db) (projects db) (members db) (invitations db)
       (joinRequests db) (notifications db) v (tasks db) (comments db)
       (attachments db).

Definition setTasks (db : Db) (v : list Task) : Db :=
  mkDb (users db) (projects db) (members db) (invitations db)
       (joinRequests db) (notifications db) (activityLogs db) v
       (comments db) (attachments db).

Definition setComments (db : Db) (v : list TaskComment) : Db :=
  mkDb (users db) (projects db) (members db) (invitations db)
       (joinRequests db) (notifications db) (activityLogs db) (tasks db) v
       (attachments db).

Definition setAttachments (db : Db) (v : list TaskAttachment) : Db :=
  mkDb (users db) (projects db) (members db) (invitations db)
       (joinRequests db) (notifications db) (activityLogs db) (tasks db)
       (comments db) v.

(** [prisma.projectMember.create] *)
Definition addMember (m : ProjectMember) (db : Db) : Db :=
  setMembers db (members db ++ [m]).

Definition createMember (m : ProjectMember) : M unit := modify (addMember m).

(** [prisma.activityLog.create] *)
Definition addActivityLog (a : ActivityLog) (db : Db) : Db :=
  setActivityLogs db (activityLogs db ++ [a]).

Definition createActivityLog (a : ActivityLog) : M unit :=
  modify (addActivityLog a).

(** [prisma.notification.create]: the write the environment may refuse. *)
Definition addNotification (n : Notification) (db : Db) : Db :=
  setNotifications db (notifications db ++ [n]).

Definition createNotification (env : Env) (n : Notification) : M unit :=
  match notificationFailure env with
  | Some e => throw e
  | None => modify (addNotification n)
  end.

Definition withInvitationStatus (st : InvitationStatus) (i : Invitation)
  : Invitation :=
  mkInvitation (i_id i) (i_tenantId i) (i_projectId i) (i_email i) (i_role i)
               st (i_invitedBy i) (i_token i) (i_expiresAt i).

(** [prisma.invitation.update({ where: { id }, data: { status } })] *)
Definition setInvitationStatus (id : string) (st : InvitationStatus) (db : Db)
  : Db :=
  setInvitations db
    (map (fun i => if String.eqb (i_id i) id then withInvitationStatus st i else i)
         (invitations db)).

Definition updateInvitationStatus (id : string) (st : InvitationStatus) : M unit :=
  modify (setInvitationStatus id st).

Definition withJoinRequestStatus (st : JoinRequestStatus) (j : JoinRequest)
  : JoinRequest :=
  mkJoinRequest (j_id j) (j_tenantId j) (j_projectId j) (j_userId j)
                (j_message j) st.

(** [prisma.joinRequest.update({ where: { id }, data: { status } })] *)
Definition setJoinRequestStatus (id : string) (st : JoinRequestStatus) (db : Db)
  : Db :=
  setJoinRequests db
    (map (fun j => if String.eqb (j_id j) id then withJoinRequestStatus st j else j)
         (joinRequests db)).

Definition updateJoinRequestStatus (id : string) (st : JoinRequestStatus) : M unit :=
  modify (setJoinRequestStatus id st).

(** Whether the user holds a membership row in the project. *)
Definition isMemberOf (db : Db) (projectId uid : string) : bool :=
  existsb (fun m => String.eqb (m_projectId m) projectId
                    && String.eqb (m_userId m) uid) (members db).

(** [project.members]: the relation loaded by [include: { members }]. *)
Definition membersOf (db : Db) (projectId : string) : list ProjectMember :=
  filter (fun m => String.eqb (m_projectId m) projectId) (members db).

Definition findProjectByCode (db : Db) (code : string) : option Project :=
  find (fun p => opt_eqb (p_code p) code) (projects db).

Definition findTaskById (db : Db) (id : string) : option Task :=
  find (fun t => String.eqb (t_id t) id) (tasks db).

Definition findUserById (db : Db) (id : string) : option User :=
  find (fun u => String.eqb (u_id u) id) (users db).

(** ** Project routes: [routes/projects.ts] *)

Record ProjectView := mkProjectView
  { pv_project : Project; pv_members : list ProjectMember;
    pv_tasks : list Task }.

(** A project with its members and its tasks, the tasks newest first. *)
Definition viewOf (db : Db) (p : Project) : ProjectView :=
  mkProjectView p (membersOf db (p_id p))
    (rev (filter (fun t => String.eqb (t_projectId t) (p_id p)) (tasks db))).

Definition inIds (id : string) (ids : list string) : bool :=
  existsb (String.eqb id) ids.

(** [GET /projects]: the projects the caller is a member of or created,
    newest first. *)
Definition listProjects (P : Principal) : M (Response (list ProjectView)) :=
  db <- get ;;
  let memberProjectIds :=
    map m_projectId
        (filter (fun m => String.eqb (m_userId m) (userId P)) (members db)) in
  let createdProjectIds :=
    map p_id
        (filter (fun p => String.eqb (p_createdBy p) (userId P)
                          && String.eqb (p_tenantId p) (tenantId P))
                (projects db)) in
  let accessibleProjectIds :=
    nodup string_dec (memberProjectIds ++ createdProjectIds) in
  if (length accessibleProjectIds =? 0)%nat then ret (Json 200 [])
  else
    ret (Json 200
      (map (viewOf db)
        (rev
          (filter (fun p =>
                     inIds (p_id p) accessibleProjectIds
                     && (String.eqb (p_tenantId p) (tenantId P)
                         || (inIds (p_id p) memberProjectIds
                             && existsb (fun m => String.eqb (m_userId m) (userId P))
                                        (membersOf db (p_id p)))))
                  (projects db))))).

(** [GET /projects/:id] *)
Definition getProject (P : Principal) (id : string) : M (Response ProjectView) :=
  db <- get ;;
  match findProjectById db id with
  | None => ret (Fail 404 "Project not found")
  | Some project =>
      let isCreator := String.eqb (p_createdBy project) (userId P) in
      let isMember :=
        existsb (fun m => String.eqb (m_userId m) (userId P))
                (membersOf db (p_id project)) in
      if isCreator || isMember then ret (Json 200 (viewOf db project))
      else ret (Fail 403 "You do not have access to this project")
  end.

Definition chars : string := "ABCDEFGHIJKLMNOPQRSTUVWXYZ0123456789".

(** The inner loop of [generateProjectCode]: [n] characters, the [k]-th call
    of [Math.random] giving the index [rand k] = [floor(random * chars.length)]. *)
Fixpoint drawCode (rand : nat -> nat) (k n : nat) : string :=
  match n with
  | O => EmptyString
  | S n' => Str.charAt chars (rand k) ++ drawCode rand (S k) n'
  end.

(** [generateProjectCode]: draw six characters until no project has the code.
    [fuel] bounds the number of rounds of the [while] loop; [None] stands for
    a loop that has not ended within it. *)
Fixpoint generateProjectCode (rand : nat -> nat) (fuel k : nat) (db : Db)
  : option string :=
  match fuel with
  | O => None
  | S fuel' =>
      let code := drawCode rand k 6 in
      match findProjectByCode db code with
      | Some _ => generateProjectCode rand fuel' (k + 6) db
      | None => Some code
      end
  end.

Record ProjectData := mkProjectData
  { d_name : option string; d_description : option string;
    d_color : option string; d_status : option string }.

Definition orElse {A} (o : option A) (d : A) : A :=
  match o with Some x => x | None => d end.

Definition orElseOpt {A} (o d : option A) : option A :=
  match o with Some x => Some x | None => d end.

(** What [createProjectSchema] and [updateProjectSchema] accept.  The colour
    matches [/^#[0-9A-F]{6}$/i]. *)
Definition isHexDigit (c : ascii) : bool :=
  let n := nat_of_ascii c in
  ((48 <=? n) && (n <=? 57) || (65 <=? n) && (n <=? 70)
   || (97 <=? n) && (n <=? 102))%nat.

Definition colorPattern (s : string) : bool :=
  match s with
  | String "#" digits =>
      (String.length digits =? 6)%nat
      && forallb isHexDigit (list_ascii_of_string digits)
  | _ => false
  end.

Definition statusEnum (s : string) : bool :=
  String.eqb s "ACTIVE" || String.eqb s "ON_HOLD" || String.eqb s "COMPLETED"
  || String.eqb s "ARCHIVED".

Definition createProjectSchema (name : string) (data : ProjectData) : bool :=
  (1 <=? String.length name)%nat
  && optional colorPattern (d_color data)
  && optional statusEnum (d_status data).

Definition updateProjectSchema (data : ProjectData) : bool :=
  optional (fun name => (1 <=? String.length name)%nat) (d_name data)
  && optional colorPattern (d_color data)
  && optional statusEnum (d_status data).

(** The fields [updateProjectSchema] refuses. *)
Definition updateProjectIssues (data : ProjectData) : list string :=
  (issue (optional (fun name => (1 <=? String.length name)%nat) (d_name data))
         "name"
   ++ issue (optional colorPattern (d_color data)) "color"
   ++ issue (optional statusEnum (d_status data)) "status")%list.

(** [POST /projects], after the schema has accepted [name] and the code has
    been generated; [newId] is the id the store gives the project. *)
Definition createProject (P : Principal) (name : string) (data : ProjectData)
    (code newId : string) : M (Response ProjectView) :=
  let project :=
    mkProject newId (tenantId P) name (d_description data)
      (orElse (d_status data) "ACTIVE") (orElse (d_color data) "#14b8a6")
      (Some code) (userId P) in
  modify (fun db => setProjects db (projects db ++ [project])) ;;;
  createMember (mkMember (tenantId P) newId (userId P) OWNER) ;;;
  createActivityLog
    (mkActivity (tenantId P) newId (userId P) "created" "project" newId) ;;;
  db <- get ;;
  match findProjectById db newId with
  | Some p => ret (Json 201 (viewOf db p))
  | None => ret (Json 201 (viewOf db project))
  end.

Definition applyData (data : ProjectData) (p : Project) : Project :=
  mkProject (p_id p) (p_tenantId p) (orElse (d_name data) (p_name p))
    (orElseOpt (d_description data) (p_description p))
    (orElse (d_status data) (p_status p)) (orElse (d_color data) (p_color p))
    (p_code p) (p_createdBy p).

(** [PUT /projects/:id] *)
Definition updateProject (z : Zod) (P : Principal) (id : string)
    (data : ProjectData) : M (Response ProjectView) :=
  parse z (updateProjectIssues data) ;;;
  db <- get ;;
  match findProjectById db id with
  | None => ret (Fail 404 "Project not found")
  | Some project =>
      ensureTenantAccess (tenantId P) (p_tenantId project) ;;;
      acc <- checkProjectAccess (userId P) (p_id project) (tenantId P) ;;
      if negb (hasAccess acc) || negb (canWrite (role acc))
      then ret (Fail 403 "Insufficient permissions")
      else
        modify (fun db =>
          setProjects db
            (map (fun p => if String.eqb (p_id p) id then applyData data p else p)
                 (projects db))) ;;;
        createActivityLog
          (mkActivity (tenantId P) (p_id project) (userId P) "updated"
                      "project" (p_id project)) ;;;
        db' <- get ;;
        ret (Json 200 (viewOf db' (applyData data project)))
  end.

(** Modelled from the spec: the schema ([prisma/schema.prisma]) is not part of
    the sources; deleting a project "cascades to members, tasks, invitations,
    join-requests, activity" (section 3, Project). *)
Definition deleteProjectCascade (id : string) (db : Db) : Db :=
  let keep {A} (f : A -> string) := filter (fun x : A => negb (String.eqb (f x) id)) in
  mkDb (users db)
       (keep p_id (projects db))
       (keep m_projectId (members db))
       (keep i_projectId (invitations db))
       (keep j_projectId (joinRequests db))
       (notifications db)
       (keep a_projectId (activityLogs db))
       (keep t_projectId (tasks db))
       (comments db) (attachments db).

(** [DELETE /projects/:id] *)
Definition deleteProject (P : Principal) (id : string) : M (Response string) :=
  db <- get ;;
  match findProjectById db id with
  | None => ret (Fail 404 "Project not found")
  | Some project =>
      ensureTenantAccess (tenantId P) (p_tenantId project) ;;;
      acc <- checkProjectAccess (userId P) (p_id project) (tenantId P) ;;
      if negb (hasAccess acc) || negb (canAdmin (role acc))
      then ret (Fail 403 "Only owners and admins can delete projects")
      else
        modify (deleteProjectCascade id) ;;;
        ret (Json 200 "Project deleted successfully")
  end.

(** [GET /projects/:id/tasks]: the tasks newest first. *)
Definition getProjectTasks (P : Principal) (id : string) : M (Response (list Task)) :=
  db <- get ;;
  match findProjectById db id with
  | None => ret (Fail 404 "Project not found")
  | Some project =>
      ensureTenantAccess (tenantId P) (p_tenantId project) ;;;
      ret (Json 200
        (rev (filter (fun t => String.eqb (t_projectId t) id
                               && String.eqb (t_tenantId t) (tenantId P))
                     (tasks db))))
  end.

(** [GET /projects/:projectId/activities]: the first fifty, newest first. *)
Definition getProjectActivities (P : Principal) (projectId : string)
  : M (Response (list ActivityLog)) :=
  db <- get ;;
  match findProjectById db projectId with
  | None => ret (Fail 404 "Project not found")
  | Some project =>
      ensureTenantAccess (tenantId P) (p_tenantId project) ;;;
      ret (Json 200
        (firstn 50
           (rev (filter (fun a => String.eqb (a_projectId a) projectId
                                  && String.eqb (a_tenantId a) (tenantId P))
                        (activityLogs db)))))
  end.

(** ** Invitation routes: [routes/invitations.ts] *)

(** [prisma.profile.findUnique({ where: { id } })]: a profile shares its id
    with its user and is stored with it. *)
Definition findProfileById (db : Db) (id : string) : option Profile :=
  find (fun pr => String.eqb (pr_id pr) id)
       (flat_map (fun u => match u_profile u with Some pr => [pr] | None => [] end)
                 (users db)).

(** Reading a property of [null]. *)
Definition TypeError : Exn :=
  mkExn "TypeError" None "Cannot read properties of null (reading 'id')".

(** [x!.id] for a relation that may be [null]. *)
Definition profileId (pr : option Profile) : M string :=
  match pr with
  | Some p => ret (pr_id p)
  | None => throw TypeError
  end.

(** [transporter.sendMail]: the external transport, which may throw. *)
Definition sendMail (env : Env) (to : string) : M unit :=
  match mailFailure env with
  | Some e => throw e
  | None => ret tt
  end.

(** [services/email.ts], [sendInvitationEmail]: its own [catch] logs the
    failure and does not rethrow. *)
Definition sendInvitationEmail (env : Env) (to : string) : M unit :=
  tryCatch (sendMail env to) (fun _ => ret tt).

Definition sevenDays : Z := 7 * 24 * 60 * 60 * 1000.

(** [createInvitationSchema.parse]: the fields refused.  The role is one of
    ADMIN, MEMBER and VIEWER when given. *)
Definition createInvitationSchema (z : Zod) (projectId email : string)
    (invitedRole : option ProjectRole) : list string :=
  (issue (z_uuid z projectId) "projectId"
   ++ issue (z_email z email) "email"
   ++ issue (match invitedRole with Some OWNER => false | _ => true end) "role")%list.

Definition findPendingInvitation (db : Db) (token : string) : option Invitation :=
  find (fun i => String.eqb (i_token i) token
                 && InvitationStatus_eqb (i_status i) INV_PENDING)
       (invitations db).

(** [POST /invitations] *)
Definition createInvitation (env : Env) (z : Zod) (P : Principal)
    (projectId email : string) (invitedRole : option ProjectRole)
    (now : Z) (newId newToken : string) : M (Response Invitation) :=
  parse z (createInvitationSchema z projectId email invitedRole) ;;;
  db <- get ;;
  match findProjectById db projectId with
  | None => ret (Fail 404 "Project not found")
  | Some project =>
      ensureTenantAccess (tenantId P) (p_tenantId project) ;;;
      acc <- checkProjectAccess (userId P) (p_id project) (tenantId P) ;;
      if negb (hasAccess acc) || negb (canAdmin (role acc))
      then ret (Fail 403 "Only owners and admins can invite members")
      else
        let existingUser :=
          find (fun u => String.eqb (u_email u) email
                         && String.eqb (u_tenantId u) (tenantId P)) (users db) in
        alreadyMember <-
          match existingUser with
          | Some u =>
              pid <- profileId (u_profile u) ;;
              ret (isMemberOf db projectId pid)
          | None => ret false
          end ;;
        if alreadyMember
        then ret (Fail 409 "User is already a member of this project")
        else if existsb (fun i => String.eqb (i_projectId i) projectId
                                  && String.eqb (i_email i) email
                                  && InvitationStatus_eqb (i_status i) INV_PENDING)
                        (invitations db)
        then ret (Fail 409 "Invitation already sent")
        else
          let invitation :=
            mkInvitation newId (tenantId P) projectId email
              (orElse invitedRole MEMBER) INV_PENDING (userId P) newToken
              (addLocalDays env now 7) in
          modify (fun db => setInvitations db (invitations db ++ [invitation])) ;;;
          tryCatch (sendInvitationEmail env email) (fun _ => ret tt) ;;;
          ret (Json 201 invitation)
  end.

(** [GET /invitations/:token] *)
Definition getInvitation (token : string) (now : Z) : M (Response Invitation) :=
  db <- get ;;
  match findPendingInvitation db token with
  | None => ret (Fail 404 "Invitation not found")
  | Some invitation =>
      if (now >? i_expiresAt invitation)%Z then
        updateInvitationStatus (i_id invitation) INV_EXPIRED ;;;
        ret (Fail 410 "Invitation has expired")
      else ret (Json 200 invitation)
  end.

(** [POST /invitations/:token/accept] *)
Definition acceptInvitation (P : Principal) (token : string) (now : Z)
  : M (Response string) :=
  db <- get ;;
  match findPendingInvitation db token with
  | None => ret (Fail 404 "Invitation not found")
  | Some invitation =>
      if (now >? i_expiresAt invitation)%Z then
        updateInvitationStatus (i_id invitation) INV_EXPIRED ;;;
        ret (Fail 410 "Invitation has expired")
      else
        let user := findUserById db (userId P) in
        if negb (match user with
                 | Some u => String.eqb (u_email u) (i_email invitation)
                 | None => false
                 end)
        then ret (Fail 403 "Invitation email does not match your account")
        else
          ensureTenantAccess (tenantId P) (i_tenantId invitation) ;;;
          uid <- profileId (match user with Some u => u_profile u | None => None end) ;;
          if isMemberOf db (i_projectId invitation) uid
          then
            updateInvitationStatus (i_id invitation) INV_ACCEPTED ;;;
            ret (Fail 409 "Already a member of this project")
          else
            createMember (mkMember (i_tenantId invitation) (i_projectId invitation)
                                   uid (i_role invitation)) ;;;
            updateInvitationStatus (i_id invitation) INV_ACCEPTED ;;;
            createActivityLog
              (mkActivity (i_tenantId invitation) (i_projectId invitation)
                          (userId P) "joined" "project" (i_projectId invitation)) ;;;
            ret (Json 200 "Invitation accepted successfully")
  end.

(** ** Join-request routes: [routes/join-requests.ts] *)

Record ProjectSummary := mkSummary
  { s_id : string; s_name : string; s_description : option string;
    s_code : option string; s_status : string; s_color : string;
    s_creator : option Profile; s_memberIds : list string;
    s_isMember : bool; s_hasPendingRequest : bool }.

Definition hasPendingRequest (db : Db) (projectId userId : string) : bool :=
  existsb (fun j => String.eqb (j_projectId j) projectId
                    && String.eqb (j_userId j) userId
                    && JoinRequestStatus_eqb (j_status j) JR_PENDING)
          (joinRequests db).

(** [GET /join-requests/search/:code] *)
Definition searchProjectByCode (P : Principal) (code : string)
  : M (Response ProjectSummary) :=
  db <- get ;;
  match findProjectByCode db (Str.toUpperCase code) with
  | None => ret (Fail 404 "Project not found")
  | Some project =>
      let ms := membersOf db (p_id project) in
      let isMember := existsb (fun m => String.eqb (m_userId m) (userId P)) ms in
      ret (Json 200
        (mkSummary (p_id project) (p_name project) (p_description project)
           (p_code project) (p_status project) (p_color project)
           (findProfileById db (p_createdBy project)) (map m_userId ms)
           isMember (hasPendingRequest db (p_id project) (userId P))))
  end.

Definition dq : string := String (ascii_of_nat 34) EmptyString.

Definition isEmptyCode (c : option string) : bool :=
  match c with
  | None => true
  | Some s => String.eqb s ""
  end.

(** [POST /join-requests].  The lookups and the create of this handler do
    not throw in this model, and the notification write sits in its own
    [try]/[catch], so the handler's outer [catch] is never entered. *)
Definition createJoinRequest (env : Env) (P : Principal)
    (projectCode : string) (message : option string) (newId : string)
  : M (Response JoinRequest) :=
  db <- get ;;
  match findProjectByCode db (Str.toUpperCase projectCode) with
  | None => ret (Fail 404 "Project not found with this code")
  | Some project =>
      if isEmptyCode (p_code project) then
        ret (Fail 400 "This project does not have a code assigned. Please contact the project owner.")
      else if negb (String.eqb (p_tenantId project) (tenantId P)) then
        ret (Fail 403 "You can only join projects within your organization")
      else
        let ms := membersOf db (p_id project) in
        if existsb (fun m => String.eqb (m_userId m) (userId P)) ms then
          ret (Fail 400 "You are already a member of this project")
        else if hasPendingRequest db (p_id project) (userId P) then
          ret (Fail 400 "You already have a pending request for this project")
        else
          let joinRequest :=
            mkJoinRequest newId (tenantId P) (p_id project) (userId P)
              (match message with
               | Some EmptyString => None
               | m => m
               end) JR_PENDING in
          modify (fun db => setJoinRequests db (joinRequests db ++ [joinRequest])) ;;;
          let ownerId :=
            match find (fun m => ProjectRole_eqb (m_role m) OWNER) ms with
            | Some ownerMember => Some (m_userId ownerMember)
            | None =>
                match findProfileById db (p_createdBy project) with
                | Some creator => Some (pr_id creator)
                | None => None
                end
            end in
          match ownerId with
          | Some owner =>
              tryCatch
                (createNotification env
                   (mkNotification (tenantId P) owner "JOIN_REQUEST"
                      "New Join Request"
                      (email P ++ " wants to join project " ++ dq
                         ++ p_name project ++ dq)
                      (p_id project) (Some newId) false))
                (fun _ => ret tt)
          | None => ret tt
          end ;;;
          ret (Json 201 joinRequest)
  end.

Definition findJoinRequestById (db : Db) (id : string) : option JoinRequest :=
  find (fun j => String.eqb (j_id j) id) (joinRequests db).

(** [projectMember.findFirst] with [role: { in: ['OWNER', 'ADMIN'] }] *)
Definition findAdminMembership (db : Db) (projectId userId : string)
  : option ProjectMember :=
  find (fun m => String.eqb (m_projectId m) projectId
                 && String.eqb (m_userId m) userId
                 && (ProjectRole_eqb (m_role m) OWNER
                     || ProjectRole_eqb (m_role m) ADMIN))
       (members db).

(** [GET /join-requests/project/:projectId]: the pending requests, newest
    first. *)
Definition listJoinRequests (P : Principal) (projectId : string)
  : M (Response (list JoinRequest)) :=
  db <- get ;;
  match findAdminMembership db projectId (userId P) with
  | None =>
      ret (Fail 403 "You do not have permission to view join requests for this project")
  | Some _ =>
      ret (Json 200
        (rev (filter (fun j => String.eqb (j_projectId j) projectId
                               && JoinRequestStatus_eqb (j_status j) JR_PENDING)
                     (joinRequests db))))
  end.

(** [joinRequest.project], the relation loaded by [include]; reading through
    a missing project throws. *)
Definition projectOf (db : Db) (j : JoinRequest) : M Project :=
  match findProjectById db (j_projectId j) with
  | Some p => ret p
  | None => throw TypeError
  end.

(** [POST /join-requests/:requestId/accept] *)
Definition acceptJoinRequest (env : Env) (P : Principal) (requestId : string)
  : M (Response string) :=
  db <- get ;;
  match findJoinRequestById db requestId with
  | None => ret (Fail 404 "Join request not found")
  | Some joinRequest =>
      match findAdminMembership db (j_projectId joinRequest) (userId P) with
      | None => ret (Fail 403 "You do not have permission to accept join requests")
      | Some _ =>
          project <- projectOf db joinRequest ;;
          if existsb (fun m => String.eqb (m_userId m) (j_userId joinRequest))
                     (membersOf db (p_id project))
          then ret (Fail 400 "User is already a member")
          else
            updateJoinRequestStatus requestId JR_ACCEPTED ;;;
            createMember (mkMember (j_tenantId joinRequest) (j_projectId joinRequest)
                                   (j_userId joinRequest) MEMBER) ;;;
            createNotification env
              (mkNotification (j_tenantId joinRequest) (j_userId joinRequest)
                 "PROJECT_UPDATE" "Join Request Accepted"
                 ("Your request to join " ++ dq ++ p_name project ++ dq
                    ++ " has been accepted")
                 (j_projectId joinRequest) None false) ;;;
            ret (Json 200 "Join request accepted")
      end
  end.

(** [POST /join-requests/:requestId/decline] *)
Definition declineJoinRequest (env : Env) (P : Principal) (requestId : string)
  : M (Response string) :=
  db <- get ;;
  match findJoinRequestById db requestId with
  | None => ret (Fail 404 "Join request not found")
  | Some joinRequest =>
      match findAdminMembership db (j_projectId joinRequest) (userId P) with
      | None => ret (Fail 403 "You do not have permission to decline join requests")
      | Some _ =>
          updateJoinRequestStatus requestId JR_DECLINED ;;;
          project <- projectOf db joinRequest ;;
          createNotification env
            (mkNotification (j_tenantId joinRequest) (j_userId joinRequest)
               "PROJECT_UPDATE" "Join Request Declined"
               ("Your request to join " ++ dq ++ p_name project ++ dq
                  ++ " has been declined")
               (j_projectId joinRequest) None false) ;;;
          ret (Json 200 "Join request declined")
      end
  end.

(** ** Attachment and comment routes: [routes/attachments.ts],
       [routes/comments.ts]

    The uploaded file itself and the upload directory are outside the store
    and are left out. *)

(** The file part of a multipart body, as [multer] receives it. *)
Record Upload := mkUpload
  { up_originalname : string; up_mimetype : string; up_size : Z }.

(** [allowedTypes.test(s)] for
    [/jpeg|jpg|png|gif|webp|mp4|mov|avi|webm|mkv/]. *)
Definition allowedTypes (s : string) : bool :=
  existsb (Str.includes s)
    ["jpeg"; "jpg"; "png"; "gif"; "webp"; "mp4"; "mov"; "avi"; "webm"; "mkv"].

(** The [fileFilter] of the upload. *)
Definition fileFilter (env : Env) (file : Upload) : bool :=
  allowedTypes (up_mimetype file)
  && allowedTypes (Str.toLowerCase (extname env (up_originalname file))).

(** [limits.fileSize] *)
Definition fileSizeLimit : Z := 50 * 1024 * 1024.

(** [upload.single('file')]: [req.file], or the error handed to [next]. *)
Definition uploadSingle (env : Env) (part : option Upload) : M (option Upload) :=
  match part with
  | None => ret None
  | Some file =>
      if negb (fileFilter env file)
      then throw (Error "Only images and videos are allowed")
      else if (up_size file >? fileSizeLimit)%Z
      then throw (mkExn "MulterError" (Some "LIMIT_FILE_SIZE") "File too large")
      else ret (Some file)
  end.

(** [GET /tasks/:taskId/attachments]: the attachments newest first. *)
Definition getTaskAttachments (P : Principal) (taskId : string)
  : M (Response (list TaskAttachment)) :=
  db <- get ;;
  match findTaskById db taskId with
  | None => ret (Fail 404 "Task not found")
  | Some task =>
      ensureTenantAccess (tenantId P) (t_tenantId task) ;;;
      ret (Json 200
        (rev (filter (fun a => String.eqb (at_taskId a) taskId
                               && String.eqb (at_tenantId a) (tenantId P))
                     (attachments db))))
  end.

(** [POST /tasks/:taskId/attachments]: [part] is the file part of the body,
    if any. *)
Definition uploadAttachment (env : Env) (P : Principal) (taskId : string)
    (part : option Upload) (newId : string) : M (Response TaskAttachment) :=
  file <- uploadSingle env part ;;
  match file with
  | None => ret (Fail 400 "No file provided")
  | Some upload =>
      db <- get ;;
      match findTaskById db taskId with
      | None => ret (Fail 404 "Task not found")
      | Some task =>
          ensureTenantAccess (tenantId P) (t_tenantId task) ;;;
          acc <- checkProjectAccess (userId P) (t_projectId task) (tenantId P) ;;
          if negb (hasAccess acc) || negb (canWrite (role acc))
          then ret (Fail 403 "Insufficient permissions")
          else
            match findProfileById db (userId P) with
            | None => ret (Fail 404 "User profile not found")
            | Some _ =>
                let attachment :=
                  mkAttachment newId (tenantId P) taskId (userId P)
                               (up_originalname upload) in
                modify (fun db => setAttachments db (attachments db ++ [attachment])) ;;;
                ret (Json 201 attachment)
            end
      end
  end.

(** [DELETE /attachments/:id] *)
Definition deleteAttachment (P : Principal) (id : string) : M (Response string) :=
  db <- get ;;
  match find (fun a => String.eqb (at_id a) id) (attachments db) with
  | None => ret (Fail 404 "Attachment not found")
  | Some attachment =>
      ensureTenantAccess (tenantId P) (at_tenantId attachment) ;;;
      projectId <-
        match findTaskById db (at_taskId attachment) with
        | Some task => ret (t_projectId task)
        | None => throw TypeError
        end ;;
      acc <- checkProjectAccess (userId P) projectId (tenantId P) ;;
      if negb (hasAccess acc)
         || (negb (canWrite (role acc))
             && negb (String.eqb (at_userId attachment) (userId P)))
      then ret (Fail 403 "Insufficient permissions")
      else
        modify (fun db =>
          setAttachments db
            (filter (fun a => negb (String.eqb (at_id a) id)) (attachments db))) ;;;
        ret (Json 200 "Attachment deleted successfully")
  end.

(** [GET /tasks/:taskId/comments]: the comments oldest first. *)
Definition getTaskComments (P : Principal) (taskId : string)
  : M (Response (list TaskComment)) :=
  db <- get ;;
  match findTaskById db taskId with
  | None => ret (Fail 404 "Task not found")
  | Some task =>
      ensureTenantAccess (tenantId P) (t_tenantId task) ;;;
      ret (Json 200
        (filter (fun c => String.eqb (c_taskId c) taskId
                          && String.eqb (c_tenantId c) (tenantId P))
                (comments db)))
  end.

(** [POST /tasks/:taskId/comments] *)
Definition createComment (z : Zod) (P : Principal) (taskId content newId : string)
  : M (Response TaskComment) :=
  parse z (issue (1 <=? String.length content)%nat "content") ;;;
  db <- get ;;
  match findTaskById db taskId with
  | None => ret (Fail 404 "Task not found")
  | Some task =>
      ensureTenantAccess (tenantId P) (t_tenantId task) ;;;
      acc <- checkProjectAccess (userId P) (t_projectId task) (tenantId P) ;;
      if negb (hasAccess acc) || negb (canWrite (role acc))
      then ret (Fail 403 "Insufficient permissions")
      else
        match findProfileById db (userId P) with
        | None => ret (Fail 404 "User profile not found")
        | Some _ =>
            let comment :=
              mkComment newId (tenantId P) taskId (userId P) (Str.trim content) in
            modify (fun db => setComments db (comments db ++ [comment])) ;;;
            ret (Json 201 comment)
        end
  end.

(** [DELETE /comments/:id] *)
Definition deleteComment (P : Principal) (id : string) : M (Response string) :=
  db <- get ;;
  match find (fun c => String.eqb (c_id c) id) (comments db) with
  | None => ret (Fail 404 "Comment not found")
  | Some comment =>
      ensureTenantAccess (tenantId P) (c_tenantId comment) ;;;
      projectId <-
        match findTaskById db (c_taskId comment) with
        | Some task => ret (t_projectId task)
        | None => throw TypeError
        end ;;
      acc <- checkProjectAccess (userId P) projectId (tenantId P) ;;
      if negb (hasAccess acc)
         || (negb (canWrite (role acc))
             && negb (String.eqb (c_userId comment) (userId P)))
      then ret (Fail 403 "Insufficient permissions")
      else
        modify (fun db =>
          setComments db
            (filter (fun c => negb (String.eqb (c_id c) id)) (comments db))) ;;;
        ret (Json 200 "Comment deleted successfully")
  end.

(** ** Notification routes: [routes/notifications.ts]

    A notification row carries no id in this model, so [PUT /:id/read] is
    left out.  Rows are stored in the order of their creation, which is the
    order of [createdAt]. *)

Definition ownNotification (P : Principal) (n : Notification) : bool :=
  String.eqb (n_userId n) (userId P) && String.eqb (n_tenantId n) (tenantId P).

(** [GET /notifications]: the caller's notifications, newest first, at most
    fifty. *)
Definition getNotifications (P : Principal) : M (Response (list Notification)) :=
  db <- get ;;
  ret (Json 200 (firstn 50 (rev (filter (ownNotification P) (notifications db))))).

(** [GET /notifications/unread-count] *)
Definition getUnreadCount (P : Principal) : M (Response nat) :=
  db <- get ;;
  ret (Json 200
    (length (filter (fun n => ownNotification P n && negb (n_read n))
                    (notifications db)))).

Definition markRead (n : Notification) : Notification :=
  mkNotification (n_tenantId n) (n_userId n) (n_type n) (n_title n)
    (n_message n) (n_projectId n) (n_joinRequestId n) true.

(** [PUT /notifications/read-all] *)
Definition markAllNotificationsAsRead (P : Principal) : M (Response string) :=
  modify (fun db =>
    setNotifications db
      (map (fun n => if ownNotification P n && negb (n_read n)
                     then markRead n else n)
           (notifications db))) ;;;
  ret (Json 200 "All notifications marked as read").

(** ** Authentication: [middleware/auth.ts], [middleware/tenant.ts],
       [routes/auth.ts]

    The user table with the columns only authentication reads, and the
    tenant table.  [jsonwebtoken] and [bcryptjs] are collaborators given by a
    [Crypto]: signing and verifying with a secret, the two [instanceof] tests
    of the [catch] of [authenticate], hashing with a salt and comparing. *)

Record Tenant := mkTenant
  { tn_id : string; tn_name : string; tn_plan : string; tn_status : string }.

Record Account := mkAccount
  { acc_user : User; acc_passwordHash : string; acc_lastLogin : option Z }.

Record AuthDb := mkAuthDb
  { au_tenants : list Tenant; au_accounts : list Account }.

Record Crypto := mkCrypto
  { jwt_secret : option string;
    jwt_sign : Principal -> string -> string;
    jwt_verify : string -> string -> Exn + Principal;
    isJsonWebTokenError : Exn -> bool;
    isTokenExpiredError : Exn -> bool;
    bcrypt_hash : string -> string -> string;
    bcrypt_compare : string -> string -> bool }.

(** [process.env.JWT_SECRET] when it is set and not empty. *)
Definition configuredSecret (c : Crypto) : option string :=
  match jwt_secret c with
  | Some EmptyString => None
  | s => s
  end.

Definition findAccountById (adb : AuthDb) (id : string) : option Account :=
  find (fun a => String.eqb (u_id (acc_user a)) id) (au_accounts adb).

Definition findAccountByEmail (adb : AuthDb) (mail : string) : option Account :=
  find (fun a => String.eqb (u_email (acc_user a)) mail) (au_accounts adb).

(** [user.tenant], the relation loaded by [include: { tenant: true }]. *)
Definition tenantOf (adb : AuthDb) (u : User) : option Tenant :=
  find (fun t => String.eqb (tn_id t) (u_tenantId u)) (au_tenants adb).

(** What a middleware does with a request: hand it on with [req.user] set,
    or answer it. *)
Inductive Middleware :=
| Next (user : Principal)
| Reply (r : Response unit).

(** The [catch] of [authenticate]. *)
Definition authenticateCatch (c : Crypto) (error : Exn) : Middleware :=
  if isJsonWebTokenError c error then Reply (Fail 401 "Invalid token")
  else if isTokenExpiredError c error then Reply (Fail 401 "Token expired")
  else Reply (Fail 500 "Authentication error").

(** [authenticate]: [authorization] is the header of that name, if any. *)
Definition authenticate (c : Crypto) (adb : AuthDb) (authorization : option string)
  : Middleware :=
  match authorization with
  | None => Reply (Fail 401 "No token provided")
  | Some authHeader =>
      if negb (String.prefix "Bearer " authHeader)
      then Reply (Fail 401 "No token provided")
      else
        let token := substring 7 (String.length authHeader - 7) authHeader in
        match configuredSecret c with
        | None => authenticateCatch c (Error "JWT_SECRET not configured")
        | Some secret =>
            match jwt_verify c token secret with
            | inl error => authenticateCatch c error
            | inr decoded =>
                match findAccountById adb (userId decoded) with
                | None => Reply (Fail 401 "User not found")
                | Some account =>
                    match tenantOf adb (acc_user account) with
                    | None => authenticateCatch c TypeError
                    | Some tenant =>
                        if negb (String.eqb (tn_status tenant) "ACTIVE")
                        then Reply (Fail 403 "Tenant account is not active")
                        else Next (mkPrincipal (userId decoded) (tenantId decoded)
                                               (email decoded))
                    end
                end
            end
        end
  end.

(** [tenantMiddleware], run on what [authenticate] handed on. *)
Definition tenantMiddleware (user : option Principal) : Middleware :=
  match user with
  | None => Reply (Fail 401 "No tenant context")
  | Some P =>
      if String.eqb (tenantId P) "" then Reply (Fail 401 "No tenant context")
      else Next P
  end.

(** [router.use(authenticate); router.use(tenantMiddleware)] *)
Definition protect (c : Crypto) (adb : AuthDb) (authorization : option string)
  : Middleware :=
  match authenticate c adb authorization with
  | Next P => tenantMiddleware (Some P)
  | Reply r => Reply r
  end.

(** [signUpSchema.parse]: the paths of the fields refused, none when the body
    is accepted. *)
Definition signUpSchema (z : Zod) (mail password name : string)
    (tenantName : option string) : list string :=
  (issue (z_email z mail) "email"
   ++ issue (8 <=? String.length password)%nat "password"
   ++ issue (1 <=? String.length name)%nat "name"
   ++ issue (match tenantName with
             | Some t => (1 <=? String.length t)%nat
             | None => true
             end) "tenantName")%list.

(** [signInSchema.parse] *)
Definition signInSchema (z : Zod) (mail password : string) : list string :=
  (issue (z_email z mail) "email"
   ++ issue (1 <=? String.length password)%nat "password")%list.

(** The body of the answers of [signup] and [signin]. *)
Record Session := mkSession
  { ss_user : User; ss_token : string }.

Definition principalOfUser (u : User) : Principal :=
  mkPrincipal (u_id u) (u_tenantId u) (u_email u).

(** The end of [signup] and [signin]: sign the token and answer [status]. *)
Definition issueToken (env : Env) (c : Crypto) (status : Z) (u : User)
  : Response Session :=
  match configuredSecret c with
  | None => errorHandler env (Error "JWT_SECRET is not configured")
  | Some secret => Json status (mkSession u (jwt_sign c (principalOfUser u) secret))
  end.

(** [POST /auth/signup]; [newTenantId] and [newUserId] are the ids the store
    gives the two rows, [salt] the salt [bcrypt.hash] draws.  A profile
    shares its id with its user. *)
Definition signup (env : Env) (c : Crypto) (z : Zod) (mail password name : string)
    (tenantName : option string) (newTenantId newUserId salt : string)
    (adb : AuthDb) : Response Session * AuthDb :=
  match signUpSchema z mail password name tenantName with
  | (_ :: _) as paths => (errorHandler env (ZodError z paths), adb)
  | [] =>
      match findAccountByEmail adb mail with
      | Some _ => (Fail 409 "Email already registered", adb)
      | None =>
          let tenant :=
            mkTenant newTenantId (orElse tenantName (name ++ "'s Organization"))
                     "FREE" "ACTIVE" in
          let passwordHash := bcrypt_hash c password salt in
          let user :=
            mkUser newUserId mail newTenantId
                   (Some (mkProfile newUserId name mail)) in
          let adb' :=
            mkAuthDb (au_tenants adb ++ [tenant])
                     (au_accounts adb ++ [mkAccount user passwordHash None]) in
          (issueToken env c 201 user, adb')
      end
  end.

(** [prisma.user.update({ where: { id }, data: { lastLogin } })] *)
Definition setLastLogin (id : string) (now : Z) (adb : AuthDb) : AuthDb :=
  mkAuthDb (au_tenants adb)
    (map (fun a => if String.eqb (u_id (acc_user a)) id
                   then mkAccount (acc_user a) (acc_passwordHash a) (Some now)
                   else a)
         (au_accounts adb)).

(** [POST /auth/signin] *)
Definition signin (env : Env) (c : Crypto) (z : Zod) (mail password : string)
    (now : Z) (adb : AuthDb) : Response Session * AuthDb :=
  match signInSchema z mail password with
  | (_ :: _) as paths => (errorHandler env (ZodError z paths), adb)
  | [] =>
      match findAccountByEmail adb mail with
      | None => (Fail 401 "Invalid credentials", adb)
      | Some account =>
          match tenantOf adb (acc_user account) with
          | None => (errorHandler env TypeError, adb)
          | Some tenant =>
              if negb (String.eqb (tn_status tenant) "ACTIVE")
              then (Fail 403 "Tenant account is not active", adb)
              else if negb (bcrypt_compare c password (acc_passwordHash account))
              then (Fail 401 "Invalid credentials", adb)
              else
                (issueToken env c 200 (acc_user account),
                 setLastLogin (u_id (acc_user account)) now adb)
          end
      end
  end.

(** ** A sample store

    Two tenants: [tA] (alice, erin) and [tB] (bob, carol, dave).  Bob created
    project [p1] (code ABC123) in [tB]; carol is one of its admins and alice,
    of tenant [tA], holds a membership row in it. *)

Module Sample.

Definition profileOf (id name mail : string) : option Profile :=
  Some (mkProfile id name mail).

Definition alice := mkUser "u1" "alice@x.com" "tA" (profileOf "u1" "Alice" "alice@x.com").
Definition bob := mkUser "u2" "bob@x.com" "tB" (profileOf "u2" "Bob" "bob@x.com").
Definition carol := mkUser "u3" "carol@x.com" "tB" (profileOf "u3" "Carol" "carol@x.com").
Definition dave := mkUser "u4" "dave@x.com" "tB" (profileOf "u4" "Dave" "dave@x.com").
Definition erin := mkUser "u5" "erin@x.com" "tA" (profileOf "u5" "Erin" "erin@x.com").
Definition frank := mkUser "u6" "frank@x.com" "tB" (profileOf "u6" "Frank" "frank@x.com").

Definition principalOf (u : User) : Principal :=
  mkPrincipal (u_id u) (u_tenantId u) (u_email u).

Definition p1 : Project :=
  mkProject "p1" "tB" "Apollo" (Some "Launch plan") "ACTIVE" "#14b8a6"
            (Some "ABC123") "u2".

Definition task1 : Task := mkTask "t1" "tB" "p1" "Write the plan".

(** An invitation for Dave, addressed with a capital D. *)
Definition inv1 : Invitation :=
  mkInvitation "i1" "tB" "p1" "Dave@x.com" VIEWER INV_PENDING "u2" "tok-1" 1000.

(** An invitation for frank, addressed as his account spells it. *)
Definition inv2 : Invitation :=
  mkInvitation "i2" "tB" "p1" "frank@x.com" VIEWER INV_PENDING "u2" "tok-2" 1000.

Definition jr1 : JoinRequest :=
  mkJoinRequest "j1" "tB" "p1" "u4" None JR_PENDING.

(** A request by carol, who is a member already. *)
Definition jr2 : JoinRequest :=
  mkJoinRequest "j2" "tB" "p1" "u3" None JR_PENDING.

Definition db0 : Db :=
  mkDb [alice; bob; carol; dave; erin; frank]
       [p1]
       [mkMember "tB" "p1" "u2" OWNER; mkMember "tB" "p1" "u3" ADMIN;
        mkMember "tB" "p1" "u1" MEMBER]
       [inv1; inv2]
       [jr1; jr2]
       [] []
       [task1]
       [mkComment "c1" "tB" "t1" "u2" "First"]
       [mkAttachment "a1" "tB" "t1" "u2" "plan.png"].


(** A server on UTC. *)
Definition utc : Z -> bool -> Z := fun _ _ => 0%Z.

(** The extension of a plain file name: from its last dot, when that is not
    its first character. *)
Fixpoint lastDot (s : string) : option string :=
  match s with
  | EmptyString => None
  | String c r =>
      match lastDot r with
      | Some e => Some e
      | None => if Ascii.eqb c "." then Some s else None
      end
  end.

Definition extension (s : string) : string :=
  match s with
  | EmptyString => EmptyString
  | String _ r => match lastDot r with Some e => e | None => EmptyString end
  end.

Definition env0 : Env := mkEnv None None false utc extension.

(** The mail transport and the notification write both fail. *)
Definition envDown : Env :=
  mkEnv (Some (Error "SMTP connection refused"))
        (Some (Error "Connection lost")) false utc extension.


End Sample.

(** ** Notions used to state the properties *)

(** An explicit [ProjectMember] row for [(projectId, userId, tenantId)]. *)
Definition explicitRow (db : Db) (projectId userId tenantId : string)
    (m : ProjectMember) : Prop :=
  In m (members db) /\ m_projectId m = projectId /\ m_userId m = userId
  /\ m_tenantId m = tenantId.

(** What [errorHandler] answers to the exception of the tenant guard. *)
Definition tenantMismatchResponse {A} : Response A :=
  Fail 403 "Unauthorized: Tenant mismatch".




(** A message that holds none of the words [errorHandler] looks for. *)
Definition plainMessage (msg : string) : Prop :=
  Str.includes msg "doesn't exist" = false
  /\ Str.includes msg "Unknown table" = false
  /\ Str.includes msg "Unauthorized" = false
  /\ Str.includes msg "Tenant mismatch" = false.




(** Invitation tokens are unique in the store. *)
Definition uniqueTokens (db : Db) : Prop :=
  NoDup (map i_token (invitations db)).

(** The number of membership rows of a user in a project. *)
Definition memberCount (db : Db) (projectId userId : string) : nat :=
  length (filter (fun m => String.eqb (m_projectId m) projectId
                           && String.eqb (m_userId m) userId) (members db)).

(** The answer of [acceptInvitation] to an account whose email is not the
    invitation's. *)
Definition emailRefusal : Response string :=
  Fail 403 "Invitation email does not match your account".

(** The store after a successful acceptance of [inv] by the user whose
    profile id is [uid]. *)
Definition acceptedStore (P : Principal) (inv : Invitation) (uid : string)
    (db : Db) : Db :=
  addActivityLog
    (mkActivity (i_tenantId inv) (i_projectId inv) (userId P) "joined"
                "project" (i_projectId inv))
    (setInvitationStatus (i_id inv) INV_ACCEPTED
       (addMember (mkMember (i_tenantId inv) (i_projectId inv) uid (i_role inv))
                  db)).

(** The notifications sent to the requester of a resolved join request. *)
Definition acceptedNotification (j : JoinRequest) (project : Project)
  : Notification :=
  mkNotification (j_tenantId j) (j_userId j) "PROJECT_UPDATE"
    "Join Request Accepted"
    ("Your request to join " ++ dq ++ p_name project ++ dq ++ " has been accepted")
    (j_projectId j) None false.

Definition declinedNotification (j : JoinRequest) (project : Project)
  : Notification :=
  mkNotification (j_tenantId j) (j_userId j) "PROJECT_UPDATE"
    "Join Request Declined"
    ("Your request to join " ++ dq ++ p_name project ++ dq ++ " has been declined")
    (j_projectId j) None false.

(** The store once [acceptJoinRequest] has written the status and the
    membership row, before it notifies the requester. *)
Definition joinAccepted (requestId : string) (j : JoinRequest) (db : Db) : Db :=
  addMember (mkMember (j_tenantId j) (j_projectId j) (j_userId j) MEMBER)
            (setJoinRequestStatus requestId JR_ACCEPTED db).

(** An accept or decline call on a join request. *)
Inductive JoinOp :=
| AcceptOp (env : Env) (P : Principal) (requestId : string)
| DeclineOp (env : Env) (P : Principal) (requestId : string).

Definition applyOp (op : JoinOp) (db : Db) : Db :=
  match op with
  | AcceptOp env P requestId => snd (route env (acceptJoinRequest env P requestId) db)
  | DeclineOp env P requestId => snd (route env (declineJoinRequest env P requestId) db)
  end.

Definition applyOps (ops : list JoinOp) (db : Db) : Db :=
  fold_left (fun d op => applyOp op d) ops db.

(** A request keeps its identity and, once resolved, stays resolved. *)
Definition staysResolved (j j' : JoinRequest) : Prop :=
  j_id j' = j_id j /\ j_projectId j' = j_projectId j /\ j_userId j' = j_userId j
  /\ (j_status j <> JR_PENDING -> j_status j' <> JR_PENDING).

(** The characters A-Z and 0-9. *)
Definition codeChar (c : ascii) : bool := Str.isUpper c || Str.isDigit c.

(** The project row [POST /projects] stores. *)
Definition createdProject (P : Principal) (name : string) (data : ProjectData)
    (code newId : string) : Project :=
  mkProject newId (tenantId P) name (d_description data)
    (orElse (d_status data) "ACTIVE") (orElse (d_color data) "#14b8a6")
    (Some code) (userId P).

(** ** Notions used to state the further properties *)

(** The rank of a role in the hierarchy Owner > Admin > Member > Viewer; no
    role ranks lowest. *)
Definition roleRank (r : option ProjectRole) : nat :=
  match r with
  | Some OWNER => 4
  | Some ADMIN => 3
  | Some MEMBER => 2
  | Some VIEWER => 1
  | None => 0
  end.

(** The user holds a membership row in the project, whatever its tenant. *)
Definition hasRow (db : Db) (projectId uid : string) : Prop :=
  exists m, In m (members db) /\ m_projectId m = projectId /\ m_userId m = uid.

(** Some project of this id was created by the principal in its own tenant. *)
Definition createdHere (db : Db) (P : Principal) (projectId : string) : Prop :=
  exists p, In p (projects db) /\ p_id p = projectId
            /\ p_createdBy p = userId P /\ p_tenantId p = tenantId P.

(** No project and no membership row carries the id yet. *)
Definition freshProjectId (db : Db) (id : string) : Prop :=
  findProjectById db id = None
  /\ forall m, In m (members db) -> m_projectId m <> id.

(** What [PUT /projects/:id] may not touch in a project row. *)
Definition sameIdentity (p p' : Project) : Prop :=
  p_id p' = p_id p /\ p_tenantId p' = p_tenantId p /\ p_code p' = p_code p
  /\ p_createdBy p' = p_createdBy p.

(** The join codes in use. *)
Definition codesOf (db : Db) : list string :=
  flat_map (fun p => match p_code p with Some c => [c] | None => [] end)
           (projects db).

Definition uniqueCodes (db : Db) : Prop := NoDup (codesOf db).

(** The row [POST /invitations] stores. *)
Definition newInvitation (env : Env) (P : Principal) (projectId mail : string)
    (invitedRole : option ProjectRole) (now : Z) (newId newToken : string)
  : Invitation :=
  mkInvitation newId (tenantId P) projectId mail (orElse invitedRole MEMBER)
               INV_PENDING (userId P) newToken (addLocalDays env now 7).

(** The offset of the zone is the same at [now] and on the local day seven
    days later. *)
Definition sameOffset (env : Env) (now : Z) : Prop :=
  localTZA env (now + localTZA env now true + 7 * msPerDay)%Z false
  = localTZA env now true.

(** The number of pending invitations of an address to a project. *)
Definition pendingInvitationCount (db : Db) (projectId mail : string) : nat :=
  length (filter (fun i => String.eqb (i_projectId i) projectId
                           && String.eqb (i_email i) mail
                           && InvitationStatus_eqb (i_status i) INV_PENDING)
                 (invitations db)).

(** [prisma.invitation.create] *)
Definition addInvitation (inv : Invitation) (db : Db) : Db :=
  setInvitations db (invitations db ++ [inv]).

(** Whether the address has a pending invitation to the project. *)
Definition hasPendingInvitation (db : Db) (projectId mail : string) : bool :=
  existsb (fun i => String.eqb (i_projectId i) projectId
                    && String.eqb (i_email i) mail
                    && InvitationStatus_eqb (i_status i) INV_PENDING)
          (invitations db).

(** The last steps of [POST /invitations]: refuse a second pending
    invitation, else store the new one. *)
Definition storeInvitation (db : Db) (inv : Invitation)
  : Response Invitation * Db :=
  if hasPendingInvitation db (i_projectId inv) (i_email inv)
  then (Fail 409 "Invitation already sent", db)
  else (Json 201 inv, addInvitation inv db).

(** The row [POST /join-requests] stores. *)
Definition newJoinRequest (P : Principal) (project : Project)
    (message : option string) (newId : string) : JoinRequest :=
  mkJoinRequest newId (tenantId P) (p_id project) (userId P)
    (match message with
     | Some EmptyString => None
     | m => m
     end) JR_PENDING.

(** The user [POST /join-requests] notifies: the first Owner row of the
    project, else the profile of its creator. *)
Definition ownerToNotify (db : Db) (project : Project) : option string :=
  match find (fun m => ProjectRole_eqb (m_role m) OWNER)
             (membersOf db (p_id project)) with
  | Some ownerMember => Some (m_userId ownerMember)
  | None =>
      match findProfileById db (p_createdBy project) with
      | Some creator => Some (pr_id creator)
      | None => None
      end
  end.

Definition joinRequestNotification (P : Principal) (project : Project)
    (owner newId : string) : Notification :=
  mkNotification (tenantId P) owner "JOIN_REQUEST" "New Join Request"
    (email P ++ " wants to join project " ++ dq ++ p_name project ++ dq)
    (p_id project) (Some newId) false.

(** The store after a successful [POST /join-requests]. *)
Definition joinRequested (env : Env) (P : Principal) (project : Project)
    (message : option string) (newId : string) (db : Db) : Db :=
  let db1 :=
    setJoinRequests db
      (joinRequests db ++ [newJoinRequest P project message newId]) in
  match ownerToNotify db project, notificationFailure env with
  | Some owner, None =>
      addNotification (joinRequestNotification P project owner newId) db1
  | _, _ => db1
  end.

(** The number of pending join requests of a user for a project. *)
Definition pendingRequestCount (db : Db) (projectId uid : string) : nat :=
  length (filter (fun j => String.eqb (j_projectId j) projectId
                           && String.eqb (j_userId j) uid
                           && JoinRequestStatus_eqb (j_status j) JR_PENDING)
                 (joinRequests db)).

(** The unread notifications [GET /notifications/unread-count] counts. *)
Definition unreadOf (P : Principal) (db : Db) : nat :=
  length (filter (fun n => ownNotification P n && negb (n_read n))
                 (notifications db)).

(** A call that can change memberships, invitations or join requests. *)
Inductive LifecycleOp :=
| CreateInvitationOp (env : Env) (z : Zod) (P : Principal)
    (projectId mail : string)
    (invitedRole : option ProjectRole) (now : Z) (newId newToken : string)
| LookupInvitationOp (env : Env) (token : string) (now : Z)
| AcceptInvitationOp (env : Env) (P : Principal) (token : string) (now : Z)
| CreateJoinRequestOp (env : Env) (P : Principal) (code : string)
    (message : option string) (newId : string)
| AcceptJoinRequestOp (env : Env) (P : Principal) (requestId : string)
| DeclineJoinRequestOp (env : Env) (P : Principal) (requestId : string).

Definition applyLifecycleOp (op : LifecycleOp) (db : Db) : Db :=
  match op with
  | CreateInvitationOp env z P projectId mail r now newId newToken =>
      snd (route env
             (createInvitation env z P projectId mail r now newId newToken) db)
  | LookupInvitationOp env token now => snd (route env (getInvitation token now) db)
  | AcceptInvitationOp env P token now =>
      snd (route env (acceptInvitation P token now) db)
  | CreateJoinRequestOp env P code message newId =>
      snd (route env (createJoinRequest env P code message newId) db)
  | AcceptJoinRequestOp env P requestId =>
      snd (route env (acceptJoinRequest env P requestId) db)
  | DeclineJoinRequestOp env P requestId =>
      snd (route env (declineJoinRequest env P requestId) db)
  end.

Definition applyLifecycleOps (ops : list LifecycleOp) (db : Db) : Db :=
  fold_left (fun d op => applyLifecycleOp op d) ops db.

(** A lookup or an acceptance of an invitation token. *)
Inductive TokenOp :=
| LookupToken (env : Env) (token : string) (now : Z)
| AcceptToken (env : Env) (P : Principal) (token : string) (now : Z).

Definition applyTokenOp (op : TokenOp) (db : Db) : Db :=
  match op with
  | LookupToken env token now => snd (route env (getInvitation token now) db)
  | AcceptToken env P token now => snd (route env (acceptInvitation P token now) db)
  end.

Definition applyTokenOps (ops : list TokenOp) (db : Db) : Db :=
  fold_left (fun d op => applyTokenOp op d) ops db.

(** An invitation row keeps everything but possibly its status, and keeps
    its status too once it is no longer pending. *)
Definition keepsInvitation (i i' : Invitation) : Prop :=
  i' = withInvitationStatus (i_status i') i
  /\ (i_status i <> INV_PENDING -> i_status i' = i_status i).

(** Invitation ids are unique in the store. *)
Definition uniqueInvitationIds (db : Db) : Prop :=
  NoDup (map i_id (invitations db)).

(** The messages [errorHandler] answers with that are not taken from the
    error. *)
Definition fixedErrorMessages : list string :=
  [ "Duplicate entry"; "Record not found";
    "Database table does not exist. Please run: npx prisma db push";
    "Invalid data provided";
    "Database tables not found. Please run database migration: npx prisma db push";
    "Internal server error" ].

(** The sample store after frank has accepted his invitation as Viewer and
    has a comment and an attachment of his own on task [t1]. *)
Definition viewerStore : Db :=
  setAttachments
    (setComments
       (snd (route Sample.env0
               (acceptInvitation (Sample.principalOf Sample.frank) "tok-2" 500)
               Sample.db0))
       [mkComment "c1" "tB" "t1" "u2" "First"; mkComment "c9" "tB" "t1" "u6" "Mine"])
    [mkAttachment "a1" "tB" "t1" "u2" "plan.png";
     mkAttachment "a9" "tB" "t1" "u6" "mine.png"].

(** Registered addresses are unique. *)
Definition uniqueEmails (adb : AuthDb) : Prop :=
  NoDup (map (fun a => u_email (acc_user a)) (au_accounts adb)).

(** A collaborator for the examples: the token of a principal is the secret
    followed by the user id, and only erin's token verifies; a hash is the
    password followed by the salt. *)
Definition sampleCrypto : Crypto :=
  mkCrypto (Some "s3cret")
    (fun P secret => secret ++ "." ++ userId P)
    (fun token secret =>
       if String.eqb token (secret ++ ".u5")
       then inr (mkPrincipal "u5" "tA" "erin@x.com")
       else inl (mkExn "JsonWebTokenError" None "invalid signature"))
    (fun e => String.eqb (e_name e) "JsonWebTokenError"
              || String.eqb (e_name e) "TokenExpiredError")
    (fun e => String.eqb (e_name e) "TokenExpiredError")
    (fun password salt => password ++ "$" ++ salt)
    (fun password hash => String.prefix (password ++ "$") hash).

Definition sampleAuthDb : AuthDb :=
  mkAuthDb [mkTenant "tA" "Erin's Organization" "FREE" "ACTIVE";
            mkTenant "tB" "Bob's Organization" "FREE" "SUSPENDED"]
           [mkAccount Sample.erin "hunter22$na" None;
            mkAccount Sample.bob "hunter23$cl" None].

(** The shape of a UUID: 8-4-4-4-12 hexadecimal digits. *)
Fixpoint hexGroups (groups : list nat) (s : list ascii) : bool :=
  match groups with
  | [] => match s with [] => true | _ => false end
  | n :: rest =>
      forallb isHexDigit (firstn n s) && (length (firstn n s) =? n)%nat
      && match rest, skipn n s with
         | [], [] => true
         | _ :: _, c :: s' => Ascii.eqb c "-" && hexGroups rest s'
         | _, _ => false
         end
  end.

Definition uuidShape (s : string) : bool :=
  hexGroups [8; 4; 4; 4; 12]%nat (list_ascii_of_string s).

(** A [zod] for the examples: an address holds an "@", an id has the shape of
    a UUID, and the message lists the paths refused. *)
Definition sampleZod : Zod :=
  mkZod (fun s => Str.includes s "@") uuidShape
        (fun paths => "Invalid input: " ++ String.concat ", " paths).

(** The sample store with a second project of bob's, [Gemini], whose id is a
    UUID, and a task of it. *)
Definition gemini : Project :=
  mkProject "7d3f1c2a-5b6e-4f80-9a1b-2c3d4e5f6071" "tB" "Gemini" None "ACTIVE"
            "#14b8a6" (Some "GEM123") "u2".

Definition geminiStore : Db :=
  setTasks (setProjects Sample.db0 [Sample.p1; gemini])
    [Sample.task1;
     mkTask "t2" "tB" "7d3f1c2a-5b6e-4f80-9a1b-2c3d4e5f6071" "Dock"].

(** A server whose zone moves from UTC+1 to UTC+2 at the instant 300000000
    (a change to summer time). *)
Definition summerZone : Z -> bool -> Z :=
  fun t isUTC =>
    if isUTC then (if (t <? 300000000)%Z then 3600000 else 7200000)%Z
    else (if (t <? 303600000)%Z then 3600000 else 7200000)%Z.

Definition envSummer : Env :=
  mkEnv None None false summerZone Sample.extension.


(** * Properties *)

Unset Implicit Arguments.

(** ** The monad and the error middleware *)

Ltac run :=
  cbv beta iota delta
    [route bind get ret throw modify tryCatch ensureTenantAccess
     createMember createActivityLog updateInvitationStatus
     updateJoinRequestStatus profileId projectOf parse issue].

Arguments checkProjectAccess : simpl never.

Lemma eqb_neq_false (a b : string) : a <> b -> String.eqb a b = false.
Proof. intros H. now apply String.eqb_neq. Qed.

Lemma errorHandler_tenant_mismatch (A : Type) (env : Env) :
  @errorHandler A env TenantMismatchError = Fail 403 "Unauthorized: Tenant mismatch".
Proof. reflexivity. Qed.

Lemma outcome_tenant_mismatch (A : Type) :
  outcome (@Fail A 403 "Unauthorized: Tenant mismatch") = TenantMismatch.
Proof. reflexivity. Qed.

(** [errorHandler] never answers with a success. *)
Lemma errorHandler_fails (A : Type) (env : Env) (e : Exn) :
  isSuccess (@errorHandler A env e) = false.
Proof.
  unfold errorHandler.
  repeat match goal with |- context [if ?b then _ else _] => destruct b end;
    reflexivity.
Qed.

Lemma guard_pass (t : string) (db : Db) :
  ensureTenantAccess t t db = (inr tt, db).
Proof. unfold ensureTenantAccess. now rewrite String.eqb_refl. Qed.

Lemma guard_fail (a b : string) (db : Db) :
  a <> b -> ensureTenantAccess a b db = (inl TenantMismatchError, db).
Proof.
  intros H. unfold ensureTenantAccess. now rewrite (eqb_neq_false _ _ H).
Qed.

(** ** Membership and role resolution *)

Lemma findMembership_Some db pid uid tid m :
  findMembership db pid uid tid = Some m -> explicitRow db pid uid tid m.
Proof.
  unfold findMembership, explicitRow. intros H.
  apply find_some in H. destruct H as [Hin Hb].
  apply andb_true_iff in Hb. destruct Hb as [Hb Ht].
  apply andb_true_iff in Hb. destruct Hb as [Hp Hu].
  apply String.eqb_eq in Hp, Hu, Ht. auto.
Qed.

Lemma findMembership_None db pid uid tid :
  findMembership db pid uid tid = None <-> forall m, ~ explicitRow db pid uid tid m.
Proof.
  unfold findMembership, explicitRow. split.
  - intros H m (Hin & Hp & Hu & Ht).
    pose proof (find_none _ _ H m Hin) as Hb. cbv beta in Hb.
    rewrite Hp, Hu, Ht, !String.eqb_refl in Hb. discriminate.
  - intros H.
    destruct (find _ (members db)) as [m|] eqn:E; [|reflexivity].
    exfalso. apply (H m). now apply findMembership_Some.
Qed.

Lemma checkProjectAccess_store db uid pid tid :
  snd (checkProjectAccess uid pid tid db) = db.
Proof.
  unfold checkProjectAccess. run.
  destruct (findMembership db pid uid tid); [reflexivity|].
  destruct (findProjectById db pid) as [p|]; [|reflexivity].
  destruct (negb (tid =? p_tenantId p)); [reflexivity|].
  destruct (p_createdBy p =? uid); reflexivity.
Qed.

(** A resolved access carries a role exactly when it grants access. *)
Lemma checkProjectAccess_role db uid pid tid acc db' :
  checkProjectAccess uid pid tid db = (inr acc, db') ->
  hasAccess acc = match role acc with Some _ => true | None => false end.
Proof.
  unfold checkProjectAccess. run.
  destruct (findMembership db pid uid tid).
  - intros H. inversion H. reflexivity.
  - destruct (findProjectById db pid) as [p|].
    + destruct (negb (tid =? p_tenantId p)); [discriminate|].
      destruct (p_createdBy p =? uid); intros H; inversion H; reflexivity.
    + intros H. inversion H. reflexivity.
Qed.

(** C3. [checkProjectAccess] follows the resolution algorithm of section
    4.3: (1) an explicit membership row for [(projectId, userId, tenantId)],
    when present, decides with that row's role; otherwise (2) a missing
    project gives [hasAccess = false]; otherwise (3) a tenant mismatch
    between caller and project is thrown as the tenant-mismatch error, not
    returned as a denial; otherwise (4) the project's creator is granted
    access with role Owner without any membership row; otherwise (5)
    [hasAccess = false].  The store is never changed. *)
Theorem checkProjectAccess_algorithm (env : Env) (db : Db) (uid pid tid : string) :
  (forall m, findMembership db pid uid tid = Some m ->
     explicitRow db pid uid tid m
     /\ checkProjectAccess uid pid tid db
        = (inr (mkAccess true (Some (m_role m))), db))
  /\ ((exists m, explicitRow db pid uid tid m) ->
      exists m, findMembership db pid uid tid = Some m)
  /\ ((forall m, ~ explicitRow db pid uid tid m) ->
      (findProjectById db pid = None ->
         checkProjectAccess uid pid tid db = (inr (mkAccess false None), db))
      /\ (forall p, findProjectById db pid = Some p ->
            (tid <> p_tenantId p ->
               checkProjectAccess uid pid tid db = (inl TenantMismatchError, db)
               /\ outcome (@errorHandler AccessResult env TenantMismatchError)
                  = TenantMismatch)
            /\ (tid = p_tenantId p -> p_createdBy p = uid ->
                  checkProjectAccess uid pid tid db
                  = (inr (mkAccess true (Some OWNER)), db))
            /\ (tid = p_tenantId p -> p_createdBy p <> uid ->
                  checkProjectAccess uid pid tid db
                  = (inr (mkAccess false None), db)))).
Proof.
  split; [|split].
  - intros m Hm. split; [now apply findMembership_Some|].
    unfold checkProjectAccess. run. now rewrite Hm.
  - intros [m Hm].
    destruct (findMembership db pid uid tid) as [m'|] eqn:E; [now exists m'|].
    exfalso. rewrite findMembership_None in E. now apply (E m).
  - intros Hnone. apply findMembership_None in Hnone.
    split.
    + intros Hp. unfold checkProjectAccess. run. now rewrite Hnone, Hp.
    + intros p Hp. repeat split.
      * unfold checkProjectAccess. run. rewrite Hnone, Hp.
        now rewrite (eqb_neq_false _ _ H).
      * intros Ht Hc. unfold checkProjectAccess. run. rewrite Hnone, Hp.
        subst tid. rewrite String.eqb_refl. cbn.
        apply String.eqb_eq in Hc. now rewrite Hc.
      * intros Ht Hc. unfold checkProjectAccess. run. rewrite Hnone, Hp.
        subst tid. rewrite String.eqb_refl. cbn.
        now rewrite (eqb_neq_false _ _ Hc).
Qed.

(** The creator of [p1] keeps Owner access when the membership table holds
    no row at all. *)
Lemma checkProjectAccess_algorithm_witness :
  checkProjectAccess "u2" "p1" "tB" (setMembers Sample.db0 [])
  = (inr (mkAccess true (Some OWNER)), setMembers Sample.db0 []).
Proof.
  refine (proj1 (proj2 (proj2 (proj2 (proj2
    (checkProjectAccess_algorithm Sample.env0 (setMembers Sample.db0 [])
       "u2" "p1" "tB")) _) Sample.p1 eq_refl)) eq_refl eq_refl).
  intros m (Hin & _). exact Hin.
Defined.

(** ** Project deletion *)

Lemma findProjectById_id db id p :
  findProjectById db id = Some p -> p_id p = id.
Proof.
  unfold findProjectById. intros H. apply find_some in H.
  now apply String.eqb_eq.
Qed.

Lemma filter_find_none {A} (f : A -> bool) (l : list A) :
  find f (filter (fun x => negb (f x)) l) = None.
Proof.
  induction l as [|a l IH]; [reflexivity|].
  cbn. destruct (f a) eqn:E; cbn; [exact IH|]. now rewrite E.
Qed.

Lemma deleteProjectCascade_gone db id :
  findProjectById (deleteProjectCascade id db) id = None.
Proof.
  unfold findProjectById, deleteProjectCascade. cbn.
  apply (filter_find_none (fun p => p_id p =? id)).
Qed.

(** What [DELETE /projects/:id] does once the project is loaded and the
    tenant guard has passed, in terms of the resolved access. *)
Lemma deleteProject_resolved env db P id project acc :
  findProjectById db id = Some project ->
  tenantId P = p_tenantId project ->
  checkProjectAccess (userId P) (p_id project) (tenantId P) db = (inr acc, db) ->
  route env (deleteProject P id) db
  = if negb (hasAccess acc) || negb (canAdmin (role acc))
    then (Fail 403 "Only owners and admins can delete projects", db)
    else (Json 200 "Project deleted successfully", deleteProjectCascade id db).
Proof.
  intros Hp Ht Hacc. unfold deleteProject. run. rewrite Hp.
  rewrite <- Ht, String.eqb_refl. cbn.
  rewrite Hacc.
  destruct (negb (hasAccess acc) || negb (canAdmin (role acc))); reflexivity.
Qed.

Lemma checkProjectAccess_total db P project id :
  findProjectById db id = Some project ->
  tenantId P = p_tenantId project ->
  exists acc,
    checkProjectAccess (userId P) (p_id project) (tenantId P) db = (inr acc, db).
Proof.
  intros Hp Ht. rewrite (findProjectById_id _ _ _ Hp).
  unfold checkProjectAccess. run.
  destruct (findMembership db id (userId P) (tenantId P)); [eauto|].
  rewrite Hp, Ht, String.eqb_refl. cbn.
  destruct (p_createdBy project =? userId P); eauto.
Qed.

(** C2, as the code has it.  [DELETE /projects/:id] on an existing project of
    the caller's tenant resolves the caller's role and
    - answers 403 (Forbidden) and leaves the store as it was when the
      resolved role is Member, Viewer or absent;
    - deletes the project when the resolved role is Owner or Admin.
    Whatever the request, a deletion that does not succeed changes nothing,
    and one that succeeds was made by a caller resolved to Owner or Admin. *)
Theorem deleteProject_owner_or_admin (env : Env) (db : Db) (P : Principal)
    (id : string) :
  (forall project,
     findProjectById db id = Some project ->
     tenantId P = p_tenantId project ->
     exists acc,
       checkProjectAccess (userId P) (p_id project) (tenantId P) db = (inr acc, db)
       /\ ((role acc = Some MEMBER \/ role acc = Some VIEWER \/ role acc = None) ->
           route env (deleteProject P id) db
           = (Fail 403 "Only owners and admins can delete projects", db)
           /\ outcome (fst (route env (deleteProject P id) db)) = Forbidden)
       /\ ((role acc = Some OWNER \/ role acc = Some ADMIN) ->
           fst (route env (deleteProject P id) db)
           = Json 200 "Project deleted successfully"
           /\ findProjectById (snd (route env (deleteProject P id) db)) id = None))
  /\ (isSuccess (fst (route env (deleteProject P id) db)) = false ->
      snd (route env (deleteProject P id) db) = db)
  /\ (isSuccess (fst (route env (deleteProject P id) db)) = true ->
      exists project acc,
        findProjectById db id = Some project
        /\ checkProjectAccess (userId P) (p_id project) (tenantId P) db = (inr acc, db)
        /\ (role acc = Some OWNER \/ role acc = Some ADMIN)).
Proof.
  split; [|split].
  - intros project Hp Ht.
    destruct (checkProjectAccess_total db P project id Hp Ht) as [acc Hacc].
    exists acc. split; [exact Hacc|].
    pose proof (checkProjectAccess_role _ _ _ _ _ _ Hacc) as Hrole.
    rewrite (deleteProject_resolved env db P id project acc Hp Ht Hacc).
    split.
    + intros Hr. rewrite Hrole.
      destruct Hr as [Hr|[Hr|Hr]]; rewrite Hr; cbn; auto.
    + intros Hr. rewrite Hrole.
      destruct Hr as [Hr|Hr]; rewrite Hr; cbn -[findProjectById deleteProjectCascade];
        auto using deleteProjectCascade_gone.
  - destruct (findProjectById db id) as [project|] eqn:Hp.
    + destruct (String.eqb (tenantId P) (p_tenantId project)) eqn:Ht.
      * apply String.eqb_eq in Ht.
        destruct (checkProjectAccess_total db P project id Hp Ht) as [acc Hacc].
        rewrite (deleteProject_resolved env db P id project acc Hp Ht Hacc).
        destruct (negb (hasAccess acc) || negb (canAdmin (role acc)));
          cbn; [reflexivity|discriminate].
      * intros _. unfold deleteProject. run. now rewrite Hp, Ht.
    + intros _. unfold deleteProject. run. now rewrite Hp.
  - destruct (findProjectById db id) as [project|] eqn:Hp.
    + destruct (String.eqb (tenantId P) (p_tenantId project)) eqn:Ht.
      * apply String.eqb_eq in Ht.
        destruct (checkProjectAccess_total db P project id Hp Ht) as [acc Hacc].
        pose proof (checkProjectAccess_role _ _ _ _ _ _ Hacc) as Hrole.
        rewrite (deleteProject_resolved env db P id project acc Hp Ht Hacc).
        intros Hs. exists project, acc. repeat split; auto.
        rewrite Hrole in Hs.
        destruct (role acc) as [[]|]; cbn in Hs; auto; discriminate.
      * unfold deleteProject. run. rewrite Hp, Ht. cbn. discriminate.
    + unfold deleteProject. run. rewrite Hp. cbn. discriminate.
Qed.

(** Dave holds no membership in [p1] and did not create it: his request to
    delete it is refused and nothing changes. *)
Lemma deleteProject_owner_or_admin_witness :
  route Sample.env0 (deleteProject (Sample.principalOf Sample.dave) "p1") Sample.db0
  = (Fail 403 "Only owners and admins can delete projects", Sample.db0).
Proof.
  destruct (proj1 (deleteProject_owner_or_admin Sample.env0 Sample.db0
                     (Sample.principalOf Sample.dave) "p1")
                  Sample.p1 eq_refl eq_refl) as [acc [Hacc [Hdeny _]]].
  apply Hdeny. right. right.
  vm_compute in Hacc. now inversion Hacc.
Defined.

(** C2, as stated, fails: carol's resolved role in [p1] is Admin, and her
    delete request succeeds and removes the project. *)
Lemma deleteProject_admin_counterexample :
  checkProjectAccess "u3" "p1" "tB" Sample.db0
  = (inr (mkAccess true (Some ADMIN)), Sample.db0)
  /\ fst (route Sample.env0 (deleteProject (Sample.principalOf Sample.carol) "p1")
                Sample.db0)
     = Json 200 "Project deleted successfully"
  /\ findProjectById
       (snd (route Sample.env0 (deleteProject (Sample.principalOf Sample.carol) "p1")
                   Sample.db0)) "p1"
     = None.
Proof. repeat split. Qed.

(** ** Rows, ids and the branches of the invitation handlers *)

Lemma inIds_In id ids : inIds id ids = true <-> In id ids.
Proof.
  unfold inIds. rewrite existsb_exists. split.
  - intros [x [Hin Hx]]. apply String.eqb_eq in Hx. now subst.
  - intros Hin. exists id. split; [exact Hin|apply String.eqb_refl].
Qed.

Lemma memberIds_hasRow db uid id :
  In id (map m_projectId
             (filter (fun m => String.eqb (m_userId m) uid) (members db)))
  <-> hasRow db id uid.
Proof.
  unfold hasRow. rewrite in_map_iff. split.
  - intros [m [Hid Hin]]. apply filter_In in Hin. destruct Hin as [Hin Hu].
    apply String.eqb_eq in Hu. eauto.
  - intros [m (Hin & Hp & Hu)]. exists m. split; [exact Hp|].
    apply filter_In. split; [exact Hin|]. now apply String.eqb_eq.
Qed.

Lemma createdIds_createdHere db P id :
  In id (map p_id
             (filter (fun p => String.eqb (p_createdBy p) (userId P)
                               && String.eqb (p_tenantId p) (tenantId P))
                     (projects db)))
  <-> createdHere db P id.
Proof.
  unfold createdHere. rewrite in_map_iff. split.
  - intros [p [Hid Hin]]. apply filter_In in Hin. destruct Hin as [Hin Hb].
    apply andb_true_iff in Hb. destruct Hb as [Hc Ht].
    apply String.eqb_eq in Hc, Ht. eauto.
  - intros [p (Hin & Hid & Hc & Ht)]. exists p. split; [exact Hid|].
    apply filter_In. split; [exact Hin|].
    rewrite Hc, Ht, !String.eqb_refl. reflexivity.
Qed.

Lemma membersOf_hasRow db id uid :
  existsb (fun m => String.eqb (m_userId m) uid) (membersOf db id) = true
  <-> hasRow db id uid.
Proof.
  unfold hasRow, membersOf. rewrite existsb_exists. split.
  - intros [m [Hin Hu]]. apply filter_In in Hin. destruct Hin as [Hin Hp].
    apply String.eqb_eq in Hu, Hp. eauto.
  - intros [m (Hin & Hp & Hu)]. exists m. split.
    + apply filter_In. split; [exact Hin|]. now apply String.eqb_eq.
    + now apply String.eqb_eq.
Qed.

(** [POST /invitations/:token/accept], branch by branch. *)
Lemma acceptInvitation_cases env P token now db :
  route env (acceptInvitation P token now) db
  = match findPendingInvitation db token with
    | None => (Fail 404 "Invitation not found", db)
    | Some inv =>
        if (now >? i_expiresAt inv)%Z
        then (Fail 410 "Invitation has expired",
              setInvitationStatus (i_id inv) INV_EXPIRED db)
        else
          match findUserById db (userId P) with
          | None => (emailRefusal, db)
          | Some u =>
              if negb (String.eqb (u_email u) (i_email inv))
              then (emailRefusal, db)
              else if negb (String.eqb (tenantId P) (i_tenantId inv))
              then (tenantMismatchResponse, db)
              else
                match u_profile u with
                | None => (errorHandler env TypeError, db)
                | Some pr =>
                    if isMemberOf db (i_projectId inv) (pr_id pr)
                    then (Fail 409 "Already a member of this project",
                          setInvitationStatus (i_id inv) INV_ACCEPTED db)
                    else (Json 200 "Invitation accepted successfully",
                          acceptedStore P inv (pr_id pr) db)
                end
          end
    end.
Proof.
  unfold acceptInvitation. run.
  destruct (findPendingInvitation db token) as [inv|]; [|reflexivity].
  destruct (now >? i_expiresAt inv)%Z; [reflexivity|].
  destruct (findUserById db (userId P)) as [u|]; [|reflexivity].
  destruct (negb (u_email u =? i_email inv)); [reflexivity|].
  destruct (negb (tenantId P =? i_tenantId inv)); [reflexivity|].
  destruct (u_profile u) as [pr|]; [|reflexivity].
  destruct (isMemberOf db (i_projectId inv) (pr_id pr)); reflexivity.
Qed.

Lemma getInvitation_cases env token now db :
  route env (getInvitation token now) db
  = match findPendingInvitation db token with
    | None => (Fail 404 "Invitation not found", db)
    | Some inv =>
        if (now >? i_expiresAt inv)%Z
        then (Fail 410 "Invitation has expired",
              setInvitationStatus (i_id inv) INV_EXPIRED db)
        else (Json 200 inv, db)
    end.
Proof.
  unfold getInvitation. run.
  destruct (findPendingInvitation db token) as [inv|]; [|reflexivity].
  destruct (now >? i_expiresAt inv)%Z; reflexivity.
Qed.

(** ** Tenant isolation *)

Lemma parse_accepts (z : Zod) (db : Db) : parse z [] db = (inr tt, db).
Proof. reflexivity. Qed.

Lemma issue_nil (ok : bool) (path : string) : issue ok path = [] <-> ok = true.
Proof. destruct ok; cbn; split; intros H; try reflexivity; discriminate. Qed.

Lemma updateProjectIssues_nil (data : ProjectData) :
  updateProjectIssues data = [] <-> updateProjectSchema data = true.
Proof.
  unfold updateProjectIssues, updateProjectSchema.
  destruct (optional _ (d_name data)), (optional colorPattern (d_color data)),
    (optional statusEnum (d_status data)); cbn; split; intros H;
    try reflexivity; discriminate.
Qed.





Section TenantGuard.

Variables (env : Env) (z : Zod) (db : Db) (P : Principal).















End TenantGuard.









(** ** Invitations *)

Lemma findPendingInvitation_Some db token inv :
  findPendingInvitation db token = Some inv ->
  In inv (invitations db) /\ i_token inv = token /\ i_status inv = INV_PENDING.
Proof.
  unfold findPendingInvitation. intros H. apply find_some in H.
  destruct H as [Hin Hb]. apply andb_true_iff in Hb. destruct Hb as [Ht Hs].
  apply String.eqb_eq in Ht. repeat split; auto.
  destruct (i_status inv); cbn in Hs; congruence.
Qed.

Lemma find_all_false {A} (f : A -> bool) (l : list A) :
  (forall x, In x l -> f x = false) -> find f l = None.
Proof.
  induction l as [|a l IH]; [reflexivity|]. intros H. cbn.
  rewrite (H a (or_introl eq_refl)). apply IH. intros x Hx. apply H. now right.
Qed.

Lemma NoDup_map_inj {A B} (f : A -> B) (l : list A) (a b : A) :
  NoDup (map f l) -> In a l -> In b l -> f a = f b -> a = b.
Proof.
  induction l as [|x l IH]; [contradiction|].
  cbn. intros Hnd Ha Hb Hf. inversion Hnd as [|? ? Hx Hl]; subst.
  destruct Ha as [Ha|Ha], Hb as [Hb|Hb]; subst.
  - reflexivity.
  - exfalso. apply Hx. rewrite Hf. now apply in_map.
  - exfalso. apply Hx. rewrite <- Hf. now apply in_map.
  - now apply IH.
Qed.

(** Once the invitation a token designates has left the pending state, the
    token designates nothing any more. *)
Lemma findPendingInvitation_consumed db token inv st :
  uniqueTokens db ->
  findPendingInvitation db token = Some inv ->
  st <> INV_PENDING ->
  forall db',
    invitations db' = invitations (setInvitationStatus (i_id inv) st db) ->
    findPendingInvitation db' token = None.
Proof.
  intros Hu Hf Hst db' Hdb'.
  destruct (findPendingInvitation_Some _ _ _ Hf) as (Hin & Htok & _).
  unfold findPendingInvitation. rewrite Hdb'. cbn.
  apply find_all_false. intros x Hx.
  apply in_map_iff in Hx. destruct Hx as [i [Hi Hini]].
  destruct (String.eqb (i_token i) token) eqn:Et.
  - apply String.eqb_eq in Et.
    assert (i = inv) by
      (apply (NoDup_map_inj i_token (invitations db)); auto; congruence).
    subst i. rewrite String.eqb_refl in Hi. subst x. cbn.
    rewrite Htok, String.eqb_refl. cbn.
    destruct st; cbn; congruence.
  - destruct (i_id i =? i_id inv); subst x; cbn; now rewrite Et.
Qed.

Lemma memberCount_addMember db m pid uid :
  memberCount (addMember m db) pid uid
  = (memberCount db pid uid
     + if String.eqb (m_projectId m) pid && String.eqb (m_userId m) uid
       then 1 else 0)%nat.
Proof.
  unfold memberCount, addMember. cbn. rewrite filter_app, length_app. cbn.
  destruct (String.eqb (m_projectId m) pid && String.eqb (m_userId m) uid);
    reflexivity.
Qed.

Lemma isMemberOf_false_count db pid uid :
  isMemberOf db pid uid = false -> memberCount db pid uid = 0%nat.
Proof.
  unfold isMemberOf, memberCount. induction (members db) as [|m l IH];
    [reflexivity|].
  cbn. destruct (String.eqb (m_projectId m) pid && String.eqb (m_userId m) uid);
    cbn; [discriminate|exact IH].
Qed.

(** One acceptance never takes a pair (project, user) from at most one
    membership row to two. *)
Lemma acceptInvitation_memberCount env P token now db pid uid :
  (memberCount db pid uid <= 1)%nat ->
  (memberCount (snd (route env (acceptInvitation P token now) db)) pid uid <= 1)%nat.
Proof.
  intros Hc. rewrite acceptInvitation_cases.
  destruct (findPendingInvitation db token) as [inv|]; [|exact Hc].
  destruct (now >? i_expiresAt inv)%Z; [exact Hc|].
  destruct (findUserById db (userId P)) as [u|]; [|exact Hc].
  destruct (negb (u_email u =? i_email inv)); [exact Hc|].
  destruct (negb (tenantId P =? i_tenantId inv)); [exact Hc|].
  destruct (u_profile u) as [pr|]; [|exact Hc].
  destruct (isMemberOf db (i_projectId inv) (pr_id pr)) eqn:Em; [exact Hc|].
  cbn [snd]. unfold acceptedStore.
  change (memberCount
            (addMember (mkMember (i_tenantId inv) (i_projectId inv) (pr_id pr)
                                 (i_role inv)) db) pid uid <= 1)%nat.
  rewrite memberCount_addMember. cbn [m_projectId m_userId].
  destruct (String.eqb (i_projectId inv) pid && String.eqb (pr_id pr) uid) eqn:E;
    [|lia].
  apply andb_true_iff in E. destruct E as [E1 E2].
  apply String.eqb_eq in E1, E2. subst pid uid.
  rewrite (isMemberOf_false_count _ _ _ Em). lia.
Qed.

(** The acceptances that find their user a member already. *)
Lemma acceptInvitation_conflict env Q token t d :
  outcome (fst (route env (acceptInvitation Q token t) d)) = Conflict
  <-> exists inv u pr,
        findPendingInvitation d token = Some inv
        /\ (t <= i_expiresAt inv)%Z
        /\ findUserById d (userId Q) = Some u
        /\ u_email u = i_email inv
        /\ tenantId Q = i_tenantId inv
        /\ u_profile u = Some pr
        /\ isMemberOf d (i_projectId inv) (pr_id pr) = true.
Proof.
  rewrite acceptInvitation_cases. split.
  - destruct (findPendingInvitation d token) as [inv|] eqn:Hf; [|discriminate].
    rewrite Z.gtb_ltb.
    destruct (Z.ltb_spec (i_expiresAt inv) t) as [Hlt|Hle]; [discriminate|].
    destruct (findUserById d (userId Q)) as [u|] eqn:Hu; [|discriminate].
    destruct (String.eqb_spec (u_email u) (i_email inv)) as [He|He];
      [|discriminate].
    destruct (String.eqb_spec (tenantId Q) (i_tenantId inv)) as [Ht|Ht];
      [|discriminate].
    cbn [negb].
    destruct (u_profile u) as [pr|] eqn:Hp.
    + destruct (isMemberOf d (i_projectId inv) (pr_id pr)) eqn:Hm;
        [|discriminate].
      intros _. exists inv, u, pr. repeat split; auto.
    + cbn [fst]. unfold errorHandler. cbn.
      destruct (production env); discriminate.
  - intros (inv & u & pr & Hf & Hle & Hu & He & Ht & Hp & Hm).
    rewrite Hf, Hu, He, Ht, Hp, Hm, !String.eqb_refl. rewrite Z.gtb_ltb.
    destruct (Z.ltb_spec (i_expiresAt inv) t); [lia|reflexivity].
Qed.

(** C4, as the code has it.  With unique invitation tokens, once an
    acceptance of a token has gone through (or has found its user a member
    already, which also marks the invitation accepted), any further
    acceptance of that token, by anyone at any time, is answered with 404
    "Invitation not found" and changes nothing; and a pair (project, user)
    with at most one membership row before the two acceptances has at most
    one after them.  Conflict is the answer of an acceptance, in any store,
    exactly when the token designates a pending invitation that has not
    expired, addressed to the account of the caller and of the caller's
    tenant, and the caller already holds a membership row in the project;
    the answer is then 409 "Already a member of this project", the
    invitation is marked accepted and no membership row is added. *)
Theorem acceptInvitation_twice (env : Env) (db : Db) (P P' : Principal)
    (token : string) (now now' : Z) :
  uniqueTokens db ->
  (outcome (fst (route env (acceptInvitation P token now) db)) = Success
   \/ outcome (fst (route env (acceptInvitation P token now) db)) = Conflict) ->
  route env (acceptInvitation P' token now')
        (snd (route env (acceptInvitation P token now) db))
  = (Fail 404 "Invitation not found",
     snd (route env (acceptInvitation P token now) db))
  /\ (forall pid uid,
        (memberCount db pid uid <= 1)%nat ->
        (memberCount
           (snd (route env (acceptInvitation P' token now')
                       (snd (route env (acceptInvitation P token now) db))))
           pid uid <= 1)%nat)
  /\ (forall d Q t,
        outcome (fst (route env (acceptInvitation Q token t) d)) = Conflict
        <-> exists inv u pr,
              findPendingInvitation d token = Some inv
              /\ (t <= i_expiresAt inv)%Z
              /\ findUserById d (userId Q) = Some u
              /\ u_email u = i_email inv
              /\ tenantId Q = i_tenantId inv
              /\ u_profile u = Some pr
              /\ isMemberOf d (i_projectId inv) (pr_id pr) = true)
  /\ (forall d Q t inv u pr,
        findPendingInvitation d token = Some inv ->
        (t <= i_expiresAt inv)%Z ->
        findUserById d (userId Q) = Some u ->
        u_email u = i_email inv ->
        tenantId Q = i_tenantId inv ->
        u_profile u = Some pr ->
        isMemberOf d (i_projectId inv) (pr_id pr) = true ->
        route env (acceptInvitation Q token t) d
        = (Fail 409 "Already a member of this project",
           setInvitationStatus (i_id inv) INV_ACCEPTED d)
        /\ members (setInvitationStatus (i_id inv) INV_ACCEPTED d) = members d).
Proof.
  intros Hu Ho.
  split; [|split; [intros pid uid Hc; now do 2 apply acceptInvitation_memberCount|]];
    [|split; [intros d Q t; apply acceptInvitation_conflict|
              intros d Q t inv u pr Hf Hle Hus He Ht Hp Hm;
              split; [|reflexivity];
              rewrite acceptInvitation_cases, Hf, Hus, He, Ht, Hp, Hm,
                !String.eqb_refl; rewrite Z.gtb_ltb;
              destruct (Z.ltb_spec (i_expiresAt inv) t); [lia|reflexivity]]].
  rewrite (acceptInvitation_cases env P' token now').
  enough (H : findPendingInvitation
                (snd (route env (acceptInvitation P token now) db)) token = None)
    by now rewrite H.
  revert Ho. rewrite (acceptInvitation_cases env P token now).
  destruct (findPendingInvitation db token) as [inv|] eqn:Hf;
    [|cbn; intros [H|H]; discriminate].
  destruct (now >? i_expiresAt inv)%Z; [cbn; intros [H|H]; discriminate|].
  destruct (findUserById db (userId P)) as [u|];
    [|cbn; intros [H|H]; discriminate].
  destruct (negb (u_email u =? i_email inv)); [cbn; intros [H|H]; discriminate|].
  destruct (negb (tenantId P =? i_tenantId inv));
    [cbn; intros [H|H]; discriminate|].
  destruct (u_profile u) as [pr|];
    [|cbn; intros [H|H]; discriminate].
  assert (Hacc : INV_ACCEPTED <> INV_PENDING) by discriminate.
  destruct (isMemberOf db (i_projectId inv) (pr_id pr)); intros _; cbn [snd];
    apply (findPendingInvitation_consumed db token inv INV_ACCEPTED Hu Hf Hacc);
    reflexivity.
Qed.

Lemma uniqueTokens_sample : uniqueTokens Sample.db0.
Proof.
  unfold uniqueTokens. cbn. repeat constructor; cbn; intuition discriminate.
Defined.

(** Frank accepts his invitation; a second acceptance finds no invitation. *)
Lemma acceptInvitation_twice_witness :
  route Sample.env0 (acceptInvitation (Sample.principalOf Sample.frank) "tok-2" 600)
        (snd (route Sample.env0
                    (acceptInvitation (Sample.principalOf Sample.frank) "tok-2" 500)
                    Sample.db0))
  = (Fail 404 "Invitation not found",
     snd (route Sample.env0
                (acceptInvitation (Sample.principalOf Sample.frank) "tok-2" 500)
                Sample.db0)).
Proof.
  apply (proj1 (acceptInvitation_twice Sample.env0 Sample.db0
                  (Sample.principalOf Sample.frank) (Sample.principalOf Sample.frank)
                  "tok-2" 500 600 uniqueTokens_sample (or_introl eq_refl))).
Defined.

(** C4, as stated, fails: frank's first acceptance succeeds and creates his
    membership row; his second acceptance of the same token is answered with
    NotFound, not with Conflict. *)
Lemma acceptInvitation_twice_counterexample :
  fst (route Sample.env0
             (acceptInvitation (Sample.principalOf Sample.frank) "tok-2" 500)
             Sample.db0)
  = Json 200 "Invitation accepted successfully"
  /\ memberCount
       (snd (route Sample.env0
                   (acceptInvitation (Sample.principalOf Sample.frank) "tok-2" 500)
                   Sample.db0)) "p1" "u6" = 1%nat
  /\ outcome
       (fst (route Sample.env0
               (acceptInvitation (Sample.principalOf Sample.frank) "tok-2" 600)
               (snd (route Sample.env0
                      (acceptInvitation (Sample.principalOf Sample.frank) "tok-2" 500)
                      Sample.db0))))
     = NotFound
  /\ NotFound <> Conflict.
Proof. repeat split. discriminate. Qed.

Lemma equalsIgnoreCase_refl (a : string) : Str.equalsIgnoreCase a a = true.
Proof. unfold Str.equalsIgnoreCase. apply String.eqb_refl. Qed.

Lemma equalsIgnoreCase_false_neq (a b : string) :
  Str.equalsIgnoreCase a b = false -> String.eqb a b = false.
Proof.
  intros H. apply String.eqb_neq. intros ->.
  rewrite equalsIgnoreCase_refl in H. discriminate.
Qed.

(** C5, as the code has it.  For a pending invitation that has not expired:
    - a principal whose account email equals the invitation's target email
      passes the email check: in the invitation's tenant, with a profile and
      no membership yet, the acceptance succeeds and stores a membership row
      at the invited role;
    - a principal whose account email differs from the target email also
      when letter case is ignored, or who has no account, is answered with
      403 and the fixed message "Invitation email does not match your
      account", and the store is left as it was. *)
Theorem acceptInvitation_email_check (env : Env) (db : Db) (P : Principal)
    (token : string) (now : Z) (inv : Invitation) :
  findPendingInvitation db token = Some inv ->
  (now <= i_expiresAt inv)%Z ->
  (forall u pr,
     findUserById db (userId P) = Some u ->
     u_email u = i_email inv ->
     tenantId P = i_tenantId inv ->
     u_profile u = Some pr ->
     isMemberOf db (i_projectId inv) (pr_id pr) = false ->
     route env (acceptInvitation P token now) db
     = (Json 200 "Invitation accepted successfully",
        acceptedStore P inv (pr_id pr) db)
     /\ members (acceptedStore P inv (pr_id pr) db)
        = (members db
           ++ [mkMember (i_tenantId inv) (i_projectId inv) (pr_id pr) (i_role inv)])%list)
  /\ (forall u,
        findUserById db (userId P) = Some u ->
        Str.equalsIgnoreCase (u_email u) (i_email inv) = false ->
        route env (acceptInvitation P token now) db = (emailRefusal, db)
        /\ outcome emailRefusal = Forbidden)
  /\ (findUserById db (userId P) = None ->
      route env (acceptInvitation P token now) db = (emailRefusal, db)).
Proof.
  intros Hf Hnow.
  assert (Hgt : (now >? i_expiresAt inv)%Z = false) by (rewrite Z.gtb_ltb; apply Z.ltb_ge; lia).
  repeat apply conj.
  - intros u pr Hu He Ht Hp Hm.
    rewrite acceptInvitation_cases, Hf, Hgt, Hu, He, Ht, !String.eqb_refl, Hp, Hm.
    split; reflexivity.
  - intros u Hu He.
    rewrite acceptInvitation_cases, Hf, Hgt, Hu,
      (equalsIgnoreCase_false_neq _ _ He).
    split; reflexivity.
  - intros Hu. now rewrite acceptInvitation_cases, Hf, Hgt, Hu.
Qed.

(** Bob tries the invitation addressed to Dave and is refused. *)
Lemma acceptInvitation_email_check_witness :
  route Sample.env0 (acceptInvitation (Sample.principalOf Sample.bob) "tok-1" 500)
        Sample.db0
  = (emailRefusal, Sample.db0).
Proof.
  apply (proj1 (proj2 (acceptInvitation_email_check Sample.env0 Sample.db0
                  (Sample.principalOf Sample.bob) "tok-1" 500 Sample.inv1
                  eq_refl ltac:(cbn; lia)))
          Sample.bob eq_refl eq_refl).
Defined.

(** C5, as stated, fails: the message of the refusal is a fixed text that
    does not name the address the invitation was sent to. *)
Lemma acceptInvitation_message_counterexample :
  i_email Sample.inv1 = "Dave@x.com"
  /\ route Sample.env0 (acceptInvitation (Sample.principalOf Sample.bob) "tok-1" 500)
           Sample.db0
     = (Fail 403 "Invitation email does not match your account", Sample.db0)
  /\ Str.includes "Invitation email does not match your account" "Dave@x.com"
     = false.
Proof. repeat split. Qed.

(** The comparison of the two addresses is the exact one: dave, whose account
    spells the address in lower case, is refused the invitation sent to
    "Dave@x.com". *)
Lemma acceptInvitation_exact_comparison :
  Str.equalsIgnoreCase (u_email Sample.dave) (i_email Sample.inv1) = true
  /\ route Sample.env0 (acceptInvitation (Sample.principalOf Sample.dave) "tok-1" 500)
           Sample.db0
     = (emailRefusal, Sample.db0).
Proof. split; reflexivity. Qed.

Lemma setInvitationStatus_status db id st i :
  In i (invitations (setInvitationStatus id st db)) ->
  i_id i = id -> i_status i = st.
Proof.
  cbn. intros Hin Hid. apply in_map_iff in Hin. destruct Hin as [i0 [Hi Hin]].
  destruct (String.eqb (i_id i0) id) eqn:E; subst i; [reflexivity|].
  apply String.eqb_neq in E. contradiction.
Qed.

(** C8.  When the token designates a pending invitation whose [expiresAt] lies
    before [now], the lookup by token and the acceptance both answer 410
    (Gone) instead of the invitation or a membership, and both leave the store
    with that invitation marked expired and with the membership table
    untouched.  Whatever the store, and so however often the operations have
    run before, a lookup only ever returns a pending invitation that has not
    expired, and an acceptance only ever succeeds on one. *)
Theorem expired_invitation_gone (env : Env) (db : Db) (P : Principal)
    (token : string) (now : Z) (inv : Invitation) :
  findPendingInvitation db token = Some inv ->
  (now > i_expiresAt inv)%Z ->
  route env (getInvitation token now) db
  = (Fail 410 "Invitation has expired",
     setInvitationStatus (i_id inv) INV_EXPIRED db)
  /\ route env (acceptInvitation P token now) db
     = (Fail 410 "Invitation has expired",
        setInvitationStatus (i_id inv) INV_EXPIRED db)
  /\ outcome (fst (route env (getInvitation token now) db)) = Gone
  /\ outcome (fst (route env (acceptInvitation P token now) db)) = Gone
  /\ (forall i, In i (invitations (setInvitationStatus (i_id inv) INV_EXPIRED db)) ->
        i_id i = i_id inv -> i_status i = INV_EXPIRED)
  /\ members (setInvitationStatus (i_id inv) INV_EXPIRED db) = members db
  /\ (forall db' token' now' s body,
        fst (route env (getInvitation token' now') db') = Json s body ->
        i_status body = INV_PENDING /\ (now' <= i_expiresAt body)%Z)
  /\ (forall db' P' token' now',
        isSuccess (fst (route env (acceptInvitation P' token' now') db')) = true ->
        exists inv',
          findPendingInvitation db' token' = Some inv'
          /\ (now' <= i_expiresAt inv')%Z).
Proof.
  intros Hf Hnow.
  assert (Hgt : (now >? i_expiresAt inv)%Z = true) by (apply Z.gtb_lt; lia).
  rewrite getInvitation_cases, acceptInvitation_cases, Hf, Hgt.
  repeat apply conj; try reflexivity.
  - intros i. apply setInvitationStatus_status.
  - intros db' token' now' s body. rewrite getInvitation_cases.
    destruct (findPendingInvitation db' token') as [inv'|] eqn:Hf';
      [|discriminate].
    destruct (now' >? i_expiresAt inv')%Z eqn:E; [discriminate|].
    cbn. intros H. inversion H; subst.
    split; [apply (findPendingInvitation_Some _ _ _ Hf')|].
    rewrite Z.gtb_ltb in E. apply Z.ltb_ge in E. exact E.
  - intros db' P' token' now'. rewrite acceptInvitation_cases.
    destruct (findPendingInvitation db' token') as [inv'|] eqn:Hf';
      [|discriminate].
    destruct (now' >? i_expiresAt inv')%Z eqn:E; [discriminate|].
    intros _. exists inv'. split; [reflexivity|].
    rewrite Z.gtb_ltb in E. apply Z.ltb_ge in E. exact E.
Qed.

(** Invitation [inv1] expired at 1000; at 2000 its lookup answers Gone. *)
Lemma expired_invitation_gone_witness :
  route Sample.env0 (getInvitation "tok-1" 2000) Sample.db0
  = (Fail 410 "Invitation has expired",
     setInvitationStatus "i1" INV_EXPIRED Sample.db0).
Proof.
  apply (proj1 (expired_invitation_gone Sample.env0 Sample.db0
                  (Sample.principalOf Sample.dave) "tok-1" 2000 Sample.inv1
                  eq_refl ltac:(cbn; lia))).
Defined.

(** After the first Gone, with unique tokens, the token designates nothing:
    later lookups and acceptances answer NotFound. *)
Lemma expired_invitation_then_not_found env db P token now now' inv :
  uniqueTokens db ->
  findPendingInvitation db token = Some inv ->
  route env (getInvitation token now')
        (setInvitationStatus (i_id inv) INV_EXPIRED db)
  = (Fail 404 "Invitation not found",
     setInvitationStatus (i_id inv) INV_EXPIRED db)
  /\ route env (acceptInvitation P token now)
           (setInvitationStatus (i_id inv) INV_EXPIRED db)
     = (Fail 404 "Invitation not found",
        setInvitationStatus (i_id inv) INV_EXPIRED db).
Proof.
  intros Hu Hf.
  assert (Hexp : INV_EXPIRED <> INV_PENDING) by discriminate.
  rewrite getInvitation_cases, acceptInvitation_cases.
  now rewrite (findPendingInvitation_consumed db token inv INV_EXPIRED Hu Hf Hexp
                 _ eq_refl).
Qed.

(** ** Join requests *)

(** [POST /join-requests/:requestId/accept], branch by branch. *)
Lemma acceptJoinRequest_cases env P requestId db :
  route env (acceptJoinRequest env P requestId) db
  = match findJoinRequestById db requestId with
    | None => (Fail 404 "Join request not found", db)
    | Some j =>
        match findAdminMembership db (j_projectId j) (userId P) with
        | None => (Fail 403 "You do not have permission to accept join requests", db)
        | Some _ =>
            match findProjectById db (j_projectId j) with
            | None => (errorHandler env TypeError, db)
            | Some project =>
                if existsb (fun m => String.eqb (m_userId m) (j_userId j))
                           (membersOf db (p_id project))
                then (Fail 400 "User is already a member", db)
                else
                  match notificationFailure env with
                  | Some e => (errorHandler env e, joinAccepted requestId j db)
                  | None =>
                      (Json 200 "Join request accepted",
                       addNotification (acceptedNotification j project)
                                       (joinAccepted requestId j db))
                  end
            end
        end
    end.
Proof.
  unfold acceptJoinRequest, createNotification. run.
  destruct (findJoinRequestById db requestId) as [j|]; [|reflexivity].
  destruct (findAdminMembership db (j_projectId j) (userId P)); [|reflexivity].
  destruct (findProjectById db (j_projectId j)) as [project|]; [|reflexivity].
  destruct (existsb _ (membersOf db (p_id project))); [reflexivity|].
  destruct (notificationFailure env); reflexivity.
Qed.

(** [POST /join-requests/:requestId/decline], branch by branch. *)
Lemma declineJoinRequest_cases env P requestId db :
  route env (declineJoinRequest env P requestId) db
  = match findJoinRequestById db requestId with
    | None => (Fail 404 "Join request not found", db)
    | Some j =>
        match findAdminMembership db (j_projectId j) (userId P) with
        | None => (Fail 403 "You do not have permission to decline join requests", db)
        | Some _ =>
            match findProjectById db (j_projectId j) with
            | None =>
                (errorHandler env TypeError,
                 setJoinRequestStatus requestId JR_DECLINED db)
            | Some project =>
                match notificationFailure env with
                | Some e =>
                    (errorHandler env e,
                     setJoinRequestStatus requestId JR_DECLINED db)
                | None =>
                    (Json 200 "Join request declined",
                     addNotification (declinedNotification j project)
                       (setJoinRequestStatus requestId JR_DECLINED db))
                end
            end
        end
    end.
Proof.
  unfold declineJoinRequest, createNotification. run.
  destruct (findJoinRequestById db requestId) as [j|]; [|reflexivity].
  destruct (findAdminMembership db (j_projectId j) (userId P)); [|reflexivity].
  destruct (findProjectById db (j_projectId j)) as [project|]; [|reflexivity].
  destruct (notificationFailure env); reflexivity.
Qed.

Lemma existsb_member db pid uid :
  (exists m, In m (members db) /\ m_projectId m = pid /\ m_userId m = uid) ->
  existsb (fun m => String.eqb (m_userId m) uid) (membersOf db pid) = true.
Proof.
  intros (m & Hin & Hp & Hu). apply existsb_exists. exists m. split.
  - unfold membersOf. apply filter_In. split; [exact Hin|].
    now apply String.eqb_eq.
  - now apply String.eqb_eq.
Qed.

(** C6, as the code has it.  When an owner or admin of the project accepts a
    join request whose requester already holds a membership row for the
    project, the answer is 400 "User is already a member" and the store is
    left as it was: the request keeps its status and no membership row is
    added. *)
Theorem acceptJoinRequest_already_member (env : Env) (db : Db) (P : Principal)
    (requestId : string) (j : JoinRequest) (admin : ProjectMember)
    (project : Project) :
  findJoinRequestById db requestId = Some j ->
  findAdminMembership db (j_projectId j) (userId P) = Some admin ->
  findProjectById db (j_projectId j) = Some project ->
  (exists m, In m (members db) /\ m_projectId m = j_projectId j
             /\ m_userId m = j_userId j) ->
  route env (acceptJoinRequest env P requestId) db
  = (Fail 400 "User is already a member", db)
  /\ outcome (fst (route env (acceptJoinRequest env P requestId) db)) = BadRequest
  /\ findJoinRequestById
       (snd (route env (acceptJoinRequest env P requestId) db)) requestId
     = Some j
  /\ members (snd (route env (acceptJoinRequest env P requestId) db)) = members db.
Proof.
  intros Hj Ha Hp Hm.
  rewrite acceptJoinRequest_cases, Hj, Ha, Hp.
  rewrite (findProjectById_id _ _ _ Hp), (existsb_member _ _ _ Hm).
  repeat split. exact Hj.
Qed.

(** Bob accepts the request of carol, who is an admin of [p1] already. *)
Lemma acceptJoinRequest_already_member_witness :
  route Sample.env0 (acceptJoinRequest Sample.env0 (Sample.principalOf Sample.bob) "j2")
        Sample.db0
  = (Fail 400 "User is already a member", Sample.db0).
Proof.
  apply (acceptJoinRequest_already_member Sample.env0 Sample.db0
           (Sample.principalOf Sample.bob) "j2" Sample.jr2
           (mkMember "tB" "p1" "u2" OWNER) Sample.p1 eq_refl eq_refl eq_refl).
  exists (mkMember "tB" "p1" "u3" ADMIN). cbn. auto.
Defined.

(** C6, as stated, fails: the acceptance of carol's request is answered with
    BadRequest, not Conflict, and the request is still pending afterwards. *)
Lemma acceptJoinRequest_already_member_counterexample :
  isMemberOf Sample.db0 "p1" (j_userId Sample.jr2) = true
  /\ outcome
       (fst (route Sample.env0
               (acceptJoinRequest Sample.env0 (Sample.principalOf Sample.bob) "j2")
               Sample.db0))
     = BadRequest
  /\ BadRequest <> Conflict
  /\ option_map j_status
       (findJoinRequestById
          (snd (route Sample.env0
                  (acceptJoinRequest Sample.env0 (Sample.principalOf Sample.bob) "j2")
                  Sample.db0)) "j2")
     = Some JR_PENDING.
Proof. repeat split. discriminate. Qed.

Lemma staysResolved_refl l : Forall2 staysResolved l l.
Proof. induction l; constructor; auto. repeat split; auto. Qed.

Lemma staysResolved_trans l1 l2 l3 :
  Forall2 staysResolved l1 l2 -> Forall2 staysResolved l2 l3 ->
  Forall2 staysResolved l1 l3.
Proof.
  intros H12. revert l3. induction H12 as [|a b l1 l2 Hab _ IH]; intros l3 H23.
  - inversion H23. constructor.
  - inversion H23 as [|? c ? l3' Hbc Hrest]; subst. constructor; [|now apply IH].
    destruct Hab as (A1 & A2 & A3 & A4), Hbc as (B1 & B2 & B3 & B4).
    repeat split; try congruence. auto.
Qed.

Lemma setJoinRequestStatus_resolved db id st :
  st <> JR_PENDING ->
  Forall2 staysResolved (joinRequests db)
          (joinRequests (setJoinRequestStatus id st db)).
Proof.
  intros Hst. cbn. induction (joinRequests db) as [|j l IH]; constructor; auto.
  destruct (String.eqb (j_id j) id); repeat split; auto.
Qed.

Lemma applyOp_resolved op db :
  Forall2 staysResolved (joinRequests db) (joinRequests (applyOp op db)).
Proof.
  assert (Ha : JR_ACCEPTED <> JR_PENDING) by discriminate.
  assert (Hd : JR_DECLINED <> JR_PENDING) by discriminate.
  destruct op as [env P rid|env P rid]; cbn [applyOp].
  - rewrite acceptJoinRequest_cases.
    destruct (findJoinRequestById db rid) as [j|]; [|apply staysResolved_refl].
    destruct (findAdminMembership db (j_projectId j) (userId P));
      [|apply staysResolved_refl].
    destruct (findProjectById db (j_projectId j)) as [project|];
      [|apply staysResolved_refl].
    destruct (existsb _ (membersOf db (p_id project)));
      [apply staysResolved_refl|].
    destruct (notificationFailure env);
      apply (setJoinRequestStatus_resolved db rid JR_ACCEPTED Ha).
  - rewrite declineJoinRequest_cases.
    destruct (findJoinRequestById db rid) as [j|]; [|apply staysResolved_refl].
    destruct (findAdminMembership db (j_projectId j) (userId P));
      [|apply staysResolved_refl].
    destruct (findProjectById db (j_projectId j)) as [project|];
      [|apply (setJoinRequestStatus_resolved db rid JR_DECLINED Hd)].
    destruct (notificationFailure env);
      apply (setJoinRequestStatus_resolved db rid JR_DECLINED Hd).
Qed.

Lemma membersOf_isMemberOf db pid uid :
  existsb (fun m => String.eqb (m_userId m) uid) (membersOf db pid)
  = isMemberOf db pid uid.
Proof.
  unfold membersOf, isMemberOf.
  induction (members db) as [|m l IH]; [reflexivity|].
  cbn. destruct (String.eqb (m_projectId m) pid); cbn; now rewrite IH.
Qed.

Lemma setJoinRequestStatus_status db id st j :
  In j (joinRequests (setJoinRequestStatus id st db)) ->
  j_id j = id -> j_status j = st.
Proof.
  cbn. intros Hin Hid. apply in_map_iff in Hin. destruct Hin as [j0 [Hj Hin]].
  destruct (String.eqb (j_id j0) id) eqn:E; subst j; [reflexivity|].
  apply String.eqb_neq in E. contradiction.
Qed.

Lemma applyOps_resolved (ops : list JoinOp) (db : Db) :
  Forall2 staysResolved (joinRequests db) (joinRequests (applyOps ops db)).
Proof.
  revert db. induction ops as [|op ops IH]; intros db; cbn.
  - apply staysResolved_refl.
  - apply staysResolved_trans with (l2 := joinRequests (applyOp op db)).
    + apply applyOp_resolved.
    + apply IH.
Qed.

(** C7, as the code has it.  Over any sequence of accept and decline calls the
    table of join requests keeps its rows, each with its id, project and
    requester, and a request that is accepted or declined never returns to
    pending.  Neither handler reads the current status of the request:
    - a decline by a caller who holds an Owner or Admin row in the project
      leaves every request of that id declined, whatever its status was,
      accepted included, and is answered with success when the project
      exists and the notification is written;
    - an accept by such a caller, for a requester who holds no membership
      row, leaves every request of that id accepted, whatever its status
      was, declined included, makes the requester a member, and is answered
      with success when the notification is written. *)
Theorem joinRequest_resolved_forever (ops : list JoinOp) (db : Db) :
  Forall2 staysResolved (joinRequests db) (joinRequests (applyOps ops db))
  /\ (forall env P requestId j admin,
        findJoinRequestById db requestId = Some j ->
        findAdminMembership db (j_projectId j) (userId P) = Some admin ->
        (forall j',
           In j' (joinRequests
                    (snd (route env (declineJoinRequest env P requestId) db))) ->
           j_id j' = requestId -> j_status j' = JR_DECLINED)
        /\ (forall project,
              findProjectById db (j_projectId j) = Some project ->
              notificationFailure env = None ->
              fst (route env (declineJoinRequest env P requestId) db)
              = Json 200 "Join request declined"))
  /\ (forall env P requestId j admin project,
        findJoinRequestById db requestId = Some j ->
        findAdminMembership db (j_projectId j) (userId P) = Some admin ->
        findProjectById db (j_projectId j) = Some project ->
        isMemberOf db (j_projectId j) (j_userId j) = false ->
        (forall j',
           In j' (joinRequests
                    (snd (route env (acceptJoinRequest env P requestId) db))) ->
           j_id j' = requestId -> j_status j' = JR_ACCEPTED)
        /\ isMemberOf (snd (route env (acceptJoinRequest env P requestId) db))
                      (j_projectId j) (j_userId j) = true
        /\ (notificationFailure env = None ->
            fst (route env (acceptJoinRequest env P requestId) db)
            = Json 200 "Join request accepted")).
Proof.
  split; [apply applyOps_resolved|]. split.
  - intros env P requestId j admin Hj Ha.
    rewrite declineJoinRequest_cases, Hj, Ha. split.
    + intros j'.
      destruct (findProjectById db (j_projectId j)) as [project|];
        [destruct (notificationFailure env)|];
        cbn [snd]; apply setJoinRequestStatus_status.
    + intros project Hp Hn. now rewrite Hp, Hn.
  - intros env P requestId j admin project Hj Ha Hp Hm.
    rewrite acceptJoinRequest_cases, Hj, Ha, Hp.
    rewrite (findProjectById_id _ _ _ Hp), membersOf_isMemberOf, Hm.
    repeat apply conj.
    + intros j'. destruct (notificationFailure env); cbn [snd];
        apply (setJoinRequestStatus_status db requestId JR_ACCEPTED).
    + assert (Hnew : isMemberOf (joinAccepted requestId j db) (j_projectId j)
                                (j_userId j) = true).
      { unfold isMemberOf, joinAccepted, addMember. cbn.
        rewrite existsb_app. cbn. now rewrite !String.eqb_refl, orb_true_r. }
      destruct (notificationFailure env); cbn [snd]; exact Hnew.
    + intros Hn. now rewrite Hn.
Qed.

(** C7, as stated, fails: bob declines dave's request [j1] and then accepts
    it; the second call succeeds, the request that was declined is now
    accepted and dave has become a member. *)
Lemma joinRequest_declined_then_accepted_counterexample :
  option_map j_status
    (findJoinRequestById
       (applyOps [DeclineOp Sample.env0 (Sample.principalOf Sample.bob) "j1"]
                 Sample.db0) "j1")
  = Some JR_DECLINED
  /\ fst (route Sample.env0
            (acceptJoinRequest Sample.env0 (Sample.principalOf Sample.bob) "j1")
            (applyOps [DeclineOp Sample.env0 (Sample.principalOf Sample.bob) "j1"]
                      Sample.db0))
     = Json 200 "Join request accepted"
  /\ option_map j_status
       (findJoinRequestById
          (applyOps [DeclineOp Sample.env0 (Sample.principalOf Sample.bob) "j1";
                     AcceptOp Sample.env0 (Sample.principalOf Sample.bob) "j1"]
                    Sample.db0) "j1")
     = Some JR_ACCEPTED
  /\ isMemberOf
       (applyOps [DeclineOp Sample.env0 (Sample.principalOf Sample.bob) "j1";
                  AcceptOp Sample.env0 (Sample.principalOf Sample.bob) "j1"]
                 Sample.db0) "p1" "u4"
     = true.
Proof. repeat split. Qed.

(** ** Failures of the mail transport and of the notification write *)

Lemma sendInvitationEmail_never_throws env to db :
  sendInvitationEmail env to db = (inr tt, db).
Proof.
  unfold sendInvitationEmail, sendMail, tryCatch, throw, ret.
  destruct (mailFailure env); reflexivity.
Qed.

(** Creating an invitation does not depend on the mail transport: with a
    failing transport the answer and the store are those of a working one. *)
Lemma createInvitation_mail_failure mf nf prod tz ext z P projectId mail r now
    newId newToken db :
  route (mkEnv mf nf prod tz ext)
        (createInvitation (mkEnv mf nf prod tz ext) z P projectId mail r now newId
                          newToken) db
  = route (mkEnv None nf prod tz ext)
          (createInvitation (mkEnv None nf prod tz ext) z P projectId mail r now
                            newId newToken)
          db.
Proof.
  unfold createInvitation.
  destruct (createInvitationSchema z projectId mail r); [|reflexivity]. run.
  destruct (findProjectById db projectId) as [project|]; [|reflexivity].
  destruct (negb (tenantId P =? p_tenantId project)); [reflexivity|].
  destruct (checkProjectAccess (userId P) (p_id project) (tenantId P) db)
    as [[e|acc] db1]; [reflexivity|].
  destruct (negb (hasAccess acc) || negb (canAdmin (role acc))); [reflexivity|].
  destruct (find _ (users db)) as [u|].
  - destruct (u_profile u) as [pr|]; [|reflexivity].
    destruct (isMemberOf db projectId (pr_id pr)); [reflexivity|].
    destruct (existsb _ (invitations db)); [reflexivity|].
    now rewrite !sendInvitationEmail_never_throws.
  - destruct (existsb _ (invitations db)); [reflexivity|].
    now rewrite !sendInvitationEmail_never_throws.
Qed.

(** Creating a join request does not depend on the notification write: with
    a failing write the answer is that of a working one, and so is the table
    of join requests. *)
Lemma createJoinRequest_notification_failure mf nf prod tz ext P code message
    newId db :
  fst (route (mkEnv mf nf prod tz ext)
             (createJoinRequest (mkEnv mf nf prod tz ext) P code message newId) db)
  = fst (route (mkEnv mf None prod tz ext)
               (createJoinRequest (mkEnv mf None prod tz ext) P code message newId)
               db)
  /\ joinRequests
       (snd (route (mkEnv mf nf prod tz ext)
                   (createJoinRequest (mkEnv mf nf prod tz ext) P code message newId)
                   db))
     = joinRequests
         (snd (route (mkEnv mf None prod tz ext)
                     (createJoinRequest (mkEnv mf None prod tz ext) P code message
                        newId) db)).
Proof.
  unfold createJoinRequest, createNotification. run. cbn [notificationFailure].
  destruct (findProjectByCode db (Str.toUpperCase code)) as [project|];
    [|split; reflexivity].
  destruct (isEmptyCode (p_code project)); [split; reflexivity|].
  destruct (negb (p_tenantId project =? tenantId P)); [split; reflexivity|].
  destruct (existsb _ (membersOf db (p_id project))); [split; reflexivity|].
  destruct (hasPendingRequest db (p_id project) (userId P)); [split; reflexivity|].
  destruct (find _ (membersOf db (p_id project)));
    [|destruct (findProfileById db (p_createdBy project))];
    destruct nf; split; reflexivity.
Qed.

(** What accept and decline do when the notification write fails: the status
    (and for accept the membership row) is stored, and the exception is
    handed to the error middleware, whose answer is never a success. *)
Lemma joinRequest_notification_failure env P requestId db j admin project e :
  findJoinRequestById db requestId = Some j ->
  findAdminMembership db (j_projectId j) (userId P) = Some admin ->
  findProjectById db (j_projectId j) = Some project ->
  isMemberOf db (j_projectId j) (j_userId j) = false ->
  notificationFailure env = Some e ->
  route env (acceptJoinRequest env P requestId) db
  = (errorHandler env e, joinAccepted requestId j db)
  /\ route env (declineJoinRequest env P requestId) db
     = (errorHandler env e, setJoinRequestStatus requestId JR_DECLINED db)
  /\ isSuccess (@errorHandler string env e) = false.
Proof.
  intros Hj Ha Hp Hm He.
  rewrite acceptJoinRequest_cases, declineJoinRequest_cases, Hj, Ha, Hp, He.
  rewrite (findProjectById_id _ _ _ Hp).
  assert (Hx : existsb (fun m => String.eqb (m_userId m) (j_userId j))
                       (membersOf db (j_projectId j)) = false).
  { unfold membersOf. unfold isMemberOf in Hm.
    induction (members db) as [|m l IH]; [reflexivity|].
    cbn in Hm |- *. apply orb_false_iff in Hm. destruct Hm as [Hm1 Hm2].
    destruct (String.eqb (m_projectId m) (j_projectId j)); cbn in *;
      [rewrite Hm1|]; auto. }
  rewrite Hx. repeat split. apply errorHandler_fails.
Qed.

(** C9 fails on the code for the acceptance and the decline of a join
    request.  With the notification write failing ("Connection lost"), bob's
    acceptance of dave's request [j1] is answered with 500 although the
    request has been marked accepted and dave's membership row has been
    written; his decline of it is answered with 500 although the request has
    been marked declined. *)
Theorem joinRequest_notification_failure_propagates :
  route Sample.envDown
        (acceptJoinRequest Sample.envDown (Sample.principalOf Sample.bob) "j1")
        Sample.db0
  = (Fail 500 "Connection lost", joinAccepted "j1" Sample.jr1 Sample.db0)
  /\ option_map j_status
       (findJoinRequestById (joinAccepted "j1" Sample.jr1 Sample.db0) "j1")
     = Some JR_ACCEPTED
  /\ isMemberOf (joinAccepted "j1" Sample.jr1 Sample.db0) "p1" "u4" = true
  /\ route Sample.envDown
           (declineJoinRequest Sample.envDown (Sample.principalOf Sample.bob) "j1")
           Sample.db0
     = (Fail 500 "Connection lost",
        setJoinRequestStatus "j1" JR_DECLINED Sample.db0)
  /\ option_map j_status
       (findJoinRequestById (setJoinRequestStatus "j1" JR_DECLINED Sample.db0) "j1")
     = Some JR_DECLINED.
Proof. repeat split. Qed.

(** ** Join codes *)

Ltac each_ascii c := destruct c as [[] [] [] [] [] [] [] []]; reflexivity.

Lemma upperChar_idem c : Str.upperChar (Str.upperChar c) = Str.upperChar c.
Proof. each_ascii c. Qed.

Lemma upperChar_lowerChar c : Str.upperChar (Str.lowerChar c) = Str.upperChar c.
Proof. each_ascii c. Qed.

Lemma upperChar_codeChar c : codeChar c = true -> Str.upperChar c = c.
Proof.
  destruct c as [[] [] [] [] [] [] [] []]; intros H; try reflexivity;
    discriminate H.
Qed.

Lemma toUpperCase_idem s : Str.toUpperCase (Str.toUpperCase s) = Str.toUpperCase s.
Proof.
  induction s as [|c s IH]; [reflexivity|].
  cbn. now rewrite upperChar_idem, IH.
Qed.

Lemma toUpperCase_toLowerCase s :
  Str.toUpperCase (Str.toLowerCase s) = Str.toUpperCase s.
Proof.
  induction s as [|c s IH]; [reflexivity|].
  cbn. now rewrite upperChar_lowerChar, IH.
Qed.

Lemma equalsIgnoreCase_toUpperCase a b :
  Str.equalsIgnoreCase a b = true -> Str.toUpperCase a = Str.toUpperCase b.
Proof.
  unfold Str.equalsIgnoreCase. intros H. apply String.eqb_eq in H.
  now rewrite <- (toUpperCase_toLowerCase a), H, toUpperCase_toLowerCase.
Qed.

Lemma toUpperCase_codeChars s :
  Str.allChars codeChar s = true -> Str.toUpperCase s = s.
Proof.
  induction s as [|c s IH]; [reflexivity|].
  cbn. intros H. apply andb_true_iff in H. destruct H as [Hc Hs].
  now rewrite (upperChar_codeChar _ Hc), (IH Hs).
Qed.

Lemma allChars_append P a b :
  Str.allChars P (a ++ b) = Str.allChars P a && Str.allChars P b.
Proof.
  induction a as [|c a IH]; [reflexivity|].
  cbn. now rewrite IH, andb_assoc.
Qed.

Lemma allChars_get P s i c :
  Str.allChars P s = true -> String.get i s = Some c -> P c = true.
Proof.
  revert i. induction s as [|x s IH]; intros i Hs Hg; [discriminate|].
  cbn in Hs. apply andb_true_iff in Hs. destruct Hs as [Hx Hs].
  destruct i as [|i]; cbn in Hg.
  - now inversion Hg; subst.
  - now apply (IH i).
Qed.

Lemma chars_codeChars : Str.allChars codeChar chars = true.
Proof. reflexivity. Qed.

Lemma drawCode_codeChars rand k n :
  Str.allChars codeChar (drawCode rand k n) = true.
Proof.
  revert k. induction n as [|n IH]; intros k; [reflexivity|].
  cbn [drawCode]. rewrite allChars_append, IH, andb_true_r.
  unfold Str.charAt. destruct (String.get (rand k) chars) as [c|] eqn:E;
    [|reflexivity].
  cbn. now rewrite (allChars_get codeChar chars (rand k) c chars_codeChars E).
Qed.

Lemma get_None_length s i : String.get i s = None -> String.length s <= i.
Proof.
  revert i. induction s as [|c s IH]; intros i H; cbn; [lia|].
  destruct i as [|i]; [discriminate|]. cbn in H. apply IH in H. lia.
Qed.

(** With indices in range the code has exactly [n] characters. *)
Lemma drawCode_length rand k n :
  (forall i, rand i < 36) -> String.length (drawCode rand k n) = n.
Proof.
  intros Hr. revert k. induction n as [|n IH]; intros k; [reflexivity|].
  cbn [drawCode]. unfold Str.charAt.
  destruct (String.get (rand k) chars) as [c|] eqn:E.
  - cbn. now rewrite IH.
  - apply get_None_length in E. cbn in E. specialize (Hr k). lia.
Qed.

Lemma generateProjectCode_Some rand fuel k db code :
  generateProjectCode rand fuel k db = Some code ->
  exists j, code = drawCode rand j 6 /\ findProjectByCode db code = None.
Proof.
  revert k. induction fuel as [|fuel IH]; intros k; [discriminate|].
  cbn [generateProjectCode].
  destruct (findProjectByCode db (drawCode rand k 6)) eqn:E.
  - apply IH.
  - intros H. inversion H; subst. exists k. split; [reflexivity|exact E].
Qed.

(** The loop of [generateProjectCode] ends as soon as a round draws a code
    that no project has. *)
Lemma generateProjectCode_terminates rand k db i :
  findProjectByCode db (drawCode rand (k + 6 * i) 6) = None ->
  forall fuel, i < fuel ->
  exists code, generateProjectCode rand fuel k db = Some code.
Proof.
  revert k. induction i as [|i IH]; intros k Hfree fuel Hlt.
  - destruct fuel as [|fuel]; [lia|]. cbn [generateProjectCode].
    replace (k + 6 * 0) with k in Hfree by lia. rewrite Hfree. eauto.
  - destruct fuel as [|fuel]; [lia|]. cbn [generateProjectCode].
    destruct (findProjectByCode db (drawCode rand k 6)); [|eauto].
    apply IH; [|lia].
    replace (k + 6 + 6 * i) with (k + 6 * S i) by lia. exact Hfree.
Qed.

Lemma find_app_new {A} (f : A -> bool) (l : list A) (x : A) :
  find f l = None -> f x = true -> find f (l ++ [x]) = Some x.
Proof.
  induction l as [|a l IH]; cbn; intros Hn Hx.
  - now rewrite Hx.
  - destruct (f a); [discriminate|]. now apply IH.
Qed.

Lemma createProject_projects env P name data code newId db :
  projects (snd (route env (createProject P name data code newId) db))
  = (projects db ++ [createdProject P name data code newId])%list.
Proof.
  unfold createProject. run. cbn.
  destruct (find _ _); reflexivity.
Qed.

(** [POST /join-requests], branch by branch. *)
Lemma createJoinRequest_cases env P code message newId db :
  route env (createJoinRequest env P code message newId) db
  = match findProjectByCode db (Str.toUpperCase code) with
    | None => (Fail 404 "Project not found with this code", db)
    | Some project =>
        if isEmptyCode (p_code project) then
          (Fail 400 "This project does not have a code assigned. Please contact the project owner.", db)
        else if negb (String.eqb (p_tenantId project) (tenantId P)) then
          (Fail 403 "You can only join projects within your organization", db)
        else if existsb (fun m => String.eqb (m_userId m) (userId P))
                        (membersOf db (p_id project)) then
          (Fail 400 "You are already a member of this project", db)
        else if hasPendingRequest db (p_id project) (userId P) then
          (Fail 400 "You already have a pending request for this project", db)
        else
          (Json 201 (newJoinRequest P project message newId),
           joinRequested env P project message newId db)
    end.
Proof.
  unfold createJoinRequest, createNotification, joinRequested, ownerToNotify. run.
  destruct (findProjectByCode db (Str.toUpperCase code)) as [project|];
    [|reflexivity].
  destruct (isEmptyCode (p_code project)); [reflexivity|].
  destruct (negb (p_tenantId project =? tenantId P)); [reflexivity|].
  destruct (existsb _ (membersOf db (p_id project))); [reflexivity|].
  destruct (hasPendingRequest db (p_id project) (userId P)); [reflexivity|].
  destruct (find _ (membersOf db (p_id project)));
    [|destruct (findProfileById db (p_createdBy project))];
    destruct (notificationFailure env); reflexivity.
Qed.

Lemma joinRequested_tables env P project message newId db :
  joinRequests (joinRequested env P project message newId db)
  = (joinRequests db ++ [newJoinRequest P project message newId])%list
  /\ members (joinRequested env P project message newId db) = members db
  /\ projects (joinRequested env P project message newId db) = projects db
  /\ invitations (joinRequested env P project message newId db) = invitations db.
Proof.
  unfold joinRequested.
  destruct (ownerToNotify db project); destruct (notificationFailure env);
    repeat split; reflexivity.
Qed.

(** [GET /join-requests/search/:code], branch by branch. *)
Lemma searchProjectByCode_cases env P code db :
  route env (searchProjectByCode P code) db
  = match findProjectByCode db (Str.toUpperCase code) with
    | None => (Fail 404 "Project not found", db)
    | Some project =>
        (Json 200
           (mkSummary (p_id project) (p_name project) (p_description project)
              (p_code project) (p_status project) (p_color project)
              (findProfileById db (p_createdBy project))
              (map m_userId (membersOf db (p_id project)))
              (existsb (fun m => String.eqb (m_userId m) (userId P))
                       (membersOf db (p_id project)))
              (hasPendingRequest db (p_id project) (userId P))),
         db)
    end.
Proof.
  unfold searchProjectByCode. run.
  destruct (findProjectByCode db (Str.toUpperCase code)); reflexivity.
Qed.

Lemma createProject_tables env P name data code newId db :
  members (snd (route env (createProject P name data code newId) db))
  = (members db ++ [mkMember (tenantId P) newId (userId P) OWNER])%list
  /\ joinRequests (snd (route env (createProject P name data code newId) db))
     = joinRequests db.
Proof.
  unfold createProject. run. cbn.
  destruct (find _ _); split; reflexivity.
Qed.

(** C10.  Discover-by-code and join-request creation upper-case the code they
    are given before they look the project up, so a code and its upper-case
    form resolve alike; a generated code consists of the characters A-Z and
    0-9 only and is its own upper-case form; hence two spellings of a code
    that differ only in letter case resolve alike, and every spelling of the
    generated code of a created project finds that project: once the
    project has been created from a body its schema accepts, discover-by-code
    answers any caller with the summary of that project, and a join request
    under any spelling, by a user of the creator's tenant who is not the
    creator, holds no membership row in the project and has no pending
    request for it, is stored for that project and answered with 201. *)
Theorem join_code_case_insensitive (env : Env) (db : Db) (P : Principal)
    (c : string) :
  searchProjectByCode P c db = searchProjectByCode P (Str.toUpperCase c) db
  /\ (forall message newId,
        createJoinRequest env P c message newId db
        = createJoinRequest env P (Str.toUpperCase c) message newId db)
  /\ (forall rand fuel k code,
        generateProjectCode rand fuel k db = Some code ->
        Str.allChars codeChar code = true /\ Str.toUpperCase code = code)
  /\ (forall c',
        Str.equalsIgnoreCase c c' = true ->
        searchProjectByCode P c db = searchProjectByCode P c' db
        /\ forall message newId,
             createJoinRequest env P c message newId db
             = createJoinRequest env P c' message newId db)
  /\ (forall rand fuel k code creator name data newId,
        generateProjectCode rand fuel k db = Some code ->
        Str.equalsIgnoreCase c code = true ->
        findProjectByCode
          (snd (route env (createProject creator name data code newId) db))
          (Str.toUpperCase c)
        = Some (createdProject creator name data code newId))
  /\ (forall rand fuel k code creator name data newId,
        generateProjectCode rand fuel k db = Some code ->
        createProjectSchema name data = true ->
        Str.equalsIgnoreCase c code = true ->
        exists summary,
          route env (searchProjectByCode P c)
                (snd (route env (createProject creator name data code newId) db))
          = (Json 200 summary,
             snd (route env (createProject creator name data code newId) db))
          /\ s_id summary = newId
          /\ s_name summary = name
          /\ s_code summary = Some code)
  /\ (forall rand fuel k code creator name data newId message requestId,
        generateProjectCode rand fuel k db = Some code ->
        createProjectSchema name data = true ->
        (forall i, rand i < 36) ->
        Str.equalsIgnoreCase c code = true ->
        tenantId P = tenantId creator ->
        userId P <> userId creator ->
        isMemberOf db newId (userId P) = false ->
        hasPendingRequest db newId (userId P) = false ->
        exists jr,
          fst (route env (createJoinRequest env P c message requestId)
                 (snd (route env (createProject creator name data code newId) db)))
          = Json 201 jr
          /\ j_id jr = requestId
          /\ j_projectId jr = newId
          /\ j_userId jr = userId P
          /\ j_status jr = JR_PENDING
          /\ In jr (joinRequests
                      (snd (route env (createJoinRequest env P c message requestId)
                              (snd (route env
                                      (createProject creator name data code newId)
                                      db)))))).
Proof.
  assert (Hgen : forall rand fuel k code,
             generateProjectCode rand fuel k db = Some code ->
             Str.allChars codeChar code = true /\ Str.toUpperCase code = code).
  { intros rand fuel k code Hg.
    destruct (generateProjectCode_Some _ _ _ _ _ Hg) as [j [-> _]].
    split; [apply drawCode_codeChars|].
    apply toUpperCase_codeChars, drawCode_codeChars. }
  assert (Hfind : forall rand fuel k code creator name data newId,
             generateProjectCode rand fuel k db = Some code ->
             Str.equalsIgnoreCase c code = true ->
             findProjectByCode
               (snd (route env (createProject creator name data code newId) db))
               (Str.toUpperCase c)
             = Some (createdProject creator name data code newId)).
  { intros rand fuel k code creator name data newId Hg Hc.
    apply equalsIgnoreCase_toUpperCase in Hc.
    destruct (Hgen _ _ _ _ Hg) as [_ Hup]. rewrite Hc, Hup.
    destruct (generateProjectCode_Some _ _ _ _ _ Hg) as [_ [_ Hfree]].
    unfold findProjectByCode. rewrite createProject_projects.
    apply find_app_new; [exact Hfree|].
    cbn. apply String.eqb_refl. }
  repeat apply conj.
  - unfold searchProjectByCode. now rewrite toUpperCase_idem.
  - intros message newId. unfold createJoinRequest. now rewrite toUpperCase_idem.
  - exact Hgen.
  - intros c' Hc. apply equalsIgnoreCase_toUpperCase in Hc.
    split; [|intros message newId];
      unfold searchProjectByCode, createJoinRequest; now rewrite Hc.
  - exact Hfind.
  - intros rand fuel k code creator name data newId Hg _ Hc.
    rewrite searchProjectByCode_cases.
    rewrite (Hfind _ _ _ _ creator name data newId Hg Hc).
    eexists. split; [reflexivity|]. repeat split.
  - intros rand fuel k code creator name data newId message requestId Hg _ Hr Hc
      Ht Hne Hm Hpend.
    set (db' := snd (route env (createProject creator name data code newId) db)).
    destruct (createProject_tables env creator name data code newId db)
      as [Hmem Hjr].
    fold db' in Hmem, Hjr.
    assert (Hlen : String.length code = 6).
    { destruct (generateProjectCode_Some _ _ _ _ _ Hg) as [j [-> _]].
      now apply drawCode_length. }
    assert (Hcode : String.eqb code "" = false)
      by (destruct code; [discriminate|reflexivity]).
    assert (Hrow : existsb (fun m => String.eqb (m_userId m) (userId P))
                           (membersOf db' newId) = false).
    { rewrite membersOf_isMemberOf. unfold isMemberOf. rewrite Hmem.
      rewrite existsb_app. unfold isMemberOf in Hm. rewrite Hm. cbn.
      rewrite (eqb_neq_false _ _ (not_eq_sym Hne)).
      now rewrite andb_false_r. }
    assert (Hp' : hasPendingRequest db' newId (userId P) = false)
      by (unfold hasPendingRequest; rewrite Hjr; exact Hpend).
    assert (HR : route env (createJoinRequest env P c message requestId) db'
                 = (Json 201
                      (newJoinRequest P (createdProject creator name data code newId)
                                      message requestId),
                    joinRequested env P (createdProject creator name data code newId)
                                  message requestId db')).
    { rewrite createJoinRequest_cases. unfold db' at 1.
      rewrite (Hfind _ _ _ _ creator name data newId Hg Hc). fold db'.
      cbn [createdProject p_code p_tenantId p_id isEmptyCode].
      now rewrite Hcode, <- Ht, String.eqb_refl, Hrow, Hp'. }
    rewrite HR. cbn [fst snd].
    eexists. split; [reflexivity|]. repeat split.
    destruct (joinRequested_tables env P (createdProject creator name data code newId)
                message requestId db') as (-> & _).
    apply in_or_app. right. now left.
Qed.

(** Erin's search for "abc123" is her search for "ABC123". *)
Lemma join_code_case_insensitive_witness :
  searchProjectByCode (Sample.principalOf Sample.erin) "abc123" Sample.db0
  = searchProjectByCode (Sample.principalOf Sample.erin) "ABC123" Sample.db0.
Proof.
  apply (proj1 (proj1 (proj2 (proj2 (proj2
           (join_code_case_insensitive Sample.env0 Sample.db0
              (Sample.principalOf Sample.erin) "abc123")))) "ABC123" eq_refl)).
Defined.

(** * Further properties of the handlers *)

(** ** Roles *)

(** X1.  The two capabilities are monotone in the role hierarchy: a role
    that may write (administer) leaves every higher role able to write
    (administer) too, administering implies writing, and no role at all
    grants neither. *)
Theorem capabilities_monotone (r r' : option ProjectRole) :
  (roleRank r <= roleRank r')%nat ->
  (canWrite r = true -> canWrite r' = true)
  /\ (canAdmin r = true -> canAdmin r' = true)
  /\ (canAdmin r = true -> canWrite r = true)
  /\ canWrite None = false /\ canAdmin None = false.
Proof.
  intros H.
  destruct r as [[]|], r' as [[]|]; cbn in *; repeat split; intros;
    try reflexivity; try assumption; try discriminate; lia.
Qed.

(** An admin may write because a member may. *)
Lemma capabilities_monotone_witness : canWrite (Some ADMIN) = true.
Proof.
  apply (proj1 (capabilities_monotone (Some MEMBER) (Some ADMIN)
                  ltac:(cbn; lia))).
  reflexivity.
Defined.

(** ** Handlers that only read *)

(** The listing and lookup handlers leave the store exactly as they
    found it, whatever they answer: the project list, a project, its tasks
    and activities, discover-by-code, the pending join requests, the
    attachments and comments of a task, the notifications and their unread
    count, and the access resolution itself. *)
Theorem readers_leave_store (env : Env) (db : Db) (P : Principal) (id : string) :
  snd (route env (listProjects P) db) = db
  /\ snd (route env (getProject P id) db) = db
  /\ snd (route env (getProjectTasks P id) db) = db
  /\ snd (route env (getProjectActivities P id) db) = db
  /\ snd (route env (searchProjectByCode P id) db) = db
  /\ snd (route env (listJoinRequests P id) db) = db
  /\ snd (route env (getTaskAttachments P id) db) = db
  /\ snd (route env (getTaskComments P id) db) = db
  /\ snd (route env (getNotifications P) db) = db
  /\ snd (route env (getUnreadCount P) db) = db
  /\ (forall tid, snd (checkProjectAccess (userId P) id tid db) = db).
Proof.
  repeat apply conj.
  - unfold listProjects. run.
    match goal with |- context [if ?b then _ else _] => destruct b end;
      reflexivity.
  - unfold getProject. run.
    destruct (findProjectById db id) as [p|]; [|reflexivity].
    match goal with |- context [if ?b then _ else _] => destruct b end;
      reflexivity.
  - unfold getProjectTasks. run.
    destruct (findProjectById db id) as [p|]; [|reflexivity].
    destruct (negb _); reflexivity.
  - unfold getProjectActivities. run.
    destruct (findProjectById db id) as [p|]; [|reflexivity].
    destruct (negb _); reflexivity.
  - unfold searchProjectByCode. run.
    destruct (findProjectByCode db (Str.toUpperCase id)); reflexivity.
  - unfold listJoinRequests. run.
    destruct (findAdminMembership db id (userId P)); reflexivity.
  - unfold getTaskAttachments. run.
    destruct (findTaskById db id) as [t|]; [|reflexivity].
    destruct (negb _); reflexivity.
  - unfold getTaskComments. run.
    destruct (findTaskById db id) as [t|]; [|reflexivity].
    destruct (negb _); reflexivity.
  - reflexivity.
  - reflexivity.
  - intros tid. apply checkProjectAccess_store.
Qed.

(** ** The project list and the single project *)

(** X2.  [GET /projects] answers 200 with exactly the stored projects in
    which the caller holds a membership row, whatever the tenant of the
    project, or which carry the caller's tenant and the id of a project the
    caller created in that tenant. *)
Theorem listProjects_exact (env : Env) (db : Db) (P : Principal) :
  exists ps,
    route env (listProjects P) db = (Json 200 (map (viewOf db) ps), db)
    /\ forall p,
         In p ps <->
         In p (projects db)
         /\ (hasRow db (p_id p) (userId P)
             \/ (p_tenantId p = tenantId P /\ createdHere db P (p_id p))).
Proof.
  unfold listProjects. run.
  set (M := map m_projectId
              (filter (fun m => String.eqb (m_userId m) (userId P)) (members db))).
  set (C := map p_id
              (filter (fun p => String.eqb (p_createdBy p) (userId P)
                                && String.eqb (p_tenantId p) (tenantId P))
                      (projects db))).
  assert (HM : forall id, In id M <-> hasRow db id (userId P))
    by (intros id; apply memberIds_hasRow).
  assert (HC : forall id, In id C <-> createdHere db P id)
    by (intros id; apply createdIds_createdHere).
  destruct (length (nodup string_dec (M ++ C)) =? 0)%nat eqn:E.
  - exists []. split; [reflexivity|].
    apply Nat.eqb_eq, length_zero_iff_nil in E.
    assert (Hno : forall id, ~ In id (M ++ C)).
    { intros id Hin. apply (nodup_In string_dec) in Hin. now rewrite E in Hin. }
    intros p. split; [contradiction|].
    intros [_ [Hr|[_ Hc]]]; apply (Hno (p_id p)), in_or_app.
    + left. now apply HM.
    + right. now apply HC.
  - eexists. split; [reflexivity|].
    intros p. rewrite <- in_rev, filter_In.
    rewrite andb_true_iff, orb_true_iff, andb_true_iff, !inIds_In,
      (nodup_In string_dec), in_app_iff, HM, HC, membersOf_hasRow.
    rewrite String.eqb_eq.
    split.
    + intros [Hin [Hacc [Ht|[Hr _]]]]; split; auto.
      destruct Hacc as [Hr|Hc]; auto.
    + intros [Hin [Hr|[Ht Hc]]]; split; auto.
Qed.

(** X3.  [GET /projects/:id] decides on creator and membership alone: it
    answers 404 exactly when no project has the id, 200 with the project, its
    members and its tasks exactly when the caller created the project or
    holds a membership row in it, and 403 otherwise; the tenant of the caller
    plays no part. *)
Theorem getProject_exact (env : Env) (db : Db) (P : Principal) (id : string) :
  (findProjectById db id = None ->
     fst (route env (getProject P id) db) = Fail 404 "Project not found")
  /\ (forall p, findProjectById db id = Some p ->
        (p_createdBy p = userId P \/ hasRow db (p_id p) (userId P) ->
           fst (route env (getProject P id) db) = Json 200 (viewOf db p))
        /\ (p_createdBy p <> userId P -> ~ hasRow db (p_id p) (userId P) ->
              fst (route env (getProject P id) db)
              = Fail 403 "You do not have access to this project"))
  /\ (forall P', userId P' = userId P ->
        fst (route env (getProject P' id) db) = fst (route env (getProject P id) db)).
Proof.
  repeat apply conj.
  - intros Hf. unfold getProject. run. now rewrite Hf.
  - intros p Hf. unfold getProject. run. rewrite Hf. split.
    + intros [Hc|Hr].
      * apply String.eqb_eq in Hc. now rewrite Hc.
      * apply membersOf_hasRow in Hr. rewrite Hr, orb_true_r. reflexivity.
    + intros Hc Hr. rewrite (eqb_neq_false _ _ Hc).
      destruct (existsb _ (membersOf db (p_id p))) eqn:E; [|reflexivity].
      exfalso. apply Hr. now apply membersOf_hasRow.
  - intros P' HP. unfold getProject. run. now rewrite HP.
Qed.

(** ** Creating and updating a project *)

(** X4.  After [POST /projects] with a body that [createProjectSchema]
    accepts and an id that no project and no membership row carries yet, the
    store holds the new project and one Owner row for the creator; the
    creator's access resolves to Owner, and the creator can read the project
    and delete it. *)
Theorem createProject_owner (env : Env) (db : Db) (P : Principal)
    (name : string) (data : ProjectData) (code newId : string) :
  createProjectSchema name data = true ->
  freshProjectId db newId ->
  exists db',
    route env (createProject P name data code newId) db
    = (Json 201 (viewOf db' (createdProject P name data code newId)), db')
    /\ projects db' = (projects db ++ [createdProject P name data code newId])%list
    /\ members db'
       = (members db ++ [mkMember (tenantId P) newId (userId P) OWNER])%list
    /\ checkProjectAccess (userId P) newId (tenantId P) db'
       = (inr (mkAccess true (Some OWNER)), db')
    /\ fst (route env (getProject P newId) db')
       = Json 200 (viewOf db' (createdProject P name data code newId))
    /\ fst (route env (deleteProject P newId) db')
       = Json 200 "Project deleted successfully".
Proof.
  intros _ [Hfresh Hrows].
  set (project := createdProject P name data code newId).
  set (owner := mkMember (tenantId P) newId (userId P) OWNER).
  set (db' := addActivityLog
                (mkActivity (tenantId P) newId (userId P) "created" "project" newId)
                (addMember owner (setProjects db (projects db ++ [project])))).
  assert (Hp : findProjectById db' newId = Some project).
  { unfold findProjectById. cbn. apply find_app_new; [exact Hfresh|].
    cbn. apply String.eqb_refl. }
  assert (Hm : findMembership db' newId (userId P) (tenantId P) = Some owner).
  { unfold findMembership. cbn. apply find_app_new.
    - apply find_all_false. intros m Hin.
      rewrite (eqb_neq_false _ _ (Hrows m Hin)). reflexivity.
    - cbn. now rewrite !String.eqb_refl. }
  assert (Hacc : checkProjectAccess (userId P) newId (tenantId P) db'
                 = (inr (mkAccess true (Some OWNER)), db')).
  { unfold checkProjectAccess. run. now rewrite Hm. }
  exists db'. repeat apply conj.
  - unfold createProject. run.
    match goal with
    | |- context [findProjectById ?d newId] => change d with db'
    end.
    now rewrite Hp.
  - reflexivity.
  - reflexivity.
  - exact Hacc.
  - unfold getProject. run. rewrite Hp. cbn [p_createdBy project createdProject].
    now rewrite String.eqb_refl.
  - now rewrite (deleteProject_resolved env db' P newId project _ Hp eq_refl Hacc).
Qed.

Lemma freshProjectId_sample : freshProjectId Sample.db0 "p2".
Proof.
  split; [reflexivity|].
  intros m Hin. cbn in Hin.
  repeat (destruct Hin as [<-|Hin]; [discriminate|]). contradiction.
Defined.

(** Erin creates project [p2] in the sample store and is its Owner. *)
Lemma createProject_owner_witness :
  exists db',
    route Sample.env0
          (createProject (Sample.principalOf Sample.erin) "Gemini"
             (mkProjectData None None None None) "XYZ789" "p2") Sample.db0
    = (Json 201
         (viewOf db' (createdProject (Sample.principalOf Sample.erin) "Gemini"
                        (mkProjectData None None None None) "XYZ789" "p2")), db')
    /\ checkProjectAccess "u5" "p2" "tA" db'
       = (inr (mkAccess true (Some OWNER)), db').
Proof.
  destruct (createProject_owner Sample.env0 Sample.db0
              (Sample.principalOf Sample.erin) "Gemini"
              (mkProjectData None None None None) "XYZ789" "p2"
              eq_refl freshProjectId_sample) as [db' (H1 & _ & _ & H4 & _)].
  exists db'. split; [exact H1|exact H4].
Defined.

Lemma find_map_first {A} (f : A -> bool) (g : A -> A) (l : list A) (a : A) :
  (forall x, f (g x) = f x) ->
  find f l = Some a -> find f (map g l) = Some (g a).
Proof.
  intros Hfg. induction l as [|x l IH]; [discriminate|].
  cbn. rewrite Hfg. destruct (f x); [intros H; now inversion H|exact IH].
Qed.

(** The store after a successful [PUT /projects/:id]. *)
Lemma updateProject_resolved env z db P id data project acc :
  updateProjectSchema data = true ->
  findProjectById db id = Some project ->
  tenantId P = p_tenantId project ->
  checkProjectAccess (userId P) (p_id project) (tenantId P) db = (inr acc, db) ->
  exists db',
    projects db'
    = map (fun p => if String.eqb (p_id p) id then applyData data p else p)
          (projects db)
    /\ members db' = members db /\ invitations db' = invitations db
    /\ joinRequests db' = joinRequests db /\ tasks db' = tasks db
    /\ route env (updateProject z P id data) db
       = if negb (hasAccess acc) || negb (canWrite (role acc))
         then (Fail 403 "Insufficient permissions", db)
         else (Json 200 (viewOf db' (applyData data project)), db').
Proof.
  intros Hv Hp Ht Hacc. apply updateProjectIssues_nil in Hv.
  eexists (addActivityLog _ (setProjects db _)).
  repeat apply conj; try reflexivity.
  unfold updateProject. rewrite Hv. run. rewrite Hp.
  rewrite <- Ht, String.eqb_refl. cbn. rewrite Hacc.
  destruct (negb (hasAccess acc) || negb (canWrite (role acc))); reflexivity.
Qed.

(** X5.  [PUT /projects/:id] with a body that [updateProjectSchema] accepts,
    on an existing project of the caller's tenant: a caller resolved to
    Viewer or to no role is answered 403 and nothing changes; a caller
    resolved to Owner, Admin or Member is answered 200 and the project of
    that id is afterwards the old one with the given fields replaced. *)
Theorem updateProject_writers (env : Env) (z : Zod) (db : Db) (P : Principal)
    (id : string) (data : ProjectData) (project : Project) :
  updateProjectSchema data = true ->
  findProjectById db id = Some project ->
  tenantId P = p_tenantId project ->
  exists acc,
    checkProjectAccess (userId P) (p_id project) (tenantId P) db = (inr acc, db)
    /\ ((role acc = Some VIEWER \/ role acc = None) ->
        route env (updateProject z P id data) db
        = (Fail 403 "Insufficient permissions", db))
    /\ ((role acc = Some OWNER \/ role acc = Some ADMIN \/ role acc = Some MEMBER) ->
        isSuccess (fst (route env (updateProject z P id data) db)) = true
        /\ findProjectById (snd (route env (updateProject z P id data) db)) id
           = Some (applyData data project)).
Proof.
  intros Hv Hp Ht.
  destruct (checkProjectAccess_total db P project id Hp Ht) as [acc Hacc].
  exists acc. split; [exact Hacc|].
  pose proof (checkProjectAccess_role _ _ _ _ _ _ Hacc) as Hrole.
  destruct (updateProject_resolved env z db P id data project acc Hv Hp Ht Hacc)
    as [db' (Hprojects & _ & _ & _ & _ & Hroute)].
  rewrite Hroute, Hrole. split.
  - intros [Hr|Hr]; rewrite Hr; reflexivity.
  - intros Hr.
    assert (Hw : canWrite (role acc) = true)
      by (destruct Hr as [Hr|[Hr|Hr]]; rewrite Hr; reflexivity).
    assert (Hsome : match role acc with Some _ => true | None => false end = true)
      by (destruct Hr as [Hr|[Hr|Hr]]; rewrite Hr; reflexivity).
    rewrite Hw, Hsome. cbn [negb orb fst snd isSuccess]. split; [reflexivity|].
    unfold findProjectById. rewrite Hprojects.
    rewrite (find_map_first (fun p => String.eqb (p_id p) id)
               (fun p => if String.eqb (p_id p) id then applyData data p else p)
               (projects db) project).
    + apply (findProjectById_id _ _ _) in Hp as Hid.
      now rewrite Hid, String.eqb_refl.
    + intros x. destruct (String.eqb (p_id x) id) eqn:E; cbn; now rewrite E.
    + exact Hp.
Qed.

(** Dave holds no role in [p1]: his update is refused. *)
Lemma updateProject_writers_witness :
  route Sample.env0
        (updateProject sampleZod (Sample.principalOf Sample.dave) "p1"
           (mkProjectData (Some "Renamed") None None None)) Sample.db0
  = (Fail 403 "Insufficient permissions", Sample.db0).
Proof.
  destruct (updateProject_writers Sample.env0 sampleZod Sample.db0
              (Sample.principalOf Sample.dave) "p1"
              (mkProjectData (Some "Renamed") None None None) Sample.p1
              eq_refl eq_refl eq_refl) as [acc (Hacc & Hdeny & _)].
  apply Hdeny. right. vm_compute in Hacc. now inversion Hacc.
Defined.

(** X6.  Whatever the request, [PUT /projects/:id] keeps every project row
    in place with its id, tenant, join code and creator, leaves the rows of
    other ids as they are, and does not touch memberships, invitations, join
    requests or tasks; a request that is not answered with success changes
    nothing at all. *)
Theorem updateProject_keeps_identity (env : Env) (z : Zod) (db : Db)
    (P : Principal)
    (id : string) (data : ProjectData) :
  Forall2 (fun p p' => sameIdentity p p' /\ (p_id p <> id -> p' = p))
          (projects db) (projects (snd (route env (updateProject z P id data) db)))
  /\ members (snd (route env (updateProject z P id data) db)) = members db
  /\ invitations (snd (route env (updateProject z P id data) db)) = invitations db
  /\ joinRequests (snd (route env (updateProject z P id data) db)) = joinRequests db
  /\ tasks (snd (route env (updateProject z P id data) db)) = tasks db
  /\ (isSuccess (fst (route env (updateProject z P id data) db)) = false ->
      snd (route env (updateProject z P id data) db) = db).
Proof.
  assert (Hsame : forall l : list Project,
            Forall2 (fun p p' => sameIdentity p p' /\ (p_id p <> id -> p' = p)) l l).
  { induction l; constructor; auto. repeat split; auto. }
  assert (Hmap : forall l : list Project,
            Forall2 (fun p p' => sameIdentity p p' /\ (p_id p <> id -> p' = p)) l
              (map (fun p => if String.eqb (p_id p) id then applyData data p else p)
                   l)).
  { induction l as [|p l IH]; constructor; [|exact IH].
    destruct (String.eqb (p_id p) id) eqn:E.
    - split; [repeat split|]. intros Hne. apply String.eqb_eq in E.
      contradiction.
    - repeat split; auto. }
  destruct (updateProjectIssues data) as [|path paths] eqn:Hv;
    [|unfold updateProject; rewrite Hv; run; cbn; repeat split; auto;
      intros _; reflexivity].
  pose proof Hv as Hnil. apply updateProjectIssues_nil in Hv.
  destruct (findProjectById db id) as [project|] eqn:Hp.
  - destruct (String.eqb (tenantId P) (p_tenantId project)) eqn:Ht.
    + apply String.eqb_eq in Ht.
      destruct (checkProjectAccess_total db P project id Hp Ht) as [acc Hacc].
      destruct (updateProject_resolved env z db P id data project acc Hv Hp Ht Hacc)
        as [db' (Hprojects & Hm & Hi & Hj & Ht' & Hroute)].
      rewrite Hroute.
      destruct (negb (hasAccess acc) || negb (canWrite (role acc))).
      * cbn. repeat split; auto.
      * cbn [fst snd isSuccess]. repeat split; auto; try discriminate.
        rewrite Hprojects. apply Hmap.
    + unfold updateProject. rewrite Hnil. run. rewrite Hp, Ht. cbn.
      repeat split; auto.
  - unfold updateProject. rewrite Hnil. run. rewrite Hp. cbn. repeat split; auto.
Qed.

(** ** Generated join codes *)

Lemma findProjectByCode_None db code :
  findProjectByCode db code = None ->
  forall p, In p (projects db) -> p_code p <> Some code.
Proof.
  intros Hf p Hin Hc. unfold findProjectByCode in Hf.
  pose proof (find_none _ _ Hf p Hin) as Hb. cbn in Hb.
  rewrite Hc in Hb. cbn in Hb. rewrite String.eqb_refl in Hb. discriminate.
Qed.

Lemma NoDup_snoc {A} (l : list A) (a : A) :
  NoDup l -> ~ In a l -> NoDup (l ++ [a]).
Proof.
  induction l as [|x l IH]; cbn; intros Hnd Hin.
  - constructor; [intros []|constructor].
  - inversion Hnd as [|? ? Hx Hl]; subst. constructor.
    + rewrite in_app_iff. cbn. intros [H|[H|[]]]; [contradiction|].
      apply Hin. now left.
    + apply IH; [exact Hl|]. intros H. apply Hin. now right.
Qed.

(** X7.  A code that [generateProjectCode] returns is in use by no project;
    with every random index in range it has six characters; and creating a
    project with it keeps the join codes of the store distinct. *)
Theorem generateProjectCode_fresh (rand : nat -> nat) (fuel k : nat) (db : Db)
    (code : string) :
  generateProjectCode rand fuel k db = Some code ->
  (forall p, In p (projects db) -> p_code p <> Some code)
  /\ ((forall i, rand i < 36) -> String.length code = 6)
  /\ (forall env P name data newId,
        uniqueCodes db ->
        uniqueCodes (snd (route env (createProject P name data code newId) db))).
Proof.
  intros Hg.
  destruct (generateProjectCode_Some _ _ _ _ _ Hg) as [j [Hcode Hfree]].
  pose proof (findProjectByCode_None db code Hfree) as Hunused.
  repeat apply conj.
  - exact Hunused.
  - intros Hr. rewrite Hcode. now apply drawCode_length.
  - intros env P name data newId Hu. unfold uniqueCodes, codesOf.
    rewrite createProject_projects, flat_map_app. cbn.
    apply NoDup_snoc; [exact Hu|].
    intros Hin. apply in_flat_map in Hin. destruct Hin as [p [Hp Hc]].
    destruct (p_code p) as [c|] eqn:E; [|contradiction].
    destruct Hc as [->|[]]. now apply (Hunused p Hp).
Qed.

(** The first round draws ABCDEF, which the sample store does not use. *)
Lemma generateProjectCode_fresh_witness :
  uniqueCodes
    (snd (route Sample.env0
            (createProject (Sample.principalOf Sample.erin) "Gemini"
               (mkProjectData None None None None) "ABCDEF" "p2") Sample.db0)).
Proof.
  apply (proj2 (proj2 (generateProjectCode_fresh (fun i => i mod 36) 1 0
                         Sample.db0 "ABCDEF" eq_refl))).
  unfold uniqueCodes. cbn. constructor; [intros []|constructor].
Defined.

(** X8.  The loop of [generateProjectCode] ends: when the round [i] draws a
    code that no project uses, any fuel above [i] yields a code. *)
Theorem generateProjectCode_ends (rand : nat -> nat) (k : nat) (db : Db)
    (i fuel : nat) :
  findProjectByCode db (drawCode rand (k + 6 * i) 6) = None ->
  i < fuel ->
  exists code,
    generateProjectCode rand fuel k db = Some code
    /\ findProjectByCode db code = None
    /\ exists j, j <= i /\ code = drawCode rand (k + 6 * j) 6.
Proof.
  revert k fuel. induction i as [|i IH]; intros k fuel Hfree Hlt.
  - destruct fuel as [|fuel]; [lia|]. cbn [generateProjectCode].
    replace (k + 6 * 0) with k in Hfree by lia. rewrite Hfree.
    eexists. split; [reflexivity|]. split; [exact Hfree|].
    exists 0. split; [lia|]. f_equal. lia.
  - destruct fuel as [|fuel]; [lia|]. cbn [generateProjectCode].
    destruct (findProjectByCode db (drawCode rand k 6)) eqn:E.
    + destruct (IH (k + 6) fuel) as [code (Hg & Hf & j & Hj & Hc)].
      * replace (k + 6 + 6 * i) with (k + 6 * S i) by lia. exact Hfree.
      * lia.
      * exists code. split; [exact Hg|]. split; [exact Hf|].
        exists (S j). split; [lia|]. rewrite Hc. f_equal. lia.
    + eexists. split; [reflexivity|]. split; [exact E|].
      exists 0. split; [lia|]. f_equal. lia.
Qed.

(** In the sample store the draw "ABC123" of the first round is taken and
    the second round ends the loop. *)
Lemma generateProjectCode_ends_witness :
  exists code,
    generateProjectCode
      (fun i => nth i [0; 1; 2; 27; 28; 29; 3; 4; 5; 6; 7; 8] 0) 5 0 Sample.db0
    = Some code
    /\ findProjectByCode Sample.db0 code = None
    /\ exists j, j <= 1
         /\ code = drawCode (fun i => nth i [0; 1; 2; 27; 28; 29; 3; 4; 5; 6; 7; 8] 0)
                            (0 + 6 * j) 6.
Proof.
  apply (generateProjectCode_ends
           (fun i => nth i [0; 1; 2; 27; 28; 29; 3; 4; 5; 6; 7; 8] 0) 0 Sample.db0
           1 5 eq_refl).
  lia.
Defined.

(** ** Creating an invitation *)

(** [POST /invitations] once the project is loaded, the tenant guard has
    passed and the access is resolved. *)
Lemma createInvitation_resolved env z db P projectId mail r now newId newToken
    project acc :
  createInvitationSchema z projectId mail r = [] ->
  findProjectById db projectId = Some project ->
  tenantId P = p_tenantId project ->
  checkProjectAccess (userId P) (p_id project) (tenantId P) db = (inr acc, db) ->
  route env (createInvitation env z P projectId mail r now newId newToken) db
  = if negb (hasAccess acc) || negb (canAdmin (role acc))
    then (Fail 403 "Only owners and admins can invite members", db)
    else
      match find (fun u => String.eqb (u_email u) mail
                           && String.eqb (u_tenantId u) (tenantId P)) (users db) with
      | None =>
          storeInvitation db (newInvitation env P projectId mail r now newId newToken)
      | Some u =>
          match u_profile u with
          | None => (errorHandler env TypeError, db)
          | Some pr =>
              if isMemberOf db projectId (pr_id pr)
              then (Fail 409 "User is already a member of this project", db)
              else storeInvitation db
                     (newInvitation env P projectId mail r now newId newToken)
          end
      end.
Proof.
  intros Hv Hp Ht Hacc.
  unfold createInvitation, storeInvitation, hasPendingInvitation. rewrite Hv.
  run. rewrite Hp.
  rewrite <- Ht, String.eqb_refl. cbn. rewrite Hacc.
  destruct (negb (hasAccess acc) || negb (canAdmin (role acc))); [reflexivity|].
  destruct (find _ (users db)) as [u|].
  - destruct (u_profile u) as [pr|]; [|reflexivity].
    destruct (isMemberOf db projectId (pr_id pr)); [reflexivity|].
    destruct (existsb _ (invitations db)); [reflexivity|].
    unfold sendInvitationEmail, sendMail, tryCatch, throw, ret.
    destruct (mailFailure env); reflexivity.
  - destruct (existsb _ (invitations db)); [reflexivity|].
    unfold sendInvitationEmail, sendMail, tryCatch, throw, ret.
    destruct (mailFailure env); reflexivity.
Qed.

Lemma storeInvitation_outcomes db inv :
  (isSuccess (fst (storeInvitation db inv)) = false
   /\ snd (storeInvitation db inv) = db)
  \/ (storeInvitation db inv = (Json 201 inv, addInvitation inv db)
      /\ hasPendingInvitation db (i_projectId inv) (i_email inv) = false).
Proof.
  unfold storeInvitation.
  destruct (hasPendingInvitation db (i_projectId inv) (i_email inv));
    [left|right]; split; reflexivity.
Qed.

(** Every way [POST /invitations] can end: without success and without a
    trace, or with the new invitation stored for a caller resolved to Owner
    or Admin. *)
Lemma createInvitation_outcomes env z db P projectId mail r now newId newToken :
  (isSuccess (fst (route env (createInvitation env z P projectId mail r now newId
                                newToken) db)) = false
   /\ snd (route env (createInvitation env z P projectId mail r now newId newToken) db)
      = db)
  \/ (route env (createInvitation env z P projectId mail r now newId newToken) db
      = (Json 201 (newInvitation env P projectId mail r now newId newToken),
         addInvitation (newInvitation env P projectId mail r now newId newToken) db)
      /\ createInvitationSchema z projectId mail r = []
      /\ hasPendingInvitation db projectId mail = false
      /\ exists project acc,
           findProjectById db projectId = Some project
           /\ tenantId P = p_tenantId project
           /\ checkProjectAccess (userId P) (p_id project) (tenantId P) db
              = (inr acc, db)
           /\ (role acc = Some OWNER \/ role acc = Some ADMIN)).
Proof.
  destruct (createInvitationSchema z projectId mail r) as [|path paths] eqn:Hv.
  2:{ left. unfold createInvitation. rewrite Hv. run.
      split; [apply errorHandler_fails|reflexivity]. }
  destruct (findProjectById db projectId) as [project|] eqn:Hp.
  2:{ left. unfold createInvitation. rewrite Hv. run. rewrite Hp.
      split; reflexivity. }
  destruct (String.eqb (tenantId P) (p_tenantId project)) eqn:Ht.
  2:{ left. unfold createInvitation. rewrite Hv. run. rewrite Hp, Ht.
      split; reflexivity. }
  apply String.eqb_eq in Ht.
  destruct (checkProjectAccess_total db P project projectId Hp Ht) as [acc Hacc].
  pose proof (checkProjectAccess_role _ _ _ _ _ _ Hacc) as Hrole.
  rewrite (createInvitation_resolved env z db P projectId mail r now newId newToken
             project acc Hv Hp Ht Hacc).
  destruct (negb (hasAccess acc) || negb (canAdmin (role acc))) eqn:Hdeny;
    [left; split; reflexivity|].
  assert (Hadmin : role acc = Some OWNER \/ role acc = Some ADMIN).
  { rewrite Hrole in Hdeny.
    destruct (role acc) as [[]|]; cbn in Hdeny; auto; discriminate. }
  assert (Hrest :
    (isSuccess (fst (storeInvitation db
                       (newInvitation env P projectId mail r now newId newToken)))
     = false
     /\ snd (storeInvitation db
               (newInvitation env P projectId mail r now newId newToken)) = db)
    \/ (storeInvitation db (newInvitation env P projectId mail r now newId newToken)
        = (Json 201 (newInvitation env P projectId mail r now newId newToken),
           addInvitation (newInvitation env P projectId mail r now newId newToken) db)
        /\ @nil string = []
        /\ hasPendingInvitation db projectId mail = false
        /\ exists project acc,
             findProjectById db projectId = Some project
             /\ tenantId P = p_tenantId project
             /\ checkProjectAccess (userId P) (p_id project) (tenantId P) db
                = (inr acc, db)
             /\ (role acc = Some OWNER \/ role acc = Some ADMIN))).
  { destruct (storeInvitation_outcomes db
                (newInvitation env P projectId mail r now newId newToken))
      as [H|[H1 H2]]; [now left|right].
    split; [exact H1|]. split; [reflexivity|]. split; [exact H2|].
    exists project, acc. auto. }
  rewrite Hp in Hrest.
  destruct (find _ (users db)) as [u|]; [|exact Hrest].
  destruct (u_profile u) as [pr|].
  - destruct (isMemberOf db projectId (pr_id pr)); [|exact Hrest].
    left. split; reflexivity.
  - left. split; [apply errorHandler_fails|reflexivity].
Qed.

Lemma addLocalDays_sameOffset env now :
  sameOffset env now -> addLocalDays env now 7 = (now + sevenDays)%Z.
Proof.
  unfold sameOffset, addLocalDays, sevenDays, msPerDay. intros H.
  cbv zeta. unfold msPerDay in H. rewrite H. lia.
Qed.

(** X9.  An invitation that [POST /invitations] answers with is the row it
    stored: pending, in the caller's tenant, at the given role or Member by
    default.  It expires where [setDate(getDate() + 7)] takes [now] in the
    time zone of the server, which is seven days after [now] when the offset
    of the zone is the same on both days.  The body had passed the schema,
    so the role is not Owner; the caller was resolved to Owner or Admin of
    the project, the project is of the caller's tenant, and the address had
    no pending invitation to it. *)
Theorem createInvitation_created (env : Env) (z : Zod) (db : Db) (P : Principal)
    (projectId mail : string) (r : option ProjectRole) (now : Z)
    (newId newToken : string) (s : Z) (inv : Invitation) :
  fst (route env (createInvitation env z P projectId mail r now newId newToken) db)
  = Json s inv ->
  s = 201%Z
  /\ inv = newInvitation env P projectId mail r now newId newToken
  /\ i_status inv = INV_PENDING
  /\ i_tenantId inv = tenantId P
  /\ i_role inv = orElse r MEMBER
  /\ i_expiresAt inv = addLocalDays env now 7
  /\ (sameOffset env now -> i_expiresAt inv = (now + 7 * 24 * 60 * 60 * 1000)%Z)
  /\ createInvitationSchema z projectId mail r = []
  /\ i_role inv <> OWNER
  /\ snd (route env (createInvitation env z P projectId mail r now newId newToken)
                db)
     = addInvitation inv db
  /\ hasPendingInvitation db projectId mail = false
  /\ exists project acc,
       findProjectById db projectId = Some project
       /\ tenantId P = p_tenantId project
       /\ checkProjectAccess (userId P) (p_id project) (tenantId P) db
          = (inr acc, db)
       /\ (role acc = Some OWNER \/ role acc = Some ADMIN).
Proof.
  intros Hs.
  destruct (createInvitation_outcomes env z db P projectId mail r now newId
              newToken) as [[Hf _]|(Hr & Hv & Hpending & Hadmin)].
  - rewrite Hs in Hf. discriminate.
  - rewrite Hr in Hs |- *. cbn [fst snd] in *. inversion Hs; subst.
    repeat apply conj; auto.
    + intros Hsame. cbn [newInvitation i_expiresAt].
      now rewrite (addLocalDays_sameOffset env now Hsame).
    + cbn [newInvitation i_role]. unfold createInvitationSchema in Hv.
      apply app_eq_nil in Hv. destruct Hv as [_ Hv].
      apply app_eq_nil in Hv. destruct Hv as [_ Hv].
      destruct r as [[]|]; cbn in Hv |- *; discriminate.
Qed.

(** Bob, the creator of Gemini, invites a new address. *)
Lemma createInvitation_created_witness :
  snd (route Sample.env0
         (createInvitation Sample.env0 sampleZod (Sample.principalOf Sample.bob)
            "7d3f1c2a-5b6e-4f80-9a1b-2c3d4e5f6071" "new@x.com" (Some ADMIN) 5000
            "i3" "tok-3") geminiStore)
  = addInvitation
      (newInvitation Sample.env0 (Sample.principalOf Sample.bob)
         "7d3f1c2a-5b6e-4f80-9a1b-2c3d4e5f6071" "new@x.com" (Some ADMIN) 5000 "i3"
         "tok-3") geminiStore.
Proof.
  destruct (createInvitation_created Sample.env0 sampleZod geminiStore
              (Sample.principalOf Sample.bob)
              "7d3f1c2a-5b6e-4f80-9a1b-2c3d4e5f6071" "new@x.com" (Some ADMIN) 5000
              "i3" "tok-3" 201
              (newInvitation Sample.env0 (Sample.principalOf Sample.bob)
                 "7d3f1c2a-5b6e-4f80-9a1b-2c3d4e5f6071" "new@x.com" (Some ADMIN)
                 5000 "i3" "tok-3") eq_refl)
    as (_ & _ & _ & _ & _ & _ & _ & _ & _ & H & _).
  exact H.
Defined.

(** On a server whose zone changes to summer time within the week, the same
    invitation expires an hour short of seven days after [now]. *)
Lemma createInvitation_summer_time :
  option_map i_expiresAt
    (findPendingInvitation
       (snd (route envSummer
               (createInvitation envSummer sampleZod (Sample.principalOf Sample.bob)
                  "7d3f1c2a-5b6e-4f80-9a1b-2c3d4e5f6071" "new@x.com" (Some ADMIN)
                  0 "i3" "tok-3") geminiStore)) "tok-3")
  = Some (7 * 24 * 60 * 60 * 1000 - 60 * 60 * 1000)%Z.
Proof. reflexivity. Qed.

Lemma hasPendingInvitation_false_count db projectId mail :
  hasPendingInvitation db projectId mail = false ->
  pendingInvitationCount db projectId mail = 0%nat.
Proof.
  unfold hasPendingInvitation, pendingInvitationCount.
  induction (invitations db) as [|i l IH]; [reflexivity|].
  cbn. destruct (_ && _); cbn; [discriminate|exact IH].
Qed.

(** X10.  [POST /invitations] keeps the rule of one pending invitation per
    project and address: a pair with at most one pending invitation before
    the request has at most one after it.  The request touches no membership
    row, and a request that does not succeed changes nothing. *)
Theorem createInvitation_one_pending (env : Env) (z : Zod) (db : Db)
    (P : Principal)
    (projectId mail : string) (r : option ProjectRole) (now : Z)
    (newId newToken : string) :
  (forall pid m,
     (pendingInvitationCount db pid m <= 1)%nat ->
     (pendingInvitationCount
        (snd (route env (createInvitation env z P projectId mail r now newId newToken)
                    db)) pid m <= 1)%nat)
  /\ members (snd (route env (createInvitation env z P projectId mail r now newId
                                newToken) db)) = members db
  /\ (isSuccess (fst (route env (createInvitation env z P projectId mail r now newId
                                   newToken) db)) = false ->
      snd (route env (createInvitation env z P projectId mail r now newId newToken) db)
      = db).
Proof.
  destruct (createInvitation_outcomes env z db P projectId mail r now newId
              newToken) as [[Hf Hdb]|(Hr & _ & Hpending & _)].
  - rewrite Hdb. repeat split; auto.
  - rewrite Hr. cbn [fst snd isSuccess]. repeat split; try discriminate.
    intros pid m Hc. unfold pendingInvitationCount, addInvitation. cbn.
    rewrite filter_app, length_app. cbn.
    destruct (String.eqb projectId pid && String.eqb mail m && true) eqn:E;
      cbn; [|unfold pendingInvitationCount in Hc; lia].
    apply andb_true_iff in E. destruct E as [E _].
    apply andb_true_iff in E. destruct E as [E1 E2].
    apply String.eqb_eq in E1, E2. subst pid m.
    apply hasPendingInvitation_false_count in Hpending.
    unfold pendingInvitationCount in Hpending. rewrite Hpending. lia.
Qed.

(** X11.  An invitation just created under a token no pending invitation
    carries is what the lookup by that token returns, unchanged, at any time
    up to its expiry, the instant where [setDate(getDate() + 7)] takes the
    time of creation in the zone of the server; after the expiry the lookup
    answers 410. *)
Theorem createInvitation_then_lookup (env : Env) (z : Zod) (db : Db)
    (P : Principal) (projectId mail : string) (r : option ProjectRole) (now : Z)
    (newId newToken : string) (s : Z) (inv : Invitation) :
  fst (route env (createInvitation env z P projectId mail r now newId newToken) db)
  = Json s inv ->
  findPendingInvitation db newToken = None ->
  forall now',
    ((now' <= addLocalDays env now 7)%Z ->
     route env (getInvitation newToken now')
           (snd (route env (createInvitation env z P projectId mail r now newId
                              newToken) db))
     = (Json 200 inv,
        snd (route env (createInvitation env z P projectId mail r now newId
                          newToken) db)))
    /\ ((now' > addLocalDays env now 7)%Z ->
        fst (route env (getInvitation newToken now')
               (snd (route env (createInvitation env z P projectId mail r now newId
                                  newToken) db)))
        = Fail 410 "Invitation has expired").
Proof.
  intros Hs Hfresh now'.
  destruct (createInvitation_outcomes env z db P projectId mail r now newId
              newToken) as [[Hfail _]|(Hr & _)];
    [rewrite Hs in Hfail; discriminate|].
  rewrite Hr in Hs |- *. cbn [fst snd] in *. inversion Hs as [[Hs201 Hinv]].
  symmetry in Hinv. rewrite <- Hinv.
  assert (He : i_expiresAt inv = addLocalDays env now 7) by now rewrite Hinv.
  rewrite getInvitation_cases.
  assert (Hf : findPendingInvitation (addInvitation inv db) newToken = Some inv).
  { unfold findPendingInvitation, addInvitation. cbn.
    apply find_app_new; [exact Hfresh|].
    rewrite Hinv. cbn. now rewrite String.eqb_refl. }
  rewrite Hf, He. split; intros Hn.
  - replace (now' >? addLocalDays env now 7)%Z with false; [reflexivity|].
    symmetry. rewrite Z.gtb_ltb. apply Z.ltb_ge. lia.
  - replace (now' >? addLocalDays env now 7)%Z with true; [reflexivity|].
    symmetry. apply Z.gtb_lt. lia.
Qed.

(** Bob's new invitation is found by its token a day later. *)
Lemma createInvitation_then_lookup_witness :
  route Sample.env0 (getInvitation "tok-3" 86405000)
        (snd (route Sample.env0
                (createInvitation Sample.env0 sampleZod
                   (Sample.principalOf Sample.bob)
                   "7d3f1c2a-5b6e-4f80-9a1b-2c3d4e5f6071" "new@x.com" (Some ADMIN)
                   5000 "i3" "tok-3") geminiStore))
  = (Json 200
       (newInvitation Sample.env0 (Sample.principalOf Sample.bob)
          "7d3f1c2a-5b6e-4f80-9a1b-2c3d4e5f6071" "new@x.com" (Some ADMIN) 5000 "i3"
          "tok-3"),
     snd (route Sample.env0
            (createInvitation Sample.env0 sampleZod (Sample.principalOf Sample.bob)
               "7d3f1c2a-5b6e-4f80-9a1b-2c3d4e5f6071" "new@x.com" (Some ADMIN)
               5000 "i3" "tok-3") geminiStore)).
Proof.
  apply (proj1 (createInvitation_then_lookup Sample.env0 sampleZod geminiStore
                  (Sample.principalOf Sample.bob)
                  "7d3f1c2a-5b6e-4f80-9a1b-2c3d4e5f6071" "new@x.com" (Some ADMIN)
                  5000 "i3" "tok-3" 201 _ eq_refl eq_refl 86405000)).
  vm_compute. discriminate.
Defined.

(** ** What an acceptance grants *)

Lemma findMembership_new db db' pid uid tid r :
  isMemberOf db pid uid = false ->
  members db' = (members db ++ [mkMember tid pid uid r])%list ->
  findMembership db' pid uid tid = Some (mkMember tid pid uid r).
Proof.
  intros Hm Hdb'. unfold findMembership. rewrite Hdb'.
  apply find_app_new.
  - apply find_all_false. intros m Hin.
    unfold isMemberOf in Hm.
    destruct (String.eqb (m_projectId m) pid && String.eqb (m_userId m) uid) eqn:E;
      [|reflexivity].
    exfalso. assert (Ht : existsb (fun m => String.eqb (m_projectId m) pid
                                            && String.eqb (m_userId m) uid)
                                  (members db) = true)
      by (apply existsb_exists; eauto).
    rewrite Ht in Hm. discriminate.
  - cbn. now rewrite !String.eqb_refl.
Qed.

Lemma memberCount_ext db db' pid uid :
  members db' = members db -> memberCount db' pid uid = memberCount db pid uid.
Proof. unfold memberCount. now intros ->. Qed.

(** X12.  An acceptance of an invitation that succeeds was made on a pending
    invitation that has not expired, by a caller of the invitation's tenant
    who held no membership row in the project; afterwards that user holds
    exactly one row in the project, and the access of that user resolves to
    the role the invitation proposed. *)
Theorem acceptInvitation_grants_role (env : Env) (db : Db) (P : Principal)
    (token : string) (now : Z) :
  isSuccess (fst (route env (acceptInvitation P token now) db)) = true ->
  exists inv u pr,
    findPendingInvitation db token = Some inv
    /\ (now <= i_expiresAt inv)%Z
    /\ findUserById db (userId P) = Some u
    /\ u_profile u = Some pr
    /\ tenantId P = i_tenantId inv
    /\ memberCount db (i_projectId inv) (pr_id pr) = 0%nat
    /\ memberCount (snd (route env (acceptInvitation P token now) db))
                   (i_projectId inv) (pr_id pr) = 1%nat
    /\ checkProjectAccess (pr_id pr) (i_projectId inv) (tenantId P)
         (snd (route env (acceptInvitation P token now) db))
       = (inr (mkAccess true (Some (i_role inv))),
          snd (route env (acceptInvitation P token now) db)).
Proof.
  rewrite acceptInvitation_cases.
  destruct (findPendingInvitation db token) as [inv|] eqn:Hf; [|discriminate].
  destruct (now >? i_expiresAt inv)%Z eqn:Hexp; [discriminate|].
  destruct (findUserById db (userId P)) as [u|] eqn:Hu; [|discriminate].
  destruct (negb (u_email u =? i_email inv)); [discriminate|].
  destruct (negb (tenantId P =? i_tenantId inv)) eqn:Ht; [discriminate|].
  destruct (u_profile u) as [pr|] eqn:Hp;
    [|cbn [fst]; intros H; rewrite errorHandler_fails in H; discriminate].
  destruct (isMemberOf db (i_projectId inv) (pr_id pr)) eqn:Hm; [discriminate|].
  intros _. cbn [snd].
  apply negb_false_iff, String.eqb_eq in Ht.
  exists inv, u, pr. repeat split; auto.
  - rewrite Z.gtb_ltb in Hexp. apply Z.ltb_ge in Hexp. exact Hexp.
  - now apply isMemberOf_false_count.
  - rewrite (memberCount_ext
               (addMember (mkMember (i_tenantId inv) (i_projectId inv) (pr_id pr)
                                    (i_role inv)) db)) by reflexivity.
    rewrite memberCount_addMember, (isMemberOf_false_count _ _ _ Hm).
    cbn. now rewrite !String.eqb_refl.
  - unfold checkProjectAccess. run.
    rewrite (findMembership_new db (acceptedStore P inv (pr_id pr) db)
               (i_projectId inv) (pr_id pr) (tenantId P) (i_role inv) Hm).
    + reflexivity.
    + rewrite Ht. reflexivity.
Qed.

(** Frank accepts his invitation as Viewer of [p1]. *)
Lemma acceptInvitation_grants_role_witness :
  exists inv u pr,
    findPendingInvitation Sample.db0 "tok-2" = Some inv
    /\ (500 <= i_expiresAt inv)%Z
    /\ findUserById Sample.db0 "u6" = Some u
    /\ u_profile u = Some pr
    /\ "tB" = i_tenantId inv
    /\ memberCount Sample.db0 (i_projectId inv) (pr_id pr) = 0%nat
    /\ memberCount
         (snd (route Sample.env0
                 (acceptInvitation (Sample.principalOf Sample.frank) "tok-2" 500)
                 Sample.db0)) (i_projectId inv) (pr_id pr) = 1%nat
    /\ checkProjectAccess (pr_id pr) (i_projectId inv) "tB"
         (snd (route Sample.env0
                 (acceptInvitation (Sample.principalOf Sample.frank) "tok-2" 500)
                 Sample.db0))
       = (inr (mkAccess true (Some (i_role inv))),
          snd (route Sample.env0
                 (acceptInvitation (Sample.principalOf Sample.frank) "tok-2" 500)
                 Sample.db0)).
Proof.
  apply (acceptInvitation_grants_role Sample.env0 Sample.db0
           (Sample.principalOf Sample.frank) "tok-2" 500 eq_refl).
Defined.

(** ** Creating a join request *)

Lemma hasPendingRequest_false_count db projectId uid :
  hasPendingRequest db projectId uid = false ->
  pendingRequestCount db projectId uid = 0%nat.
Proof.
  unfold hasPendingRequest, pendingRequestCount.
  induction (joinRequests db) as [|j l IH]; [reflexivity|].
  cbn. destruct (_ && _); cbn; [discriminate|exact IH].
Qed.

Lemma findProjectByCode_Some db code project :
  findProjectByCode db code = Some project ->
  In project (projects db) /\ p_code project = Some code.
Proof.
  unfold findProjectByCode. intros H. apply find_some in H.
  destruct H as [Hin Hc]. split; [exact Hin|].
  unfold opt_eqb in Hc. destruct (p_code project); [|discriminate].
  apply String.eqb_eq in Hc. now subst.
Qed.

(** X13.  A join request that [POST /join-requests] answers with is the row
    it stored: pending, by the caller, for the project the upper-cased code
    designates, which is of the caller's tenant; the caller held no
    membership row in the project and had no pending request for it; the
    request makes nobody a member. *)
Theorem createJoinRequest_created (env : Env) (db : Db) (P : Principal)
    (code : string) (message : option string) (newId : string) (s : Z)
    (jr : JoinRequest) :
  fst (route env (createJoinRequest env P code message newId) db) = Json s jr ->
  exists project,
    findProjectByCode db (Str.toUpperCase code) = Some project
    /\ p_tenantId project = tenantId P
    /\ s = 201%Z
    /\ jr = newJoinRequest P project message newId
    /\ j_status jr = JR_PENDING /\ j_userId jr = userId P
    /\ j_tenantId jr = tenantId P
    /\ ~ hasRow db (p_id project) (userId P)
    /\ pendingRequestCount db (p_id project) (userId P) = 0%nat
    /\ joinRequests (snd (route env (createJoinRequest env P code message newId) db))
       = (joinRequests db ++ [jr])%list
    /\ members (snd (route env (createJoinRequest env P code message newId) db))
       = members db.
Proof.
  rewrite createJoinRequest_cases.
  destruct (findProjectByCode db (Str.toUpperCase code)) as [project|] eqn:Hf;
    [|discriminate].
  destruct (isEmptyCode (p_code project)); [discriminate|].
  destruct (negb (p_tenantId project =? tenantId P)) eqn:Ht; [discriminate|].
  destruct (existsb _ (membersOf db (p_id project))) eqn:Hm; [discriminate|].
  destruct (hasPendingRequest db (p_id project) (userId P)) eqn:Hpend;
    [discriminate|].
  cbn [fst snd]. intros H. inversion H; subst.
  apply negb_false_iff, String.eqb_eq in Ht.
  destruct (joinRequested_tables env P project message newId db)
    as (Hj & Hmem & _ & _).
  exists project. repeat split; auto.
  - intros Hrow. apply membersOf_hasRow in Hrow. rewrite Hrow in Hm. discriminate.
  - now apply hasPendingRequest_false_count.
Qed.

(** Frank, of tenant [tB], asks to join [p1] by its code in lower case. *)
Lemma createJoinRequest_created_witness :
  joinRequests
    (snd (route Sample.env0
            (createJoinRequest Sample.env0 (Sample.principalOf Sample.frank)
               "abc123" None "j3") Sample.db0))
  = (joinRequests Sample.db0
     ++ [newJoinRequest (Sample.principalOf Sample.frank) Sample.p1 None "j3"])%list
  /\ members
       (snd (route Sample.env0
               (createJoinRequest Sample.env0 (Sample.principalOf Sample.frank)
                  "abc123" None "j3") Sample.db0))
     = members Sample.db0.
Proof.
  destruct (createJoinRequest_created Sample.env0 Sample.db0
              (Sample.principalOf Sample.frank) "abc123" None "j3" 201
              (newJoinRequest (Sample.principalOf Sample.frank) Sample.p1 None "j3")
              eq_refl)
    as [project (_ & _ & _ & _ & _ & _ & _ & _ & _ & Hj & Hm)].
  split; [exact Hj|exact Hm].
Defined.

(** X14.  [POST /join-requests] keeps the rule of one pending request per
    project and user: a pair with at most one pending request before the call
    has at most one after it; and a call that does not succeed changes
    nothing. *)
Theorem createJoinRequest_one_pending (env : Env) (db : Db) (P : Principal)
    (code : string) (message : option string) (newId : string) :
  (forall pid uid,
     (pendingRequestCount db pid uid <= 1)%nat ->
     (pendingRequestCount
        (snd (route env (createJoinRequest env P code message newId) db)) pid uid
      <= 1)%nat)
  /\ (isSuccess (fst (route env (createJoinRequest env P code message newId) db))
      = false ->
      snd (route env (createJoinRequest env P code message newId) db) = db).
Proof.
  rewrite createJoinRequest_cases.
  destruct (findProjectByCode db (Str.toUpperCase code)) as [project|];
    [|split; auto].
  destruct (isEmptyCode (p_code project)); [split; auto|].
  destruct (negb (p_tenantId project =? tenantId P)); [split; auto|].
  destruct (existsb _ (membersOf db (p_id project))); [split; auto|].
  destruct (hasPendingRequest db (p_id project) (userId P)) eqn:Hpend;
    [split; auto|].
  cbn [fst snd isSuccess]. split; [|discriminate].
  intros pid uid Hc. unfold pendingRequestCount.
  destruct (joinRequested_tables env P project message newId db) as (Hj & _).
  rewrite Hj, filter_app, length_app. cbn.
  destruct (String.eqb (p_id project) pid && String.eqb (userId P) uid && true)
    eqn:E; cbn; [|unfold pendingRequestCount in Hc; lia].
  apply andb_true_iff in E. destruct E as [E _].
  apply andb_true_iff in E. destruct E as [E1 E2].
  apply String.eqb_eq in E1, E2. subst pid uid.
  apply hasPendingRequest_false_count in Hpend.
  unfold pendingRequestCount in Hpend. rewrite Hpend. lia.
Qed.

Lemma findProjectByCode_ext db db' code :
  projects db' = projects db ->
  findProjectByCode db' code = findProjectByCode db code.
Proof. unfold findProjectByCode. now intros ->. Qed.

Lemma membersOf_ext db db' id :
  members db' = members db -> membersOf db' id = membersOf db id.
Proof. unfold membersOf. now intros ->. Qed.

(** X15.  After a join request has been created, discover-by-code shows the
    requester the project with [hasPendingRequest] set and [isMember] clear,
    and a second request of the requester for the same code is refused with
    400 and changes nothing. *)
Theorem createJoinRequest_then_search (env env' : Env) (db : Db) (P : Principal)
    (code : string) (message : option string) (newId : string) (s : Z)
    (jr : JoinRequest) :
  fst (route env (createJoinRequest env P code message newId) db) = Json s jr ->
  (exists summary,
     fst (route env' (searchProjectByCode P code)
            (snd (route env (createJoinRequest env P code message newId) db)))
     = Json 200 summary
     /\ s_id summary = j_projectId jr
     /\ s_hasPendingRequest summary = true
     /\ s_isMember summary = false)
  /\ (forall message' newId',
        route env' (createJoinRequest env' P code message' newId')
              (snd (route env (createJoinRequest env P code message newId) db))
        = (Fail 400 "You already have a pending request for this project",
           snd (route env (createJoinRequest env P code message newId) db))).
Proof.
  intros Hs. rewrite createJoinRequest_cases in Hs |- *.
  destruct (findProjectByCode db (Str.toUpperCase code)) as [project|] eqn:Hf;
    [|discriminate].
  destruct (isEmptyCode (p_code project)) eqn:Hcode; [discriminate|].
  destruct (negb (p_tenantId project =? tenantId P)) eqn:Ht; [discriminate|].
  destruct (existsb _ (membersOf db (p_id project))) eqn:Hm; [discriminate|].
  destruct (hasPendingRequest db (p_id project) (userId P)) eqn:Hpend;
    [discriminate|].
  cbn [fst snd] in *. inversion Hs; subst. clear Hs.
  destruct (joinRequested_tables env P project message newId db)
    as (Hj & Hmem & Hproj & _).
  set (db' := joinRequested env P project message newId db) in *.
  assert (Hf' : findProjectByCode db' (Str.toUpperCase code) = Some project)
    by now rewrite (findProjectByCode_ext db db' _ Hproj).
  assert (Hm' : existsb (fun m => String.eqb (m_userId m) (userId P))
                        (membersOf db' (p_id project)) = false)
    by now rewrite (membersOf_ext db db' _ Hmem).
  assert (Hp' : hasPendingRequest db' (p_id project) (userId P) = true).
  { unfold hasPendingRequest. rewrite Hj, existsb_app. cbn.
    now rewrite !String.eqb_refl, orb_true_r. }
  split.
  - unfold searchProjectByCode. run. rewrite Hf', Hm', Hp'.
    eexists. split; [reflexivity|]. repeat split.
  - intros message' newId'. rewrite createJoinRequest_cases.
    now rewrite Hf', Hcode, Ht, Hm', Hp'.
Qed.

(** Frank's second request for [p1] is refused. *)
Lemma createJoinRequest_then_search_witness :
  route Sample.env0
        (createJoinRequest Sample.env0 (Sample.principalOf Sample.frank) "ABC123"
           (Some "again") "j4")
        (snd (route Sample.env0
                (createJoinRequest Sample.env0 (Sample.principalOf Sample.frank)
                   "abc123" None "j3") Sample.db0))
  = (Fail 400 "You already have a pending request for this project",
     snd (route Sample.env0
            (createJoinRequest Sample.env0 (Sample.principalOf Sample.frank)
               "abc123" None "j3") Sample.db0)).
Proof.
  pose proof (proj2 (createJoinRequest_then_search Sample.env0 Sample.env0
                       Sample.db0 (Sample.principalOf Sample.frank) "abc123" None
                       "j3" 201 _ eq_refl) (Some "again") "j4") as H.
  exact H.
Defined.

Lemma unreadOf_add db Q n :
  unreadOf Q (addNotification n db)
  = (unreadOf Q db + if ownNotification Q n && negb (n_read n) then 1 else 0)%nat.
Proof.
  unfold unreadOf, addNotification. cbn. rewrite filter_app, length_app. cbn.
  destruct (ownNotification Q n && negb (n_read n)); reflexivity.
Qed.

(** X16.  When a join request is created and the notification write works,
    exactly one notification is added: unread, of the requester's tenant,
    addressed to the first Owner row of the project or else to its creator,
    and pointing to the request.  That user's unread count rises by one and
    nobody else's changes; with nobody to notify no notification is added. *)
Theorem createJoinRequest_notifies_owner (env : Env) (db : Db) (P : Principal)
    (code : string) (message : option string) (newId : string) (s : Z)
    (jr : JoinRequest) (project : Project) :
  fst (route env (createJoinRequest env P code message newId) db) = Json s jr ->
  notificationFailure env = None ->
  findProjectByCode db (Str.toUpperCase code) = Some project ->
  (forall owner,
     ownerToNotify db project = Some owner ->
     notifications (snd (route env (createJoinRequest env P code message newId) db))
     = (notifications db ++ [joinRequestNotification P project owner newId])%list
     /\ forall Q,
          fst (route env (getUnreadCount Q)
                 (snd (route env (createJoinRequest env P code message newId) db)))
          = Json 200
              (unreadOf Q db
               + if String.eqb owner (userId Q)
                    && String.eqb (tenantId P) (tenantId Q)
                 then 1 else 0)%nat)
  /\ (ownerToNotify db project = None ->
      notifications (snd (route env (createJoinRequest env P code message newId) db))
      = notifications db).
Proof.
  intros Hs Hn Hf. rewrite createJoinRequest_cases in Hs |- *. rewrite Hf in *.
  destruct (isEmptyCode (p_code project)); [discriminate|].
  destruct (negb (p_tenantId project =? tenantId P)); [discriminate|].
  destruct (existsb _ (membersOf db (p_id project))); [discriminate|].
  destruct (hasPendingRequest db (p_id project) (userId P)); [discriminate|].
  cbn [fst snd] in *. unfold joinRequested. rewrite Hn. split.
  - intros owner Ho. rewrite Ho. split; [reflexivity|].
    intros Q. unfold getUnreadCount. run. cbn [fst].
    change (length (filter (fun n => ownNotification Q n && negb (n_read n))
                           (notifications ?d))) with (unreadOf Q d).
    f_equal.
    rewrite (unreadOf_add
               (setJoinRequests db
                  (joinRequests db ++ [newJoinRequest P project message newId]))).
    unfold ownNotification. cbn. rewrite andb_true_r. reflexivity.
  - intros Ho. rewrite Ho. reflexivity.
Qed.

(** Frank's request for [p1] reaches bob, the Owner of [p1]. *)
Lemma createJoinRequest_notifies_owner_witness :
  fst (route Sample.env0 (getUnreadCount (Sample.principalOf Sample.bob))
         (snd (route Sample.env0
                 (createJoinRequest Sample.env0 (Sample.principalOf Sample.frank)
                    "abc123" None "j3") Sample.db0)))
  = Json 200 1%nat.
Proof.
  apply (proj2 (proj1 (createJoinRequest_notifies_owner Sample.env0 Sample.db0
                         (Sample.principalOf Sample.frank) "abc123" None "j3" 201 _
                         Sample.p1 eq_refl eq_refl eq_refl) "u2" eq_refl)
           (Sample.principalOf Sample.bob)).
Defined.

(** X17.  Creating an invitation or a join request does not depend on its
    side channel.  [sendInvitationEmail] never throws and leaves the store
    alone, and with a failing mail transport [POST /invitations] answers and
    stores exactly what it does with a working one.  With a failing
    notification write [POST /join-requests] gives the answer, and leaves the
    table of join requests, that it does with a working one. *)
Theorem creation_whatever_the_side_channel (mf nf : option Exn) (prod : bool)
    (tz : Z -> bool -> Z) (ext : string -> string) (z : Zod)
    (P : Principal) (db : Db)
    (projectId mail : string) (r : option ProjectRole) (now : Z)
    (newId newToken : string) (code : string) (message : option string) :
  sendInvitationEmail (mkEnv mf nf prod tz ext) mail db = (inr tt, db)
  /\ route (mkEnv mf nf prod tz ext)
           (createInvitation (mkEnv mf nf prod tz ext) z P projectId mail r now
                             newId newToken) db
     = route (mkEnv None nf prod tz ext)
             (createInvitation (mkEnv None nf prod tz ext) z P projectId mail r
                               now newId newToken) db
  /\ fst (route (mkEnv mf nf prod tz ext)
                (createJoinRequest (mkEnv mf nf prod tz ext) P code message newId)
                db)
     = fst (route (mkEnv mf None prod tz ext)
                  (createJoinRequest (mkEnv mf None prod tz ext) P code message
                                     newId) db)
  /\ joinRequests
       (snd (route (mkEnv mf nf prod tz ext)
                   (createJoinRequest (mkEnv mf nf prod tz ext) P code message
                                      newId) db))
     = joinRequests
         (snd (route (mkEnv mf None prod tz ext)
                     (createJoinRequest (mkEnv mf None prod tz ext) P code message
                                        newId) db)).
Proof.
  assert (Hsend : forall env d, sendInvitationEmail env mail d = (inr tt, d)).
  { intros env d. unfold sendInvitationEmail, sendMail, tryCatch, throw, ret.
    destruct (mailFailure env); reflexivity. }
  split; [apply Hsend|]. split.
  - unfold createInvitation.
    destruct (createInvitationSchema z projectId mail r); [|reflexivity]. run.
    destruct (findProjectById db projectId) as [project|]; [|reflexivity].
    destruct (negb (tenantId P =? p_tenantId project)); [reflexivity|].
    destruct (checkProjectAccess (userId P) (p_id project) (tenantId P) db)
      as [[e|acc] db1]; [reflexivity|].
    destruct (negb (hasAccess acc) || negb (canAdmin (role acc))); [reflexivity|].
    destruct (find _ (users db)) as [u|].
    + destruct (u_profile u) as [pr|]; [|reflexivity].
      destruct (isMemberOf db projectId (pr_id pr)); [reflexivity|].
      destruct (existsb _ (invitations db)); [reflexivity|].
      now rewrite !Hsend.
    + destruct (existsb _ (invitations db)); [reflexivity|].
      now rewrite !Hsend.
  - rewrite !createJoinRequest_cases.
    destruct (findProjectByCode db (Str.toUpperCase code)) as [project|];
      [|split; reflexivity].
    destruct (isEmptyCode (p_code project)); [split; reflexivity|].
    destruct (negb (p_tenantId project =? tenantId P)); [split; reflexivity|].
    destruct (existsb _ (membersOf db (p_id project))); [split; reflexivity|].
    destruct (hasPendingRequest db (p_id project) (userId P)); [split; reflexivity|].
    cbn [fst snd]. split; [reflexivity|].
    destruct (joinRequested_tables (mkEnv mf nf prod tz ext) P project message newId db)
      as (-> & _).
    destruct (joinRequested_tables (mkEnv mf None prod tz ext) P project message newId db)
      as (-> & _).
    reflexivity.
Qed.

(** ** Resolving a join request *)

(** X18.  An acceptance of a join request that succeeds was made by a caller
    holding an Owner or Admin row in the project, for a requester who held no
    membership row in it.  Afterwards the requester holds exactly one row,
    the requester's access resolves to Member, whatever the request asked
    for, every request of that id is accepted, and the requester has been
    sent one notification. *)
Theorem acceptJoinRequest_grants_member (env : Env) (db : Db) (P : Principal)
    (requestId : string) :
  isSuccess (fst (route env (acceptJoinRequest env P requestId) db)) = true ->
  exists j project admin,
    findJoinRequestById db requestId = Some j
    /\ findProjectById db (j_projectId j) = Some project
    /\ findAdminMembership db (j_projectId j) (userId P) = Some admin
    /\ memberCount db (j_projectId j) (j_userId j) = 0%nat
    /\ memberCount (snd (route env (acceptJoinRequest env P requestId) db))
                   (j_projectId j) (j_userId j) = 1%nat
    /\ checkProjectAccess (j_userId j) (j_projectId j) (j_tenantId j)
         (snd (route env (acceptJoinRequest env P requestId) db))
       = (inr (mkAccess true (Some MEMBER)),
          snd (route env (acceptJoinRequest env P requestId) db))
    /\ (forall j',
          In j' (joinRequests (snd (route env (acceptJoinRequest env P requestId) db))) ->
          j_id j' = requestId -> j_status j' = JR_ACCEPTED)
    /\ notifications (snd (route env (acceptJoinRequest env P requestId) db))
       = (notifications db ++ [acceptedNotification j project])%list.
Proof.
  rewrite acceptJoinRequest_cases.
  destruct (findJoinRequestById db requestId) as [j|] eqn:Hj; [|discriminate].
  destruct (findAdminMembership db (j_projectId j) (userId P)) as [admin|] eqn:Ha;
    [|discriminate].
  destruct (findProjectById db (j_projectId j)) as [project|] eqn:Hp;
    [|cbn [fst]; intros H; rewrite errorHandler_fails in H; discriminate].
  rewrite (findProjectById_id _ _ _ Hp), membersOf_isMemberOf.
  destruct (isMemberOf db (j_projectId j) (j_userId j)) eqn:Hm; [discriminate|].
  destruct (notificationFailure env) as [e|];
    [cbn [fst]; intros H; rewrite errorHandler_fails in H; discriminate|].
  intros _. cbn [snd].
  exists j, project, admin. repeat split; auto.
  - now apply isMemberOf_false_count.
  - rewrite (memberCount_ext
               (addMember (mkMember (j_tenantId j) (j_projectId j) (j_userId j)
                                    MEMBER) db)) by reflexivity.
    rewrite memberCount_addMember, (isMemberOf_false_count _ _ _ Hm).
    cbn. now rewrite !String.eqb_refl.
  - unfold checkProjectAccess. run.
    rewrite (findMembership_new db _ (j_projectId j) (j_userId j) (j_tenantId j)
               MEMBER Hm); reflexivity.
  - intros j' Hin. apply (setJoinRequestStatus_status db requestId JR_ACCEPTED).
    exact Hin.
Qed.

(** Bob accepts dave's request [j1]: dave becomes a Member of [p1]. *)
Lemma acceptJoinRequest_grants_member_witness :
  checkProjectAccess "u4" "p1" "tB"
    (snd (route Sample.env0
            (acceptJoinRequest Sample.env0 (Sample.principalOf Sample.bob) "j1")
            Sample.db0))
  = (inr (mkAccess true (Some MEMBER)),
     snd (route Sample.env0
            (acceptJoinRequest Sample.env0 (Sample.principalOf Sample.bob) "j1")
            Sample.db0)).
Proof.
  destruct (acceptJoinRequest_grants_member Sample.env0 Sample.db0
              (Sample.principalOf Sample.bob) "j1" eq_refl)
    as [j [project [admin (Hj & _ & _ & _ & _ & Hacc & _)]]].
  cbn in Hj. inversion Hj; subst j. exact Hacc.
Defined.

Lemma findAdminMembership_None db pid uid :
  (forall m, In m (members db) -> m_projectId m = pid -> m_userId m = uid ->
             m_role m = MEMBER \/ m_role m = VIEWER) ->
  findAdminMembership db pid uid = None.
Proof.
  intros H. unfold findAdminMembership. apply find_all_false. intros m Hin.
  destruct (String.eqb (m_projectId m) pid) eqn:Ep; [|reflexivity].
  destruct (String.eqb (m_userId m) uid) eqn:Eu; [|reflexivity].
  apply String.eqb_eq in Ep, Eu.
  destruct (H m Hin Ep Eu) as [Hr|Hr]; rewrite Hr; reflexivity.
Qed.

(** X19.  Join requests are resolved on membership rows alone: a caller with
    no Owner or Admin row in the project of the request is answered 403 by
    accept, decline and the listing, and nothing changes.  The creator of
    the project is no exception: without such a row the creator is refused
    here although [checkProjectAccess] resolves the creator to Owner. *)
Theorem joinRequest_resolution_needs_row (env : Env) (db : Db) (P : Principal)
    (requestId : string) (j : JoinRequest) :
  findJoinRequestById db requestId = Some j ->
  (forall m, In m (members db) -> m_projectId m = j_projectId j ->
             m_userId m = userId P -> m_role m = MEMBER \/ m_role m = VIEWER) ->
  route env (acceptJoinRequest env P requestId) db
  = (Fail 403 "You do not have permission to accept join requests", db)
  /\ route env (declineJoinRequest env P requestId) db
     = (Fail 403 "You do not have permission to decline join requests", db)
  /\ route env (listJoinRequests P (j_projectId j)) db
     = (Fail 403 "You do not have permission to view join requests for this project",
        db).
Proof.
  intros Hj Hrows.
  pose proof (findAdminMembership_None db (j_projectId j) (userId P) Hrows) as Ha.
  rewrite acceptJoinRequest_cases, declineJoinRequest_cases, Hj, Ha.
  repeat split. unfold listJoinRequests. run. now rewrite Ha.
Qed.

(** With the membership table emptied, bob is still resolved to Owner of the
    project he created, and is refused the acceptance of [j1]. *)
Lemma joinRequest_resolution_needs_row_witness :
  checkProjectAccess "u2" "p1" "tB" (setMembers Sample.db0 [])
  = (inr (mkAccess true (Some OWNER)), setMembers Sample.db0 [])
  /\ route Sample.env0
           (acceptJoinRequest Sample.env0 (Sample.principalOf Sample.bob) "j1")
           (setMembers Sample.db0 [])
     = (Fail 403 "You do not have permission to accept join requests",
        setMembers Sample.db0 []).
Proof.
  split; [reflexivity|].
  apply (proj1 (joinRequest_resolution_needs_row Sample.env0
                  (setMembers Sample.db0 []) (Sample.principalOf Sample.bob) "j1"
                  Sample.jr1 eq_refl (fun m H => match H with end))).
Defined.

(** Once an accept or a decline of a join request has succeeded, no
    listing of pending join requests, for any caller and project, shows a
    request of that id. *)
Theorem resolved_request_not_listed (env env' : Env) (db : Db) (P Q : Principal)
    (requestId projectId : string) :
  (isSuccess (fst (route env (acceptJoinRequest env P requestId) db)) = true ->
   forall s l,
     fst (route env' (listJoinRequests Q projectId)
            (snd (route env (acceptJoinRequest env P requestId) db))) = Json s l ->
     forall j, In j l -> j_id j <> requestId)
  /\ (isSuccess (fst (route env (declineJoinRequest env P requestId) db)) = true ->
      forall s l,
        fst (route env' (listJoinRequests Q projectId)
               (snd (route env (declineJoinRequest env P requestId) db))) = Json s l ->
        forall j, In j l -> j_id j <> requestId).
Proof.
  assert (Hlist : forall d st,
            st <> JR_PENDING ->
            (forall j, In j (joinRequests d) -> j_id j = requestId -> j_status j = st) ->
            forall s l,
              fst (route env' (listJoinRequests Q projectId) d) = Json s l ->
              forall j, In j l -> j_id j <> requestId).
  { intros d st Hst Hd s l. unfold listJoinRequests. run.
    destruct (findAdminMembership d projectId (userId Q)); [|discriminate].
    cbn. intros H. inversion H; subst s l. clear H. intros j Hin Hid.
    apply in_rev in Hin. apply filter_In in Hin. destruct Hin as [Hin Hb].
    apply andb_true_iff in Hb. destruct Hb as [_ Hb].
    rewrite (Hd j Hin Hid) in Hb. destruct st; cbn in Hb; congruence. }
  split.
  - rewrite acceptJoinRequest_cases.
    destruct (findJoinRequestById db requestId) as [j0|]; [|discriminate].
    destruct (findAdminMembership db (j_projectId j0) (userId P)); [|discriminate].
    destruct (findProjectById db (j_projectId j0)) as [project|];
      [|cbn [fst]; intros H; rewrite errorHandler_fails in H; discriminate].
    destruct (existsb _ (membersOf db (p_id project))); [discriminate|].
    destruct (notificationFailure env);
      [cbn [fst]; intros H; rewrite errorHandler_fails in H; discriminate|].
    intros _. cbn [snd]. apply (Hlist _ JR_ACCEPTED); [discriminate|].
    intros j Hin. now apply (setJoinRequestStatus_status db requestId JR_ACCEPTED).
  - rewrite declineJoinRequest_cases.
    destruct (findJoinRequestById db requestId) as [j0|]; [|discriminate].
    destruct (findAdminMembership db (j_projectId j0) (userId P)); [|discriminate].
    destruct (findProjectById db (j_projectId j0)) as [project|];
      [|cbn [fst]; intros H; rewrite errorHandler_fails in H; discriminate].
    destruct (notificationFailure env);
      [cbn [fst]; intros H; rewrite errorHandler_fails in H; discriminate|].
    intros _. cbn [snd]. apply (Hlist _ JR_DECLINED); [discriminate|].
    intros j Hin. now apply (setJoinRequestStatus_status db requestId JR_DECLINED).
Qed.

(** ** Invariants over sequences of calls *)

Lemma acceptJoinRequest_memberCount env P requestId db pid uid :
  (memberCount db pid uid <= 1)%nat ->
  (memberCount (snd (route env (acceptJoinRequest env P requestId) db)) pid uid
   <= 1)%nat.
Proof.
  intros Hc. rewrite acceptJoinRequest_cases.
  destruct (findJoinRequestById db requestId) as [j|]; [|exact Hc].
  destruct (findAdminMembership db (j_projectId j) (userId P)); [|exact Hc].
  destruct (findProjectById db (j_projectId j)) as [project|] eqn:Hp; [|exact Hc].
  rewrite (findProjectById_id _ _ _ Hp), membersOf_isMemberOf.
  destruct (isMemberOf db (j_projectId j) (j_userId j)) eqn:Hm; [exact Hc|].
  assert (Hadd : (memberCount (joinAccepted requestId j db) pid uid <= 1)%nat).
  { rewrite (memberCount_ext
               (addMember (mkMember (j_tenantId j) (j_projectId j) (j_userId j)
                                    MEMBER) db)) by reflexivity.
    rewrite memberCount_addMember. cbn [m_projectId m_userId].
    destruct (String.eqb (j_projectId j) pid && String.eqb (j_userId j) uid) eqn:E;
      [|lia].
    apply andb_true_iff in E. destruct E as [E1 E2].
    apply String.eqb_eq in E1, E2. subst pid uid.
    rewrite (isMemberOf_false_count _ _ _ Hm). lia. }
  destruct (notificationFailure env); exact Hadd.
Qed.

Lemma applyLifecycleOp_memberCount op db pid uid :
  (memberCount db pid uid <= 1)%nat ->
  (memberCount (applyLifecycleOp op db) pid uid <= 1)%nat.
Proof.
  intros Hc. destruct op; cbn [applyLifecycleOp].
  - destruct (createInvitation_outcomes env z db P projectId mail invitedRole now
                newId newToken) as [[_ ->]|[-> _]]; exact Hc.
  - rewrite getInvitation_cases.
    destruct (findPendingInvitation db token) as [inv|]; [|exact Hc].
    destruct (now >? i_expiresAt inv)%Z; exact Hc.
  - now apply acceptInvitation_memberCount.
  - rewrite createJoinRequest_cases.
    destruct (findProjectByCode db (Str.toUpperCase code)) as [project|];
      [|exact Hc].
    destruct (isEmptyCode (p_code project)); [exact Hc|].
    destruct (negb (p_tenantId project =? tenantId P)); [exact Hc|].
    destruct (existsb _ (membersOf db (p_id project))); [exact Hc|].
    destruct (hasPendingRequest db (p_id project) (userId P)); [exact Hc|].
    cbn [snd].
    destruct (joinRequested_tables env P project message newId db) as (_ & Hm & _).
    now rewrite (memberCount_ext db _ pid uid Hm).
  - now apply acceptJoinRequest_memberCount.
  - rewrite declineJoinRequest_cases.
    destruct (findJoinRequestById db requestId) as [j|]; [|exact Hc].
    destruct (findAdminMembership db (j_projectId j) (userId P)); [|exact Hc].
    destruct (findProjectById db (j_projectId j)) as [project|]; [|exact Hc].
    destruct (notificationFailure env); exact Hc.
Qed.

(** X20.  Membership stays unique: over any sequence of invitation and
    join-request calls (create, look up, accept, decline, in any order and
    by any callers), a pair (project, user) that started with at most one
    membership row never comes to have two, and in particular accepting an
    invitation and a join request for the same pair does not. *)
Theorem membership_stays_unique (ops : list LifecycleOp) (db : Db)
    (pid uid : string) :
  (memberCount db pid uid <= 1)%nat ->
  (memberCount (applyLifecycleOps ops db) pid uid <= 1)%nat.
Proof.
  revert db. induction ops as [|op ops IH]; intros db Hc; cbn; [exact Hc|].
  apply IH. now apply applyLifecycleOp_memberCount.
Qed.

(** Frank accepts his invitation to [p1], requests to join it, and bob
    accepts the request: frank holds one row. *)
Lemma membership_stays_unique_witness :
  (memberCount
     (applyLifecycleOps
        [AcceptInvitationOp Sample.env0 (Sample.principalOf Sample.frank) "tok-2" 500;
         CreateJoinRequestOp Sample.env0 (Sample.principalOf Sample.frank) "abc123"
                             None "j3";
         AcceptJoinRequestOp Sample.env0 (Sample.principalOf Sample.bob) "j3"]
        Sample.db0) "p1" "u6" <= 1)%nat.
Proof.
  apply membership_stays_unique. cbn. lia.
Defined.

Lemma keepsInvitation_refl l : Forall2 keepsInvitation l l.
Proof.
  induction l as [|i l IH]; constructor; [|exact IH].
  split; [now destruct i|auto].
Qed.

Lemma keepsInvitation_trans l1 l2 l3 :
  Forall2 keepsInvitation l1 l2 -> Forall2 keepsInvitation l2 l3 ->
  Forall2 keepsInvitation l1 l3.
Proof.
  intros H12. revert l3. induction H12 as [|a b l1 l2 Hab _ IH]; intros l3 H23.
  - inversion H23. constructor.
  - inversion H23 as [|? c ? l3' Hbc Hrest]; subst. constructor; [|now apply IH].
    destruct Hab as [A1 A2], Hbc as [B1 B2]. split.
    + rewrite B1, A1. reflexivity.
    + intros Hs. rewrite B2; [now apply A2|]. rewrite (A2 Hs). exact Hs.
Qed.

Lemma keepsInvitation_ids l l' :
  Forall2 keepsInvitation l l' -> map i_id l' = map i_id l.
Proof.
  induction 1 as [|a b l l' [Hab _] _ IH]; [reflexivity|].
  cbn. rewrite IH, Hab. reflexivity.
Qed.

(** Marking the pending invitation [inv] keeps every other row, when ids are
    unique. *)
Lemma setInvitationStatus_keeps db inv st :
  uniqueInvitationIds db ->
  In inv (invitations db) -> i_status inv = INV_PENDING ->
  Forall2 keepsInvitation (invitations db)
          (invitations (setInvitationStatus (i_id inv) st db)).
Proof.
  unfold uniqueInvitationIds. cbn. intros Hu Hin Hpend.
  assert (H : forall i, In i (invitations db) -> i_id i = i_id inv -> i = inv)
    by (intros i Hi Hid; now apply (NoDup_map_inj i_id (invitations db))).
  clear Hu Hin. induction (invitations db) as [|i l IH]; constructor.
  - destruct (String.eqb (i_id i) (i_id inv)) eqn:E.
    + apply String.eqb_eq in E.
      rewrite (H i (or_introl eq_refl) E) in *.
      split; [reflexivity|]. intros Hs. contradiction.
    + split; [now destruct i|auto].
  - apply IH. intros i' Hi'. apply H. now right.
Qed.

Lemma applyTokenOp_keeps op db :
  uniqueInvitationIds db ->
  Forall2 keepsInvitation (invitations db) (invitations (applyTokenOp op db)).
Proof.
  intros Hu. destruct op as [env token now|env P token now]; cbn [applyTokenOp].
  - rewrite getInvitation_cases.
    destruct (findPendingInvitation db token) as [inv|] eqn:Hf;
      [|apply keepsInvitation_refl].
    destruct (findPendingInvitation_Some _ _ _ Hf) as (Hin & _ & Hp).
    destruct (now >? i_expiresAt inv)%Z; [|apply keepsInvitation_refl].
    now apply setInvitationStatus_keeps.
  - rewrite acceptInvitation_cases.
    destruct (findPendingInvitation db token) as [inv|] eqn:Hf;
      [|apply keepsInvitation_refl].
    destruct (findPendingInvitation_Some _ _ _ Hf) as (Hin & _ & Hp).
    destruct (now >? i_expiresAt inv)%Z; [now apply setInvitationStatus_keeps|].
    destruct (findUserById db (userId P)) as [u|]; [|apply keepsInvitation_refl].
    destruct (negb (u_email u =? i_email inv)); [apply keepsInvitation_refl|].
    destruct (negb (tenantId P =? i_tenantId inv)); [apply keepsInvitation_refl|].
    destruct (u_profile u) as [pr|]; [|apply keepsInvitation_refl].
    destruct (isMemberOf db (i_projectId inv) (pr_id pr)); cbn [snd].
    + now apply setInvitationStatus_keeps.
    + apply (setInvitationStatus_keeps
               (addMember (mkMember (i_tenantId inv) (i_projectId inv) (pr_id pr)
                                    (i_role inv)) db) inv INV_ACCEPTED); assumption.
Qed.

(** X21.  For invitations the resolved states are terminal: with unique
    invitation ids, over any sequence of lookups by token and acceptances
    every invitation row stays in place with its id, tenant, project,
    address, role, inviter, token and expiry, and a row that is accepted,
    declined or expired keeps that status for good. *)
Theorem invitation_states_terminal (ops : list TokenOp) (db : Db) :
  uniqueInvitationIds db ->
  Forall2 keepsInvitation (invitations db) (invitations (applyTokenOps ops db)).
Proof.
  revert db. induction ops as [|op ops IH]; intros db Hu; cbn.
  - apply keepsInvitation_refl.
  - pose proof (applyTokenOp_keeps op db Hu) as Hstep.
    apply keepsInvitation_trans with (l2 := invitations (applyTokenOp op db));
      [exact Hstep|].
    apply IH. unfold uniqueInvitationIds.
    now rewrite (keepsInvitation_ids _ _ Hstep).
Qed.

Lemma uniqueInvitationIds_sample : uniqueInvitationIds Sample.db0.
Proof.
  unfold uniqueInvitationIds. cbn. repeat constructor; cbn; intuition discriminate.
Defined.

(** Frank accepts [tok-2], then the token is looked up and accepted again
    after its expiry: the rows stay, and the accepted one stays accepted. *)
Lemma invitation_states_terminal_witness :
  Forall2 keepsInvitation (invitations Sample.db0)
    (invitations
       (applyTokenOps
          [AcceptToken Sample.env0 (Sample.principalOf Sample.frank) "tok-2" 500;
           LookupToken Sample.env0 "tok-2" 2000;
           AcceptToken Sample.env0 (Sample.principalOf Sample.frank) "tok-2" 3000]
          Sample.db0)).
Proof.
  apply invitation_states_terminal. exact uniqueInvitationIds_sample.
Defined.

(** ** Comments and attachments *)

Lemma checkProjectAccess_ext db db' uid pid tid :
  members db' = members db -> projects db' = projects db ->
  checkProjectAccess uid pid tid db'
  = (fst (checkProjectAccess uid pid tid db), db').
Proof.
  intros Hm Hp. unfold checkProjectAccess, findMembership, findProjectById. run.
  rewrite Hm, Hp.
  destruct (find _ (members db)); [reflexivity|].
  destruct (find _ (projects db)) as [p|]; [|reflexivity].
  destruct (negb (tid =? p_tenantId p)); [reflexivity|].
  destruct (p_createdBy p =? uid); reflexivity.
Qed.

(** [POST /tasks/:taskId/comments], when it succeeds. *)
Lemma createComment_success env z db P taskId content newId s c :
  fst (route env (createComment z P taskId content newId) db) = Json s c ->
  exists task acc,
    findTaskById db taskId = Some task
    /\ tenantId P = t_tenantId task
    /\ checkProjectAccess (userId P) (t_projectId task) (tenantId P) db
       = (inr acc, db)
    /\ hasAccess acc = true /\ canWrite (role acc) = true
    /\ s = 201%Z
    /\ content <> ""
    /\ c = mkComment newId (tenantId P) taskId (userId P) (Str.trim content)
    /\ snd (route env (createComment z P taskId content newId) db)
       = setComments db (comments db ++ [c]).
Proof.
  unfold createComment.
  destruct (1 <=? String.length content)%nat eqn:Hv.
  2:{ run. cbn [fst]. intros H.
      pose proof (errorHandler_fails TaskComment env (ZodError z ["content"]))
        as Hfail.
      rewrite H in Hfail. discriminate. }
  assert (Hne : content <> "")
    by (intros ->; cbn in Hv; discriminate).
  run.
  destruct (findTaskById db taskId) as [task|] eqn:Hf; [|discriminate].
  destruct (negb (tenantId P =? t_tenantId task)) eqn:Ht; [discriminate|].
  apply negb_false_iff, String.eqb_eq in Ht.
  pose proof (checkProjectAccess_store db (userId P) (t_projectId task) (tenantId P))
    as Hstore.
  destruct (checkProjectAccess (userId P) (t_projectId task) (tenantId P) db)
    as [[e|acc] db1] eqn:Hacc; cbn in Hstore; subst db1.
  - cbn [fst]. intros H. pose proof (errorHandler_fails TaskComment env e) as Hfail.
    rewrite H in Hfail. discriminate.
  - destruct (negb (hasAccess acc) || negb (canWrite (role acc))) eqn:Hd;
      [discriminate|].
    apply orb_false_iff in Hd. destruct Hd as [Ha Hw].
    apply negb_false_iff in Ha, Hw.
    destruct (findProfileById db (userId P)); [|discriminate].
    cbn. intros H. inversion H; subst.
    exists task, acc. repeat split; auto.
Qed.

(** X22.  A comment that has been created shows at the end of the task's
    comments, with the text of the body trimmed; and when no comment carried
    its id before, its author can delete it again, which restores the store
    to what it was before the comment was created. *)
Theorem comment_round_trip (env : Env) (z : Zod) (db : Db) (P : Principal)
    (taskId content newId : string) (s : Z) (c : TaskComment) :
  fst (route env (createComment z P taskId content newId) db) = Json s c ->
  (exists before,
     fst (route env (getTaskComments P taskId) db) = Json 200 before
     /\ fst (route env (getTaskComments P taskId)
               (snd (route env (createComment z P taskId content newId) db)))
        = Json 200 (before ++ [c])%list)
  /\ (find (fun x => String.eqb (c_id x) newId) (comments db) = None ->
      route env (deleteComment P newId)
            (snd (route env (createComment z P taskId content newId) db))
      = (Json 200 "Comment deleted successfully", db))
  /\ c_content c = Str.trim content.
Proof.
  intros Hs.
  destruct (createComment_success env z db P taskId content newId s c Hs)
    as (task & acc & Hf & Ht & Hacc & Ha & Hw & _ & _ & Hc & Hdb).
  rewrite Hdb. split; [|split; [|now rewrite Hc]].
  - eexists. unfold getTaskComments. run. cbn [tasks setComments comments].
    unfold findTaskById in Hf |- *. cbn [tasks setComments]. rewrite Hf.
    rewrite Ht, String.eqb_refl. cbn. split; [reflexivity|].
    rewrite filter_app. cbn. rewrite Hc. cbn.
    now rewrite !String.eqb_refl, Ht, String.eqb_refl.
  - intros Hfresh. unfold deleteComment. run.
    cbn [comments setComments].
    rewrite (find_app_new (fun x => String.eqb (c_id x) newId) (comments db) c Hfresh)
      by (rewrite Hc; cbn; apply String.eqb_refl).
    assert (Hct : c_tenantId c = tenantId P) by now rewrite Hc.
    assert (Hcu : c_userId c = userId P) by now rewrite Hc.
    assert (Hck : c_taskId c = taskId) by now rewrite Hc.
    rewrite Hct, String.eqb_refl. cbn [negb].
    replace (findTaskById (setComments db (comments db ++ [c])) (c_taskId c))
      with (Some task) by (rewrite Hck; symmetry; exact Hf).
    rewrite (checkProjectAccess_ext db (setComments db (comments db ++ [c]))
               (userId P) (t_projectId task) (tenantId P) eq_refl eq_refl).
    rewrite Hacc. cbn [fst]. rewrite Ha, Hw. cbn.
    f_equal. rewrite filter_app. cbn. rewrite Hc at 2. cbn.
    rewrite String.eqb_refl. cbn. rewrite app_nil_r.
    assert (Hkeep : filter (fun x => negb (String.eqb (c_id x) newId)) (comments db)
                    = comments db).
    { clear -Hfresh. induction (comments db) as [|x l IH]; [reflexivity|].
      cbn in Hfresh |- *. destruct (String.eqb (c_id x) newId); [discriminate|].
      cbn. now rewrite (IH Hfresh). }
    rewrite Hkeep. now destruct db.
Qed.

(** Bob comments on task [t1] and deletes the comment again. *)
Lemma comment_round_trip_witness :
  route Sample.env0 (deleteComment (Sample.principalOf Sample.bob) "c2")
        (snd (route Sample.env0
                (createComment sampleZod (Sample.principalOf Sample.bob) "t1"
                               " Second " "c2")
                Sample.db0))
  = (Json 200 "Comment deleted successfully", Sample.db0).
Proof.
  apply (proj1 (proj2 (comment_round_trip Sample.env0 sampleZod Sample.db0
                         (Sample.principalOf Sample.bob) "t1" " Second " "c2" 201 _
                         eq_refl))
           eq_refl).
Defined.

(** [POST /tasks/:taskId/attachments], when it succeeds. *)
Lemma uploadAttachment_success env db P taskId part newId s a :
  fst (route env (uploadAttachment env P taskId part newId) db) = Json s a ->
  exists task acc file,
    part = Some file
    /\ fileFilter env file = true
    /\ (up_size file <= fileSizeLimit)%Z
    /\ findTaskById db taskId = Some task
    /\ tenantId P = t_tenantId task
    /\ checkProjectAccess (userId P) (t_projectId task) (tenantId P) db
       = (inr acc, db)
    /\ hasAccess acc = true /\ canWrite (role acc) = true
    /\ s = 201%Z
    /\ a = mkAttachment newId (tenantId P) taskId (userId P) (up_originalname file)
    /\ snd (route env (uploadAttachment env P taskId part newId) db)
       = setAttachments db (attachments db ++ [a]).
Proof.
  unfold uploadAttachment, uploadSingle.
  destruct part as [file|]; [|run; discriminate].
  destruct (fileFilter env file) eqn:Hfilter; cbn [negb].
  2:{ run. cbn [fst]. intros H.
      pose proof (errorHandler_fails TaskAttachment env
                    (Error "Only images and videos are allowed")) as Hfail.
      rewrite H in Hfail. discriminate. }
  rewrite Z.gtb_ltb.
  destruct (Z.ltb_spec fileSizeLimit (up_size file)) as [Hbig|Hsize].
  { run. cbn [fst]. intros H.
    pose proof (errorHandler_fails TaskAttachment env
                  (mkExn "MulterError" (Some "LIMIT_FILE_SIZE") "File too large"))
      as Hfail.
    rewrite H in Hfail. discriminate. }
  run.
  destruct (findTaskById db taskId) as [task|] eqn:Hf; [|discriminate].
  destruct (negb (tenantId P =? t_tenantId task)) eqn:Ht; [discriminate|].
  apply negb_false_iff, String.eqb_eq in Ht.
  pose proof (checkProjectAccess_store db (userId P) (t_projectId task) (tenantId P))
    as Hstore.
  destruct (checkProjectAccess (userId P) (t_projectId task) (tenantId P) db)
    as [[e|acc] db1] eqn:Hacc; cbn in Hstore; subst db1.
  - cbn [fst]. intros H.
    pose proof (errorHandler_fails TaskAttachment env e) as Hfail.
    rewrite H in Hfail. discriminate.
  - destruct (negb (hasAccess acc) || negb (canWrite (role acc))) eqn:Hd;
      [discriminate|].
    apply orb_false_iff in Hd. destruct Hd as [Ha Hw].
    apply negb_false_iff in Ha, Hw.
    destruct (findProfileById db (userId P)); [|discriminate].
    cbn. intros H. inversion H; subst.
    exists task, acc, file. repeat split; auto.
Qed.

(** X23.  An attachment that has been uploaded shows first in the task's
    attachments, which are listed newest first; its file had passed the
    filter and the size limit of the upload; and when no attachment carried
    its id before, its uploader can delete it again, which restores the store
    to what it was before the upload. *)
Theorem attachment_round_trip (env : Env) (db : Db) (P : Principal)
    (taskId : string) (part : option Upload) (newId : string) (s : Z)
    (a : TaskAttachment) :
  fst (route env (uploadAttachment env P taskId part newId) db) = Json s a ->
  (exists before,
     fst (route env (getTaskAttachments P taskId) db) = Json 200 before
     /\ fst (route env (getTaskAttachments P taskId)
               (snd (route env (uploadAttachment env P taskId part newId) db)))
        = Json 200 (a :: before))
  /\ (exists file,
        part = Some file
        /\ fileFilter env file = true
        /\ (up_size file <= fileSizeLimit)%Z
        /\ at_fileName a = up_originalname file)
  /\ (find (fun x => String.eqb (at_id x) newId) (attachments db) = None ->
      route env (deleteAttachment P newId)
            (snd (route env (uploadAttachment env P taskId part newId) db))
      = (Json 200 "Attachment deleted successfully", db)).
Proof.
  intros Hs.
  destruct (uploadAttachment_success env db P taskId part newId s a Hs)
    as (task & acc & file & Hpart & Hfilter & Hsize & Hf & Ht & Hacc & Ha & Hw & _
        & Hc & Hdb).
  rewrite Hdb. split; [|split].
  - eexists. unfold getTaskAttachments. run. cbn [tasks setAttachments attachments].
    unfold findTaskById in Hf |- *. cbn [tasks setAttachments]. rewrite Hf.
    rewrite Ht, String.eqb_refl. cbn. split; [reflexivity|].
    rewrite filter_app, rev_app_distr. cbn. rewrite Hc. cbn.
    now rewrite !String.eqb_refl, Ht, String.eqb_refl.
  - exists file. repeat split; auto. now rewrite Hc.
  - intros Hfresh. unfold deleteAttachment. run.
    cbn [attachments setAttachments].
    rewrite (find_app_new (fun x => String.eqb (at_id x) newId) (attachments db) a
               Hfresh)
      by (rewrite Hc; cbn; apply String.eqb_refl).
    assert (Hct : at_tenantId a = tenantId P) by now rewrite Hc.
    assert (Hcu : at_userId a = userId P) by now rewrite Hc.
    assert (Hck : at_taskId a = taskId) by now rewrite Hc.
    rewrite Hct, String.eqb_refl. cbn [negb].
    replace (findTaskById (setAttachments db (attachments db ++ [a])) (at_taskId a))
      with (Some task) by (rewrite Hck; symmetry; exact Hf).
    rewrite (checkProjectAccess_ext db (setAttachments db (attachments db ++ [a]))
               (userId P) (t_projectId task) (tenantId P) eq_refl eq_refl).
    rewrite Hacc. cbn [fst]. rewrite Ha, Hw. cbn.
    f_equal. rewrite filter_app. cbn. rewrite Hc at 2. cbn.
    rewrite String.eqb_refl. cbn. rewrite app_nil_r.
    assert (Hkeep : filter (fun x => negb (String.eqb (at_id x) newId))
                           (attachments db) = attachments db).
    { clear -Hfresh. induction (attachments db) as [|x l IH]; [reflexivity|].
      cbn in Hfresh |- *. destruct (String.eqb (at_id x) newId); [discriminate|].
      cbn. now rewrite (IH Hfresh). }
    rewrite Hkeep. now destruct db.
Qed.

(** Bob uploads a picture to task [t1]: it is listed before the older
    attachment. *)
Lemma attachment_round_trip_witness :
  exists before,
    fst (route Sample.env0 (getTaskAttachments (Sample.principalOf Sample.bob) "t1")
           Sample.db0)
    = Json 200 before
    /\ fst (route Sample.env0
              (getTaskAttachments (Sample.principalOf Sample.bob) "t1")
              (snd (route Sample.env0
                      (uploadAttachment Sample.env0 (Sample.principalOf Sample.bob)
                         "t1" (Some (mkUpload "notes.png" "image/png" 2048)) "a2")
                      Sample.db0)))
       = Json 200
           (mkAttachment "a2" "tB" "t1" "u2" "notes.png" :: before).
Proof.
  apply (proj1 (attachment_round_trip Sample.env0 Sample.db0
                  (Sample.principalOf Sample.bob) "t1"
                  (Some (mkUpload "notes.png" "image/png" 2048)) "a2" 201
                  (mkAttachment "a2" "tB" "t1" "u2" "notes.png") eq_refl)).
Defined.

(** X24.  Who may delete a comment or an attachment of the caller's tenant:
    a caller whose access to the task's project resolves to no role is
    refused; a Viewer may delete what the Viewer wrote or uploaded and
    nothing else; Owner, Admin and Member may delete anyone's.  A refusal
    is a 403 that changes nothing; a deletion removes every row of that id
    and no other. *)
Theorem delete_own_or_writer (env : Env) (db : Db) (P : Principal) (id : string) :
  (forall c task acc,
     find (fun x => String.eqb (c_id x) id) (comments db) = Some c ->
     tenantId P = c_tenantId c ->
     findTaskById db (c_taskId c) = Some task ->
     checkProjectAccess (userId P) (t_projectId task) (tenantId P) db = (inr acc, db) ->
     route env (deleteComment P id) db
     = if match role acc with
          | None => true
          | Some VIEWER => negb (String.eqb (c_userId c) (userId P))
          | Some _ => false
          end
       then (Fail 403 "Insufficient permissions", db)
       else (Json 200 "Comment deleted successfully",
             setComments db
               (filter (fun x => negb (String.eqb (c_id x) id)) (comments db))))
  /\ (forall a task acc,
        find (fun x => String.eqb (at_id x) id) (attachments db) = Some a ->
        tenantId P = at_tenantId a ->
        findTaskById db (at_taskId a) = Some task ->
        checkProjectAccess (userId P) (t_projectId task) (tenantId P) db
        = (inr acc, db) ->
        route env (deleteAttachment P id) db
        = if match role acc with
             | None => true
             | Some VIEWER => negb (String.eqb (at_userId a) (userId P))
             | Some _ => false
             end
          then (Fail 403 "Insufficient permissions", db)
          else (Json 200 "Attachment deleted successfully",
                setAttachments db
                  (filter (fun x => negb (String.eqb (at_id x) id))
                          (attachments db)))).
Proof.
  split.
  - intros c task acc Hf Ht Htask Hacc.
    pose proof (checkProjectAccess_role _ _ _ _ _ _ Hacc) as Hrole.
    unfold deleteComment. run. rewrite Hf, <- Ht, String.eqb_refl. cbn [negb].
    rewrite Htask, Hacc, Hrole.
    destruct (role acc) as [[]|]; cbn;
      try reflexivity; destruct (c_userId c =? userId P); reflexivity.
  - intros a task acc Hf Ht Htask Hacc.
    pose proof (checkProjectAccess_role _ _ _ _ _ _ Hacc) as Hrole.
    unfold deleteAttachment. run. rewrite Hf, <- Ht, String.eqb_refl. cbn [negb].
    rewrite Htask, Hacc, Hrole.
    destruct (role acc) as [[]|]; cbn;
      try reflexivity; destruct (at_userId a =? userId P); reflexivity.
Qed.

(** Frank, a Viewer of [p1], may delete his own comment and is refused
    bob's. *)
Lemma delete_own_or_writer_witness :
  fst (route Sample.env0 (deleteComment (Sample.principalOf Sample.frank) "c9")
             viewerStore)
  = Json 200 "Comment deleted successfully"
  /\ route Sample.env0 (deleteComment (Sample.principalOf Sample.frank) "c1")
           viewerStore
     = (Fail 403 "Insufficient permissions", viewerStore).
Proof.
  split.
  - rewrite (proj1 (delete_own_or_writer Sample.env0 viewerStore
                      (Sample.principalOf Sample.frank) "c9")
               (mkComment "c9" "tB" "t1" "u6" "Mine") Sample.task1
               (mkAccess true (Some VIEWER)) eq_refl eq_refl eq_refl eq_refl).
    reflexivity.
  - rewrite (proj1 (delete_own_or_writer Sample.env0 viewerStore
                      (Sample.principalOf Sample.frank) "c1")
               (mkComment "c1" "tB" "t1" "u2" "First") Sample.task1
               (mkAccess true (Some VIEWER)) eq_refl eq_refl eq_refl eq_refl).
    reflexivity.
Defined.

(** ** Notifications *)

Lemma firstn_length_le {A} (n : nat) (l : list A) : length (firstn n l) <= n.
Proof. rewrite length_firstn. apply Nat.le_min_l. Qed.

Lemma firstn_In {A} (n : nat) (l : list A) (x : A) : In x (firstn n l) -> In x l.
Proof.
  revert l. induction n as [|n IH]; intros [|a l]; cbn; try contradiction.
  intros [H|H]; [now left|right; now apply IH].
Qed.

(** X25.  Notifications are private to a user in a tenant.  The listing
    returns at most fifty notifications, all addressed to the caller in the
    caller's tenant.  Marking all as read always succeeds, brings the
    caller's unread count to zero, keeps the number of notifications, and
    leaves the unread count of every other user, and of the same user id in
    another tenant, as it was. *)
Theorem notifications_private (env : Env) (db : Db) (P : Principal) :
  (forall s l,
     fst (route env (getNotifications P) db) = Json s l ->
     length l <= 50
     /\ forall n, In n l ->
                  In n (notifications db)
                  /\ n_userId n = userId P /\ n_tenantId n = tenantId P)
  /\ fst (route env (markAllNotificationsAsRead P) db)
     = Json 200 "All notifications marked as read"
  /\ fst (route env (getUnreadCount P)
            (snd (route env (markAllNotificationsAsRead P) db)))
     = Json 200 0
  /\ length (notifications (snd (route env (markAllNotificationsAsRead P) db)))
     = length (notifications db)
  /\ (forall Q,
        userId Q <> userId P \/ tenantId Q <> tenantId P ->
        fst (route env (getUnreadCount Q)
               (snd (route env (markAllNotificationsAsRead P) db)))
        = fst (route env (getUnreadCount Q) db)).
Proof.
  repeat apply conj.
  - intros s l. unfold getNotifications. run. cbn [fst]. intros H.
    assert (Hl : l = firstn 50 (rev (filter (ownNotification P) (notifications db))))
      by (injection H; auto).
    rewrite Hl. clear H Hl.
    split; [apply firstn_length_le|].
    intros n Hin. apply firstn_In, in_rev, filter_In in Hin.
    destruct Hin as [Hin Hown]. unfold ownNotification in Hown.
    apply andb_true_iff in Hown. destruct Hown as [Hu Ht].
    apply String.eqb_eq in Hu, Ht. auto.
  - reflexivity.
  - unfold getUnreadCount, markAllNotificationsAsRead. run. cbn. f_equal.
    induction (notifications db) as [|n l IH]; [reflexivity|].
    cbn. destruct (ownNotification P n && negb (n_read n)) eqn:E.
    + cbn. apply andb_true_iff in E. destruct E as [Hown _].
      unfold ownNotification in Hown |- *. cbn. rewrite Hown. cbn. exact IH.
    + rewrite E. exact IH.
  - unfold markAllNotificationsAsRead. run. cbn. apply length_map.
  - intros Q Hdiff. unfold getUnreadCount, markAllNotificationsAsRead. run. cbn.
    f_equal. f_equal.
    induction (notifications db) as [|n l IH]; [reflexivity|].
    cbn. destruct (ownNotification P n && negb (n_read n)) eqn:E.
    + apply andb_true_iff in E. destruct E as [Hown Hunread].
      unfold ownNotification in Hown. apply andb_true_iff in Hown.
      destruct Hown as [Hu Ht]. apply String.eqb_eq in Hu, Ht.
      assert (HQ : ownNotification Q n = false).
      { unfold ownNotification. rewrite Hu, Ht.
        destruct Hdiff as [Hd|Hd];
          rewrite (eqb_neq_false _ _ (not_eq_sym Hd));
          [reflexivity|apply andb_false_r]. }
      assert (HQ' : ownNotification Q (markRead n) = false) by exact HQ.
      rewrite HQ, HQ'. cbn. exact IH.
    + destruct (ownNotification Q n && negb (n_read n)); cbn; now rewrite IH.
Qed.

(** ** The error middleware *)

(** X26.  [errorHandler] never answers with a success: its status is 400,
    403, 404, 409 or 500.  A Prisma unique-constraint error (P2002) is
    answered as a conflict.  In production the message of the error is
    passed on to the client only with status 403; every other answer carries
    one of the handler's fixed texts. *)
Theorem errorHandler_answers (A : Type) (env : Env) (e : Exn) :
  exists s msg,
    @errorHandler A env e = Fail s msg
    /\ In s [400; 403; 404; 409; 500]%Z
    /\ (e_name e = "PrismaClientKnownRequestError" -> e_code e = Some "P2002" ->
        s = 409%Z /\ outcome (@errorHandler A env e) = Conflict)
    /\ (production env = true ->
        (s = 403%Z /\ msg = e_message e) \/ In msg fixedErrorMessages).
Proof.
  unfold errorHandler.
  destruct (String.eqb (e_name e) "PrismaClientKnownRequestError") eqn:Ek.
  - destruct (opt_eqb (e_code e) "P2002") eqn:E1; cbn [andb].
    + do 2 eexists. split; [reflexivity|]. cbn. intuition.
    + assert (Hno : e_code e <> Some "P2002")
        by (intros H; rewrite H in E1; discriminate).
      destruct (opt_eqb (e_code e) "P2025"); [|destruct (opt_eqb (e_code e) "P2021")].
      * do 2 eexists. split; [reflexivity|]. cbn. intuition.
      * do 2 eexists. split; [reflexivity|]. cbn. intuition.
      * apply String.eqb_eq in Ek. rewrite Ek. cbn.
        destruct (Str.includes (e_message e) "doesn't exist"
                  || Str.includes (e_message e) "Unknown table");
          [|destruct (Str.includes (e_message e) "Unauthorized"
                      || Str.includes (e_message e) "Tenant mismatch")];
          do 2 eexists; (split; [reflexivity|]); cbn;
            (split; [intuition|]); (split; [intuition|]);
            intros Hprod; try rewrite Hprod; cbn; intuition.
  - assert (Hname : e_name e <> "PrismaClientKnownRequestError")
      by now apply String.eqb_neq.
    cbn [andb].
    destruct (String.eqb (e_name e) "PrismaClientValidationError");
      [|destruct (Str.includes (e_message e) "doesn't exist"
                  || Str.includes (e_message e) "Unknown table");
        [|destruct (Str.includes (e_message e) "Unauthorized"
                    || Str.includes (e_message e) "Tenant mismatch")]];
      do 2 eexists; (split; [reflexivity|]); cbn;
        (split; [intuition|]); (split; [intuition|]);
        intros Hprod; try rewrite Hprod; cbn; intuition.
Qed.

(** ** Authentication *)

Lemma principal_eta (P : Principal) :
  mkPrincipal (userId P) (tenantId P) (email P) = P.
Proof. now destruct P. Qed.

Lemma authenticateCatch_replies c e :
  exists r, authenticateCatch c e = Reply r
            /\ (statusOf r = 401 \/ statusOf r = 500)%Z.
Proof.
  unfold authenticateCatch.
  destruct (isJsonWebTokenError c e); [|destruct (isTokenExpiredError c e)];
    eexists; split; try reflexivity; cbn; auto.
Qed.

(** A request the two middlewares hand on. *)
Lemma protect_passes c adb header secret account tenant P :
  String.prefix "Bearer " header = true ->
  configuredSecret c = Some secret ->
  jwt_verify c (substring 7 (String.length header - 7) header) secret = inr P ->
  findAccountById adb (userId P) = Some account ->
  tenantOf adb (acc_user account) = Some tenant ->
  tn_status tenant = "ACTIVE" ->
  tenantId P <> "" ->
  protect c adb (Some header) = Next P.
Proof.
  intros Hpre Hsec Hver Hacc Hten Hact Hne.
  unfold protect, authenticate, tenantMiddleware.
  rewrite Hpre, Hsec, Hver, Hacc, Hten, Hact. cbn.
  rewrite principal_eta, (eqb_neq_false _ _ Hne). reflexivity.
Qed.

(** X27.  The two middlewares in front of every route hand a request on
    exactly when its [Authorization] header is "Bearer " followed by a token
    that verifies under the configured secret, the user the token names
    exists, that user's tenant exists and is ACTIVE, and the token carries a
    tenant id; [req.user] is then what the token carries.  Every other
    request is answered with 401, 403 or 500 and reaches no handler. *)
Theorem protect_exact (c : Crypto) (adb : AuthDb) (authorization : option string)
    (P : Principal) :
  (protect c adb authorization = Next P <->
   exists header secret account tenant,
     authorization = Some header
     /\ String.prefix "Bearer " header = true
     /\ configuredSecret c = Some secret
     /\ jwt_verify c (substring 7 (String.length header - 7) header) secret = inr P
     /\ findAccountById adb (userId P) = Some account
     /\ tenantOf adb (acc_user account) = Some tenant
     /\ tn_status tenant = "ACTIVE"
     /\ tenantId P <> "")
  /\ (forall r, protect c adb authorization = Reply r ->
                (statusOf r = 401 \/ statusOf r = 403 \/ statusOf r = 500)%Z).
Proof.
  unfold protect, authenticate, tenantMiddleware.
  destruct authorization as [header|].
  2:{ split; [split; [discriminate|intros (h & ? & ? & ? & H & _); discriminate]|].
      intros r H. inversion H. cbn. auto. }
  destruct (String.prefix "Bearer " header) eqn:Hpre; cbn [negb].
  2:{ split; [split; [discriminate|]|].
      - intros (h & ? & ? & ? & H & Hp & _). inversion H; subst.
        rewrite Hp in Hpre. discriminate.
      - intros r H. inversion H. cbn. auto. }
  destruct (configuredSecret c) as [secret|] eqn:Hsec.
  2:{ destruct (authenticateCatch_replies c (Error "JWT_SECRET not configured"))
        as [r0 [-> Hst]].
      split; [split; [discriminate|]|].
      - intros (h & ? & ? & ? & _ & _ & H & _). discriminate.
      - intros r H. inversion H; subst. tauto. }
  destruct (jwt_verify c (substring 7 (String.length header - 7) header) secret)
    as [e|decoded] eqn:Hver.
  { destruct (authenticateCatch_replies c e) as [r0 [-> Hst]].
    split; [split; [discriminate|]|].
    - intros (h & s & ? & ? & H & _ & Hs & Hv & _).
      inversion H; subst. inversion Hs; subst. rewrite Hv in Hver. discriminate.
    - intros r H. inversion H; subst. tauto. }
  destruct (findAccountById adb (userId decoded)) as [account|] eqn:Hacc.
  2:{ split; [split; [discriminate|]|].
      - intros (h & s & ? & ? & H & _ & Hs & Hv & Ha & _).
        inversion H; subst. inversion Hs; subst. rewrite Hv in Hver.
        inversion Hver; subst. rewrite Ha in Hacc. discriminate.
      - intros r H. inversion H. cbn. auto. }
  destruct (tenantOf adb (acc_user account)) as [tenant|] eqn:Hten.
  2:{ destruct (authenticateCatch_replies c TypeError) as [r0 [-> Hst]].
      split; [split; [discriminate|]|].
      - intros (h & s & a & ? & H & _ & Hs & Hv & Ha & Ht & _).
        inversion H; subst. inversion Hs; subst. rewrite Hv in Hver.
        inversion Hver; subst. rewrite Ha in Hacc. inversion Hacc; subst.
        rewrite Ht in Hten. discriminate.
      - intros r H. inversion H; subst. tauto. }
  destruct (String.eqb (tn_status tenant) "ACTIVE") eqn:Hact; cbn [negb].
  2:{ split; [split; [discriminate|]|].
      - intros (h & s & a & t & H & _ & Hs & Hv & Ha & Ht & Hst & _).
        inversion H; subst. inversion Hs; subst. rewrite Hv in Hver.
        inversion Hver; subst. rewrite Ha in Hacc. inversion Hacc; subst.
        rewrite Ht in Hten. inversion Hten; subst.
        rewrite Hst in Hact. discriminate.
      - intros r H. inversion H. cbn. auto. }
  apply String.eqb_eq in Hact.
  cbn [tenantId]. rewrite principal_eta.
  destruct (String.eqb (tenantId decoded) "") eqn:Hemp.
  - apply String.eqb_eq in Hemp. split; [split; [discriminate|]|].
    + intros (h & s & a & t & H & _ & Hs & Hv & _ & _ & _ & Hne).
      inversion H; subst. inversion Hs; subst. rewrite Hv in Hver.
      inversion Hver; subst. contradiction.
    + intros r H. inversion H. cbn. auto.
  - apply String.eqb_neq in Hemp. split; [split|discriminate].
    + intros H. inversion H; subst.
      exists header, secret, account, tenant. repeat split; auto.
    + intros (h & s & a & t & H & _ & Hs & Hv & _).
      inversion H; subst. inversion Hs; subst. rewrite Hv in Hver.
      inversion Hver; subst. reflexivity.
Qed.

(** Erin's token passes both middlewares. *)
Lemma protect_exact_witness :
  protect sampleCrypto sampleAuthDb (Some "Bearer s3cret.u5")
  = Next (mkPrincipal "u5" "tA" "erin@x.com").
Proof.
  apply (proj1 (protect_exact sampleCrypto sampleAuthDb (Some "Bearer s3cret.u5")
                  (mkPrincipal "u5" "tA" "erin@x.com"))).
  exists "Bearer s3cret.u5", "s3cret", (mkAccount Sample.erin "hunter22$na" None),
    (mkTenant "tA" "Erin's Organization" "FREE" "ACTIVE").
  repeat split. discriminate.
Defined.

Lemma substring_all (s : string) : substring 0 (String.length s) s = s.
Proof. induction s as [|c s IH]; [reflexivity|]. cbn. now rewrite IH. Qed.

Lemma find_snoc_fresh {A} (f : A -> bool) (l : list A) (x : A) :
  (forall y, In y l -> f y = false) -> f x = true -> find f (l ++ [x]) = Some x.
Proof. intros Hl Hx. apply find_app_new; [now apply find_all_false|exact Hx]. Qed.

(** What the two schemas of [routes/auth.ts] accept. *)
Lemma signUpSchema_accepts (z : Zod) (mail password name : string)
    (tenantName : option string) :
  signUpSchema z mail password name tenantName = []
  <-> z_email z mail = true
      /\ 8 <= String.length password
      /\ 1 <= String.length name
      /\ (forall t, tenantName = Some t -> 1 <= String.length t).
Proof.
  unfold signUpSchema. split.
  - intros H.
    apply app_eq_nil in H. destruct H as [He H].
    apply app_eq_nil in H. destruct H as [Hp H].
    apply app_eq_nil in H. destruct H as [Hn Ht].
    apply issue_nil in He, Hp, Hn, Ht.
    apply Nat.leb_le in Hp, Hn. repeat split; auto.
    intros t Heq. subst tenantName. now apply Nat.leb_le.
  - intros (He & Hp & Hn & Ht).
    apply Nat.leb_le in Hp, Hn. rewrite He, Hp, Hn.
    destruct tenantName as [t|]; [|reflexivity].
    specialize (Ht t eq_refl). apply Nat.leb_le in Ht. now rewrite Ht.
Qed.

Lemma signInSchema_accepts (z : Zod) (mail password : string) :
  signInSchema z mail password = []
  <-> z_email z mail = true /\ 1 <= String.length password.
Proof.
  unfold signInSchema. split.
  - intros H. apply app_eq_nil in H. destruct H as [He Hp].
    apply issue_nil in He, Hp. apply Nat.leb_le in Hp. now split.
  - intros (He & Hp). apply Nat.leb_le in Hp. now rewrite He, Hp.
Qed.

Lemma signUp_accepts_signIn (z : Zod) (mail password name : string)
    (tenantName : option string) :
  signUpSchema z mail password name tenantName = [] ->
  signInSchema z mail password = [].
Proof.
  intros H. apply signUpSchema_accepts in H. destruct H as (He & Hp & _).
  apply signInSchema_accepts. split; [exact He|lia].
Qed.

(** The account and the tenant [signup] stores. *)
Lemma signup_stores env c z mail password name tenantName newTenantId newUserId
    salt adb :
  signUpSchema z mail password name tenantName = [] ->
  findAccountByEmail adb mail = None ->
  signup env c z mail password name tenantName newTenantId newUserId salt adb
  = (issueToken env c 201
       (mkUser newUserId mail newTenantId (Some (mkProfile newUserId name mail))),
     mkAuthDb
       (au_tenants adb
        ++ [mkTenant newTenantId (orElse tenantName (name ++ "'s Organization"))
                     "FREE" "ACTIVE"])
       (au_accounts adb
        ++ [mkAccount
              (mkUser newUserId mail newTenantId
                      (Some (mkProfile newUserId name mail)))
              (bcrypt_hash c password salt) None])).
Proof. intros Hs Hf. unfold signup. now rewrite Hs, Hf. Qed.

(** X28.  Signing up with a body the schema accepts, an address that is not
    registered and a tenant id no tenant carries creates an ACTIVE tenant and
    the user in it, and answers 201 with a token for that user.  From then on
    signing in with the same password answers 200 with a token for the same
    user and records the login time, a password that is not empty and does
    not match the stored hash is answered 401 without any change, a second
    sign-up with the address is answered 409 without any change, and
    registered addresses stay unique. *)
Theorem signup_then_signin (env : Env) (c : Crypto) (z : Zod)
    (mail password name : string) (tenantName : option string)
    (newTenantId newUserId salt secret : string) (adb : AuthDb) :
  signUpSchema z mail password name tenantName = [] ->
  findAccountByEmail adb mail = None ->
  (forall t, In t (au_tenants adb) -> tn_id t <> newTenantId) ->
  configuredSecret c = Some secret ->
  bcrypt_compare c password (bcrypt_hash c password salt) = true ->
  exists user adb',
    user = mkUser newUserId mail newTenantId (Some (mkProfile newUserId name mail))
    /\ signup env c z mail password name tenantName newTenantId newUserId salt adb
       = (Json 201 (mkSession user (jwt_sign c (principalOfUser user) secret)), adb')
    /\ tenantOf adb' user
       = Some (mkTenant newTenantId (orElse tenantName (name ++ "'s Organization"))
                        "FREE" "ACTIVE")
    /\ (forall now,
          signin env c z mail password now adb'
          = (Json 200 (mkSession user (jwt_sign c (principalOfUser user) secret)),
             setLastLogin newUserId now adb'))
    /\ (forall wrong now,
          wrong <> "" ->
          bcrypt_compare c wrong (bcrypt_hash c password salt) = false ->
          signin env c z mail wrong now adb' = (Fail 401 "Invalid credentials", adb'))
    /\ (forall password' name' tenantName' tid uid salt',
          signUpSchema z mail password' name' tenantName' = [] ->
          signup env c z mail password' name' tenantName' tid uid salt' adb'
          = (Fail 409 "Email already registered", adb'))
    /\ (uniqueEmails adb -> uniqueEmails adb').
Proof.
  intros Hschema Hfree Htid Hsec Hcmp.
  set (user := mkUser newUserId mail newTenantId
                      (Some (mkProfile newUserId name mail))).
  set (tenant := mkTenant newTenantId
                   (orElse tenantName (name ++ "'s Organization")) "FREE" "ACTIVE").
  set (account := mkAccount user (bcrypt_hash c password salt) None).
  set (adb' := mkAuthDb (au_tenants adb ++ [tenant]) (au_accounts adb ++ [account])).
  assert (Hfind : findAccountByEmail adb' mail = Some account).
  { unfold findAccountByEmail. cbn.
    apply find_app_new; [exact Hfree|]. cbn. apply String.eqb_refl. }
  assert (Hten : tenantOf adb' user = Some tenant).
  { unfold tenantOf. cbn. apply find_snoc_fresh.
    - intros t Hin. now apply eqb_neq_false, Htid.
    - cbn. apply String.eqb_refl. }
  assert (Hmail : z_email z mail = true)
    by (apply signUpSchema_accepts in Hschema; tauto).
  exists user, adb'. repeat apply conj.
  - reflexivity.
  - rewrite (signup_stores env c z mail password name tenantName newTenantId
               newUserId salt adb Hschema Hfree).
    unfold issueToken. now rewrite Hsec.
  - exact Hten.
  - intros now. unfold signin.
    rewrite (signUp_accepts_signIn _ _ _ _ _ Hschema), Hfind.
    cbn [acc_user account].
    rewrite Hten. cbn [tn_status tenant negb String.eqb]. cbn.
    cbn [acc_passwordHash account]. rewrite Hcmp. cbn [negb].
    unfold issueToken. now rewrite Hsec.
  - intros wrong now Hne Hwrong. unfold signin.
    assert (Hin : signInSchema z mail wrong = []).
    { apply signInSchema_accepts. split; [exact Hmail|].
      destruct wrong; [contradiction|cbn; lia]. }
    rewrite Hin, Hfind. cbn [acc_user account].
    rewrite Hten. cbn. now rewrite Hwrong.
  - intros password' name' tenantName' tid uid salt' Hs'. unfold signup.
    now rewrite Hs', Hfind.
  - unfold uniqueEmails. cbn. rewrite map_app. cbn. intros Hu.
    apply NoDup_snoc; [exact Hu|].
    intros Hin. apply in_map_iff in Hin. destruct Hin as [a [Ha Hin]].
    unfold findAccountByEmail in Hfree.
    pose proof (find_none _ _ Hfree a Hin) as Hno. cbn in Hno.
    rewrite Ha, String.eqb_refl in Hno. discriminate.
Qed.

(** Frank signs up and signs in. *)
Lemma signup_then_signin_witness :
  exists user adb',
    signup Sample.env0 sampleCrypto sampleZod "frank@x.com" "pa55word" "Frank" None
           "tC" "u6" "xy" sampleAuthDb
    = (Json 201 (mkSession user "s3cret.u6"), adb')
    /\ signin Sample.env0 sampleCrypto sampleZod "frank@x.com" "pa55word" 42 adb'
       = (Json 200 (mkSession user "s3cret.u6"), setLastLogin "u6" 42 adb').
Proof.
  assert (Hfresh : forall t, In t (au_tenants sampleAuthDb) -> tn_id t <> "tC").
  { intros t Hin. cbn in Hin.
    repeat (destruct Hin as [<-|Hin]; [discriminate|]). contradiction. }
  destruct (signup_then_signin Sample.env0 sampleCrypto sampleZod "frank@x.com"
              "pa55word" "Frank" None "tC" "u6" "xy" "s3cret" sampleAuthDb
              eq_refl eq_refl Hfresh eq_refl eq_refl)
    as [user [adb' (Hu & Hup & _ & Hin & _)]].
  exists user, adb'. rewrite Hu in *. split; [exact Hup|apply Hin].
Defined.

(** X29.  The token a sign-up answers with opens the protected routes: when
    the schema accepts the body, verifying a token undoes signing it, the
    address and the user id are new and the tenant id is new and not empty,
    the request carrying "Bearer " and that token passes both middlewares
    with [req.user] naming the new user, tenant and address. *)
Theorem signup_then_protect (env : Env) (c : Crypto) (z : Zod)
    (mail password name : string) (tenantName : option string)
    (newTenantId newUserId salt secret : string) (adb : AuthDb) :
  signUpSchema z mail password name tenantName = [] ->
  findAccountByEmail adb mail = None ->
  findAccountById adb newUserId = None ->
  (forall t, In t (au_tenants adb) -> tn_id t <> newTenantId) ->
  newTenantId <> "" ->
  configuredSecret c = Some secret ->
  jwt_verify c (jwt_sign c (mkPrincipal newUserId newTenantId mail) secret) secret
  = inr (mkPrincipal newUserId newTenantId mail) ->
  exists session,
    fst (signup env c z mail password name tenantName newTenantId newUserId salt adb)
    = Json 201 session
    /\ protect c
         (snd (signup env c z mail password name tenantName newTenantId newUserId
                      salt adb))
         (Some ("Bearer " ++ ss_token session))
       = Next (mkPrincipal newUserId newTenantId mail).
Proof.
  intros Hschema Hfree Hid Htid Hne Hsec Hver.
  rewrite (signup_stores env c z mail password name tenantName newTenantId
             newUserId salt adb Hschema Hfree).
  unfold issueToken. rewrite Hsec. cbn [fst snd].
  eexists. split; [reflexivity|]. cbn [ss_token principalOfUser u_id u_tenantId u_email].
  set (user := mkUser newUserId mail newTenantId
                      (Some (mkProfile newUserId name mail))).
  assert (Hsub : substring 7
                   (String.length
                      ("Bearer " ++ jwt_sign c (mkPrincipal newUserId newTenantId mail)
                                             secret) - 7)
                   ("Bearer " ++ jwt_sign c (mkPrincipal newUserId newTenantId mail)
                                          secret)
                 = jwt_sign c (mkPrincipal newUserId newTenantId mail) secret).
  { cbn. rewrite Nat.sub_0_r. apply substring_all. }
  apply (protect_passes c _ _ secret
           (mkAccount user (bcrypt_hash c password salt) None)
           (mkTenant newTenantId (orElse tenantName (name ++ "'s Organization"))
                     "FREE" "ACTIVE")).
  - apply prefix_correct. cbn.
    match goal with |- context [substring 0 0 ?t] => now destruct t end.
  - exact Hsec.
  - unfold user, principalOfUser. cbn [u_id u_tenantId u_email].
    rewrite Hsub. exact Hver.
  - unfold findAccountById. cbn. apply find_app_new; [exact Hid|].
    cbn. apply String.eqb_refl.
  - unfold tenantOf. cbn. apply find_snoc_fresh.
    + intros t Hin. now apply eqb_neq_false, Htid.
    + cbn. apply String.eqb_refl.
  - reflexivity.
  - exact Hne.
Qed.

(** Erin signs up at an empty store and her token is let through. *)
Lemma signup_then_protect_witness :
  exists session,
    fst (signup Sample.env0 sampleCrypto sampleZod "erin@x.com" "hunter22" "Erin"
                None "tA" "u5" "na" (mkAuthDb [] []))
    = Json 201 session
    /\ protect sampleCrypto
         (snd (signup Sample.env0 sampleCrypto sampleZod "erin@x.com" "hunter22"
                      "Erin" None "tA" "u5" "na" (mkAuthDb [] [])))
         (Some ("Bearer " ++ ss_token session))
       = Next (mkPrincipal "u5" "tA" "erin@x.com").
Proof.
  apply (signup_then_protect Sample.env0 sampleCrypto sampleZod "erin@x.com"
           "hunter22" "Erin" None "tA" "u5" "na" "s3cret" (mkAuthDb [] [])).
  - reflexivity.
  - reflexivity.
  - reflexivity.
  - intros t Hin. destruct Hin.
  - discriminate.
  - reflexivity.
  - reflexivity.
Defined.

(** X30.  A body that the schema of [signup] or [signin] refuses (an address
    that is no e-mail address, a password under eight characters at sign-up
    or empty at sign-in, an empty name or tenant name) is answered by
    [errorHandler] on the [ZodError], which has no branch for it: the status
    is 500, or 403 when the message holds one of the handler's marker words,
    never 400; and nothing is stored. *)
Theorem auth_body_refused (env : Env) (c : Crypto) (z : Zod)
    (mail password name : string) (tenantName : option string)
    (newTenantId newUserId salt : string) (now : Z) (adb : AuthDb) :
  (z_email z mail = false \/ String.length password < 8 \/ name = ""
   \/ tenantName = Some "" ->
   exists s msg,
     signup env c z mail password name tenantName newTenantId newUserId salt adb
     = (Fail s msg, adb)
     /\ (s = 500 \/ s = 403)%Z
     /\ (plainMessage (z_message z (signUpSchema z mail password name tenantName)) ->
         s = 500%Z /\ (production env = true -> msg = "Internal server error")))
  /\ (z_email z mail = false \/ password = "" ->
      exists s msg,
        signin env c z mail password now adb = (Fail s msg, adb)
        /\ (s = 500 \/ s = 403)%Z
        /\ (plainMessage (z_message z (signInSchema z mail password)) ->
            s = 500%Z /\ (production env = true -> msg = "Internal server error"))).
Proof.
  assert (Hzod : forall paths,
            exists s msg,
              @errorHandler Session env (ZodError z paths) = Fail s msg
              /\ (s = 500 \/ s = 403)%Z
              /\ (plainMessage (z_message z paths) ->
                  s = 500%Z
                  /\ (production env = true -> msg = "Internal server error"))).
  { intros paths. unfold errorHandler, ZodError, plainMessage.
    cbn [e_name e_code e_message]. cbn [String.eqb Ascii.eqb Bool.eqb andb].
    set (m := z_message z paths).
    destruct (Str.includes m "doesn't exist") eqn:H1; cbn [orb].
    - eexists _, _. split; [reflexivity|]. split; [now left|].
      intros (H & _). discriminate.
    - destruct (Str.includes m "Unknown table") eqn:H2.
      + eexists _, _. split; [reflexivity|]. split; [now left|].
        intros (_ & H & _). discriminate.
      + destruct (Str.includes m "Unauthorized") eqn:H3; cbn [orb].
        * eexists _, _. split; [reflexivity|]. split; [now right|].
          intros (_ & _ & H & _). discriminate.
        * destruct (Str.includes m "Tenant mismatch") eqn:H4.
          -- eexists _, _. split; [reflexivity|]. split; [now right|].
             intros (_ & _ & _ & H). discriminate.
          -- eexists _, _. split; [reflexivity|]. split; [now left|].
             intros _. split; [reflexivity|]. intros Hp. now rewrite Hp. }
  split.
  - intros Hbad.
    assert (Hno : signUpSchema z mail password name tenantName <> []).
    { intros Hs. apply signUpSchema_accepts in Hs.
      destruct Hs as (He & Hp & Hn & Ht).
      destruct Hbad as [Hb|[Hb|[Hb|Hb]]].
      - rewrite Hb in He. discriminate.
      - lia.
      - subst name. cbn in Hn. lia.
      - specialize (Ht "" Hb). cbn in Ht. lia. }
    unfold signup.
    destruct (signUpSchema z mail password name tenantName) as [|p ps] eqn:Hs;
      [contradiction|].
    destruct (Hzod (p :: ps)) as (s & msg & Hr & Hst & Hplain).
    exists s, msg. cbv beta iota. rewrite Hr. auto.
  - intros Hbad.
    assert (Hno : signInSchema z mail password <> []).
    { intros Hs. apply signInSchema_accepts in Hs. destruct Hs as (He & Hp).
      destruct Hbad as [Hb|Hb].
      - rewrite Hb in He. discriminate.
      - subst password. cbn in Hp. lia. }
    unfold signin.
    destruct (signInSchema z mail password) as [|p ps] eqn:Hs; [contradiction|].
    destruct (Hzod (p :: ps)) as (s & msg & Hr & Hst & Hplain).
    exists s, msg. cbv beta iota. rewrite Hr. auto.
Qed.

(** A sign-up with a password of five characters is refused. *)
Lemma auth_body_refused_witness :
  exists s msg,
    signup Sample.env0 sampleCrypto sampleZod "gina@x.com" "short" "Gina" None "tC"
           "u7" "xy" sampleAuthDb
    = (Fail s msg, sampleAuthDb)
    /\ (s = 500 \/ s = 403)%Z
    /\ (plainMessage
          (z_message sampleZod (signUpSchema sampleZod "gina@x.com" "short" "Gina" None)) ->
        s = 500%Z
        /\ (production Sample.env0 = true -> msg = "Internal server error")).
Proof.
  apply (proj1 (auth_body_refused Sample.env0 sampleCrypto sampleZod "gina@x.com"
                  "short" "Gina" None "tC" "u7" "xy" 0%Z sampleAuthDb)).
  right. left. cbn. lia.
Defined.
